(** * web4all: the accessibility rule engine of [main.py]

    A shallow embedding of [WebAccessibilityChecker]: the six document
    checkers, the aggregator [run_accessibility_check] and the Python and
    BeautifulSoup operations they call, followed by the properties of the
    specification that are stated about them.

    Conventions of the embedding.
    - A Python [float] is a binary64 number: Rocq's primitive [float], with
      the kernel's IEEE 754 operations.  A Python [int] that holds a count
      is a [nat]; the result of [round] is a [Z].  The [int] 0 that
      [max(0, x)] or an initial [total_score = 0] can leave in a float
      position is the float 0.0, which every later operation of the
      program turns it into.
    - A Python [str] is a [string]: a sequence of code points below 256.
    - A parsed document is the tree BeautifulSoup builds: tags with a name,
      an attribute dictionary and contents, and text nodes.
    - A [for] loop over a list that updates local counters is a [fold_left]
      of its body over that list, the counters being the state.
    - A call that can raise returns an [option]. *)

From Stdlib Require Import Bool Arith ZArith List String Ascii Lia.
From Stdlib Require Import DecimalString.
From Stdlib Require Import QArith Qpower Lqa.
From Stdlib Require Import Uint63 Floats.
Import ListNotations.

Close Scope Q_scope.

Set Warnings "-inexact-float".

Local Open Scope string_scope.
Local Open Scope list_scope.

(** ** Python strings *)

Module PyStr.

(** [str.isspace] on one code point below 256, which is also what the
    regular expression class [\s] accepts there. *)
Definition is_space (c : ascii) : bool :=
  let n := N_of_ascii c in
  ((9 <=? n) && (n <=? 13) || (28 <=? n) && (n <=? 32)
   || (n =? 133) || (n =? 160))%N.

(** A decimal digit, the class [\d] below 256. *)
Definition is_digit (c : ascii) : bool :=
  let n := N_of_ascii c in ((48 <=? n) && (n <=? 57))%N.

Fixpoint lstrip (s : string) : string :=
  match s with
  | String c s' => if is_space c then lstrip s' else s
  | EmptyString => EmptyString
  end.

Fixpoint rstrip (s : string) : string :=
  match s with
  | String c s' =>
      match rstrip s' with
      | EmptyString => if is_space c then EmptyString else String c EmptyString
      | r => String c r
      end
  | EmptyString => EmptyString
  end.

(** [s.strip()] *)
Definition strip (s : string) : string := rstrip (lstrip s).

(** [str.lower] on one code point below 256: the letters A-Z and the
    Latin-1 capitals 192-222 other than the multiplication sign 215. *)
Definition lower_char (c : ascii) : ascii :=
  let n := N_of_ascii c in
  if ((65 <=? n) && (n <=? 90)
      || (192 <=? n) && (n <=? 222) && negb (n =? 215))%N
  then ascii_of_N (n + 32) else c.

(** [s.lower()] *)
Fixpoint lower (s : string) : string :=
  match s with
  | String c s' => String (lower_char c) (lower s')
  | EmptyString => EmptyString
  end.

(** [x in xs] for a list of strings *)
Definition mem (x : string) (xs : list string) : bool :=
  existsb (String.eqb x) xs.

(** [needle in s]: substring test *)
Fixpoint contains (needle s : string) : bool :=
  prefix needle s ||
  match s with
  | String _ s' => contains needle s'
  | EmptyString => false
  end.

(** [str(n)] for a count *)
Definition of_nat (n : nat) : string := NilEmpty.string_of_uint (Nat.to_uint n).

(** An f-string: the concatenation of its parts. *)
Definition fmt (parts : list string) : string := String.concat "" parts.

(** The truth value of a string: non-empty. *)
Definition truthy (s : string) : bool :=
  match s with EmptyString => false | _ => true end.

End PyStr.

(** ** The document tree built by BeautifulSoup *)

Module Bs4.

(** A page element: a text node or a tag with its attribute dictionary
    (each key once) and its contents in document order. *)
#[warnings="-register-all"]
Inductive node : Type :=
| NavigableString (text : string)
| Tag (name : string) (attrs : list (string * string)) (contents : list node).

(** The [BeautifulSoup] object: the top-level contents of the document. *)
Definition soup := list node.

(** A tag as the checkers see it: its own fields and the names of its
    ancestors, nearest first (the names along [tag.parents], without the
    document object itself). *)
Record element : Type := mk_element {
  el_name : string;
  el_attrs : list (string * string);
  el_contents : list node;
  el_parents : list string
}.

(** The tags below a node in document order (a tag comes before the tags
    it contains), each with its ancestors. *)
Fixpoint descendants (parents : list string) (n : node) : list element :=
  match n with
  | NavigableString _ => []
  | Tag name attrs contents =>
      mk_element name attrs contents parents
        :: flat_map (descendants (name :: parents)) contents
  end.

Definition all_tags (doc : soup) : list element :=
  flat_map (descendants []) doc.

(** [tag.get(key)] *)
Fixpoint lookup (key : string) (attrs : list (string * string)) : option string :=
  match attrs with
  | (k, v) :: rest => if String.eqb k key then Some v else lookup key rest
  | [] => None
  end.

Definition get (e : element) (key : string) : option string :=
  lookup key (el_attrs e).

(** [tag.get(key, default)] *)
Definition get_default (e : element) (key default : string) : string :=
  match get e key with Some v => v | None => default end.

(** [tag.has_attr(key)] *)
Definition has_attr (e : element) (key : string) : bool :=
  match get e key with Some _ => true | None => false end.

(** [soup.find_all(names)] *)
Definition find_all (names : list string) (doc : soup) : list element :=
  filter (fun e => PyStr.mem (el_name e) names) (all_tags doc).

(** [soup.find(name)]: the first such tag, if any *)
Definition find (name : string) (doc : soup) : option element :=
  hd_error (find_all [name] doc).

(** [soup.find(name, attrs={key: value})]: the first tag of that name that
    carries the attribute with exactly that value *)
Definition find_with_attr (name key value : string) (doc : soup) : option element :=
  hd_error (filter (fun e => match get e key with
                             | Some v => String.eqb v value
                             | None => false
                             end)
                   (find_all [name] doc)).

(** [tag.find(name)]: the first tag of that name below [tag] *)
Definition tag_find (name : string) (e : element) : option element :=
  hd_error (filter (fun d => String.eqb (el_name d) name)
                   (flat_map (descendants (el_name e :: el_parents e))
                             (el_contents e))).

(** The truth value of a search result: a tag is true, [None] is false. *)
Definition truthy (r : option element) : bool :=
  match r with Some _ => true | None => false end.

(** The strings below a node, concatenated. *)
Fixpoint node_text (n : node) : string :=
  match n with
  | NavigableString s => s
  | Tag _ _ contents =>
      fold_right String.append EmptyString (map node_text contents)
  end.

(** [tag.get_text()] *)
Definition get_text (e : element) : string :=
  fold_right String.append EmptyString (map node_text (el_contents e)).

(** [soup.select('[style*="color"]')]: the tags whose [style] attribute
    contains the given text *)
Definition select_style_contains (needle : string) (doc : soup) : list element :=
  filter (fun e => match get e "style" with
                   | Some v => PyStr.contains needle v
                   | None => false
                   end)
         (all_tags doc).

End Bs4.

(** ** Python numbers *)

Module Py.

Local Open Scope float_scope.

(** [float(n)] for a count [n]: the conversion Python applies when an
    [int] meets a [float] in [+], [*] or [/].  A count is the length of a
    list, hence below 2^63, and converts with one rounding to nearest. *)
Definition of_count (n : nat) : float :=
  of_uint63 (Uint63.of_Z (Z.of_nat n)).

(** [a / b] for two counts (true division of [int]s).  Python returns the
    correctly rounded quotient of the two integers; for counts below 2^53
    both conversions are exact and this is the float division below. *)
Definition truediv (a b : nat) : float := of_count a / of_count b.

(** [min(a, b)]: [b] when [b < a], else [a] *)
Definition min (a b : float) : float := if b <? a then b else a.

(** [max(a, b)]: [b] when [b > a], else [a] *)
Definition max (a b : float) : float := if a <? b then b else a.

(** Half of the way between two integers goes to the even one. *)
Definition round_half_even (m d : Z) : Z :=
  let q := (m / d)%Z in
  match (2 * (m mod d) ?= d)%Z with
  | Lt => q
  | Gt => (q + 1)%Z
  | Eq => if Z.even q then q else (q + 1)%Z
  end.

(** [round(x)] with one argument: the nearest [int], ties to even;
    it raises on an infinity and on a NaN. *)
Definition round (x : float) : option Z :=
  match Prim2SF x with
  | S754_zero _ => Some 0%Z
  | S754_finite s m e =>
      let v := if (0 <=? e)%Z then (Zpos m * 2 ^ e)%Z
               else round_half_even (Zpos m) (2 ^ (- e)) in
      Some (if s then (- v)%Z else v)
  | S754_infinity _ => None
  | S754_nan => None
  end.

End Py.

(** ** The regular expressions of the contrast check *)

Module Re.

(** The fragment of Python's [re] syntax that [main.py] uses: literal
    characters, character classes, a starred class, concatenation and
    alternation. *)
Inductive regex : Type :=
| Chr (c : ascii)
| Cls (p : ascii -> bool)
| StarCls (p : ascii -> bool)
| Cat (r1 r2 : regex)
| Alt (r1 r2 : regex).

(** The literal text [s] *)
Fixpoint lit (s : string) (k : regex) : regex :=
  match s with
  | String c s' => Cat (Chr c) (lit s' k)
  | EmptyString => k
  end.

(** A starred class followed by the continuation [k]: the longest run of
    the class first, then shorter ones. *)
Fixpoint star (p : ascii -> bool) (k : string -> bool) (t : string) : bool :=
  match t with
  | String c t' => (p c && star p k t') || k t
  | EmptyString => k t
  end.

(** A backtracking matcher: [matches r s k] holds when [r] matches a prefix
    of [s] and the continuation [k] accepts what follows it. *)
Fixpoint matches (r : regex) (s : string) (k : string -> bool) : bool :=
  match r with
  | Chr c =>
      match s with
      | String c' s' => Ascii.eqb c c' && k s'
      | EmptyString => false
      end
  | Cls p =>
      match s with
      | String c' s' => p c' && k s'
      | EmptyString => false
      end
  | StarCls p => star p k s
  | Cat r1 r2 => matches r1 s (fun s' => matches r2 s' k)
  | Alt r1 r2 => matches r1 s k || matches r2 s k
  end.

(** [re.search(r, s)] as a truth value: a match starts somewhere in [s]. *)
Fixpoint search (r : regex) (s : string) : bool :=
  matches r s (fun _ => true) ||
  match s with
  | String _ s' => search r s'
  | EmptyString => false
  end.

Definition one_of (cs : string) (c : ascii) : bool :=
  existsb (Ascii.eqb c) (list_ascii_of_string cs).

Definition in_range (lo hi : ascii) (c : ascii) : bool :=
  ((N_of_ascii lo <=? N_of_ascii c) && (N_of_ascii c <=? N_of_ascii hi))%N.

(** Every character of [s] is in the class [p]. *)
Definition all_of (p : ascii -> bool) (s : string) : bool :=
  forallb p (list_ascii_of_string s).

(** The strings a pattern stands for. *)
Fixpoint lang (r : regex) (w : string) : Prop :=
  match r with
  | Chr c => w = String c EmptyString
  | Cls p => exists c, w = String c EmptyString /\ p c = true
  | StarCls p => all_of p w = true
  | Cat r1 r2 => exists w1 w2, w = (w1 ++ w2)%string /\ lang r1 w1 /\ lang r2 w2
  | Alt r1 r2 => lang r1 w \/ lang r2 w
  end.

End Re.

(** ** The checker *)

(** [{"score": ..., "issues": ...}] *)
Record category_result : Type := mk_category_result {
  score : float;
  cat_issues : list string
}.

(** The dictionary [run_accessibility_check] returns; [categories] keeps
    the insertion order of the Python dictionary. *)
Record report : Type := mk_report {
  url : string;
  total_score : Z;
  categories : list (string * category_result);
  issues : list string
}.

(** What [requests.get] followed by the parser gives for a URL: the parsed
    page, or a [RequestException]. *)
Inductive response : Type :=
| RequestException
| Page (doc : Bs4.soup).

Section Checker.

Local Open Scope float_scope.

(** The outside world: what fetching each URL yields. *)
Variable web : string -> response.

Definition fetch_url (u : string) : option Bs4.soup :=
  match web u with
  | Page doc => Some doc
  | RequestException => None
  end.

(** *** Images *)

Record alt_state : Type := mk_alt_state {
  missing_alt : nat;
  empty_alt : nat;
  alt_issues : list string
}.

Definition alt_step (st : alt_state) (img : Bs4.element) : alt_state :=
  match Bs4.get img "alt" with
  | None =>
      mk_alt_state (missing_alt st + 1) (empty_alt st)
        (alt_issues st ++
         [PyStr.fmt ["Image missing alt attribute: ";
                     Bs4.get_default img "src" "unknown"]])
  | Some alt =>
      if String.eqb (PyStr.strip alt) "" &&
         negb (match Bs4.get img "role" with
               | Some r => String.eqb r "presentation"
               | None => false
               end)
      then mk_alt_state (missing_alt st) (empty_alt st + 1)
             (alt_issues st ++
              [PyStr.fmt ["Image has empty alt text: ";
                          Bs4.get_default img "src" "unknown"]])
      else st
  end.

Definition check_alt_text (doc : Bs4.soup) : float * list string :=
  let images := Bs4.find_all ["img"] doc in
  let total_images := List.length images in
  if Nat.eqb total_images 0 then (1.0, [])
  else
    let st := fold_left alt_step images (mk_alt_state 0 0 []) in
    let score :=
      1.0 - ((Py.of_count (missing_alt st) + Py.of_count (empty_alt st) * 0.5)
             / Py.of_count total_images) in
    (Py.max 0 (Py.min score 1.0), alt_issues st).

(** *** Headings *)

(** [int(h.name[1])] for a tag named [h1] to [h6], the only names the
    heading search returns *)
Definition heading_level (name : string) : nat :=
  match name with
  | String _ (String d _) => N.to_nat (N_of_ascii d - 48)
  | _ => 0
  end.

Record skip_state : Type := mk_skip_state {
  prev_level : nat;
  skips : nat;
  skip_issues : list string
}.

Definition skip_step (st : skip_state) (level : nat) : skip_state :=
  if Nat.ltb (prev_level st + 1) level && Nat.ltb 0 (prev_level st)
  then mk_skip_state level (skips st + 1)
         (skip_issues st ++
          [PyStr.fmt ["Heading level skip from h"; PyStr.of_nat (prev_level st);
                      " to h"; PyStr.of_nat level]])
  else mk_skip_state level (skips st) (skip_issues st).

Definition check_heading_structure (doc : Bs4.soup) : float * list string :=
  let headings := Bs4.find_all ["h1"; "h2"; "h3"; "h4"; "h5"; "h6"] doc in
  match headings with
  | [] => (0.0, ["No headings found on page"])
  | _ =>
      let h1_count := List.length (Bs4.find_all ["h1"] doc) in
      let issues0 :=
        if Nat.eqb h1_count 0 then ["No H1 heading found"]
        else if Nat.ltb 1 h1_count
             then [PyStr.fmt ["Multiple H1 headings found ("; PyStr.of_nat h1_count; ")"]]
             else [] in
      let levels := map (fun h => heading_level (Bs4.el_name h)) headings in
      let st := fold_left skip_step levels (mk_skip_state 0 0 issues0) in
      let score := 1.0 in
      let score :=
        if Nat.eqb h1_count 0 then score - 0.5
        else if Nat.ltb 1 h1_count then score - 0.3
             else score in
      let score :=
        if Nat.ltb 0 (skips st)
        then score - Py.min 0.5 (Py.of_count (skips st) * 0.1)
        else score in
      (Py.max 0 score, skip_issues st)
  end.

(** *** Links *)

Definition poor_link_texts : list string :=
  ["click here"; "read more"; "more"; "link"; "here"; "this"; "page"].

Record link_state : Type := mk_link_state {
  poor_links : nat;
  link_issues : list string
}.

Definition link_step (st : link_state) (link : Bs4.element) : link_state :=
  let link_text := PyStr.lower (PyStr.strip (Bs4.get_text link)) in
  if Bs4.truthy (Bs4.tag_find "img" link) && negb (PyStr.truthy link_text)
  then st
  else if negb (PyStr.truthy link_text)
  then mk_link_state (poor_links st + 1)
         (link_issues st ++
          [PyStr.fmt ["Empty link text: "; Bs4.get_default link "href" "unknown"]])
  else if PyStr.mem link_text poor_link_texts
          || Nat.ltb (String.length link_text) 3
  then mk_link_state (poor_links st + 1)
         (link_issues st ++
          [PyStr.fmt ["Non-descriptive link text: '"; link_text; "' for ";
                      Bs4.get_default link "href" "unknown"]])
  else st.

Definition check_descriptive_links (doc : Bs4.soup) : float * list string :=
  let links := Bs4.find_all ["a"] doc in
  match links with
  | [] => (1.0, [])
  | _ =>
      let total_links := List.length links in
      let st := fold_left link_step links (mk_link_state 0 []) in
      let score := 1.0 - Py.truediv (poor_links st) total_links in
      (Py.max 0 score, link_issues st)
  end.
(** *** Forms *)

Definition excluded_types : list string :=
  ["hidden"; "submit"; "button"; "image"].

Record form_state : Type := mk_form_state {
  total_inputs : nat;
  unlabeled : nat;
  form_issues : list string
}.

(** [inp.get("type") in excluded_types] *)
Definition type_excluded (inp : Bs4.element) : bool :=
  match Bs4.get inp "type" with
  | Some t => PyStr.mem t excluded_types
  | None => false
  end.

(** The value of [has_label] at the end of the loop body. *)
Definition has_label (doc : Bs4.soup) (inp : Bs4.element) : bool :=
  let has_label := false in
  let has_label :=
    match Bs4.get inp "id" with
    | Some id =>
        if Bs4.truthy (Bs4.find_with_attr "label" "for" id doc)
        then true else has_label
    | None => has_label
    end in
  let parent_labels :=
    filter (fun p => String.eqb p "label") (Bs4.el_parents inp) in
  let has_label :=
    match parent_labels with
    | [] => has_label
    | _ => true
    end in
  let has_label :=
    match Bs4.get inp "aria-label" with
    | Some a => if PyStr.truthy (PyStr.strip a) then true else has_label
    | None => has_label
    end in
  has_label.

Definition form_step (doc : Bs4.soup) (st : form_state) (inp : Bs4.element)
  : form_state :=
  if String.eqb (Bs4.el_name inp) "input" && type_excluded inp then st
  else
    if negb (has_label doc inp)
    then mk_form_state (total_inputs st + 1) (unlabeled st + 1)
           (form_issues st ++
            [PyStr.fmt ["Form control missing label: ";
                        Bs4.get_default inp "name" "unnamed"; " ";
                        Bs4.get_default inp "type" ""]])
    else mk_form_state (total_inputs st + 1) (unlabeled st) (form_issues st).

Definition check_form_labels (doc : Bs4.soup) : float * list string :=
  let inputs := Bs4.find_all ["input"; "select"; "textarea"] doc in
  match inputs with
  | [] => (1.0, [])
  | _ =>
      let st := fold_left (form_step doc) inputs (mk_form_state 0 0 []) in
      if Nat.eqb (total_inputs st) 0 then (1.0, [])
      else
        let score := 1.0 - Py.truediv (unlabeled st) (total_inputs st) in
        (Py.max 0 score, form_issues st)
  end.

(** *** Semantic structure *)

Definition semantic_tags : list string :=
  ["header"; "footer"; "nav"; "main"; "article"; "section"; "aside"].

Definition check_semantic_structure (doc : Bs4.soup) : float * list string :=
  let semantics := Bs4.find_all semantic_tags doc in
  let landmarks := List.length semantics in
  let score := Py.min 1.0 (Py.truediv landmarks 3) in
  let issues0 :=
    if Nat.eqb landmarks 0 then ["No semantic HTML elements found"] else [] in
  if negb (Bs4.truthy (Bs4.find "main" doc))
  then (Py.max 0 (score - 0.3), issues0 ++ ["No <main> element found"])
  else (Py.max 0 score, issues0).

(** *** Colour contrast *)

Definition ws_star (k : Re.regex) : Re.regex :=
  Re.Cat (Re.StarCls PyStr.is_space) k.

(** [color:\s*#[ef][ef][ef]|color:\s*rgb\(2[3-5]\d] *)
Definition light_pattern : Re.regex :=
  Re.Alt
    (Re.lit "color:" (ws_star (Re.lit "#"
       (Re.Cat (Re.Cls (Re.one_of "ef"))
          (Re.Cat (Re.Cls (Re.one_of "ef")) (Re.Cls (Re.one_of "ef")))))))
    (Re.lit "color:" (ws_star (Re.lit "rgb(2"
       (Re.Cat (Re.Cls (Re.in_range "3" "5")) (Re.Cls PyStr.is_digit))))).

(** [color:\s*#[0-2][0-2][0-2]|color:\s*rgb\([0-2]\d] *)
Definition dark_pattern : Re.regex :=
  Re.Alt
    (Re.lit "color:" (ws_star (Re.lit "#"
       (Re.Cat (Re.Cls (Re.in_range "0" "2"))
          (Re.Cat (Re.Cls (Re.in_range "0" "2"))
                  (Re.Cls (Re.in_range "0" "2")))))))
    (Re.lit "color:" (ws_star (Re.lit "rgb("
       (Re.Cat (Re.Cls (Re.in_range "0" "2")) (Re.Cls PyStr.is_digit))))).

Record contrast_state : Type := mk_contrast_state {
  potential_issues : nat;
  contrast_issues : list string
}.

Definition contrast_step (st : contrast_state) (element : Bs4.element)
  : contrast_state :=
  let style := Bs4.get_default element "style" "" in
  let st :=
    if Re.search light_pattern style
    then mk_contrast_state (potential_issues st + 1)
           (contrast_issues st ++ ["Potential low contrast light text"])
    else st in
  if Re.search dark_pattern style
  then mk_contrast_state (potential_issues st + 1)
         (contrast_issues st ++ ["Potential low contrast dark text"])
  else st.

Definition check_color_contrast (doc : Bs4.soup) : float * list string :=
  let elements_with_color := Bs4.select_style_contains "color" doc in
  let st := fold_left contrast_step elements_with_color
              (mk_contrast_state 0 []) in
  let score := 1.0 - Py.min 0.5 (Py.of_count (potential_issues st) * 0.1) in
  match contrast_issues st with
  | [] => (score, ["Limited contrast check performed (inline styles only)"])
  | issues => (score, issues)
  end.

(** *** The aggregator *)

Definition category_weights : list (string * float) :=
  [("images", 0.15); ("headings", 0.15); ("links", 0.10);
   ("forms", 0.15); ("structure", 0.20); ("contrast", 0.15)].

(** [category_weights[category]], [None] when the key is absent *)
Fixpoint weight_of (category : string) (weights : list (string * float))
  : option float :=
  match weights with
  | (k, w) :: rest => if String.eqb k category then Some w
                      else weight_of category rest
  | [] => None
  end.

(** The body of the loop over [results["categories"].items()]; the state
    is [(total_score, total_weight)]. *)
Definition weigh_step (acc : float * float) (item : string * category_result)
  : float * float :=
  let '(category, details) := item in
  match weight_of category category_weights with
  | Some w => (fst acc + score details * w, snd acc + w)
  | None => acc
  end.

(** The six checkers in the order they are called, each stored under its
    category name. *)
Definition run_checks (doc : Bs4.soup) : list (string * category_result) :=
  let '(alt_score, alt_issues) := check_alt_text doc in
  let '(headings_score, headings_issues) := check_heading_structure doc in
  let '(links_score, links_issues) := check_descriptive_links doc in
  let '(forms_score, forms_issues) := check_form_labels doc in
  let '(structure_score, structure_issues) := check_semantic_structure doc in
  let '(contrast_score, contrast_issues) := check_color_contrast doc in
  [("images", mk_category_result alt_score alt_issues);
   ("headings", mk_category_result headings_score headings_issues);
   ("links", mk_category_result links_score links_issues);
   ("forms", mk_category_result forms_score forms_issues);
   ("structure", mk_category_result structure_score structure_issues);
   ("contrast", mk_category_result contrast_score contrast_issues)].

(** [all_issues] after the six [extend] calls *)
Definition all_issues (cats : list (string * category_result)) : list string :=
  flat_map (fun item => cat_issues (snd item)) cats.

(** The value of [normalized_score] for the recorded categories *)
Definition normalized_score (cats : list (string * category_result)) : float :=
  let '(total_score, total_weight) := fold_left weigh_step cats (0, 0) in
  if 0 <? total_weight then total_score / total_weight else 0.

(** [run_accessibility_check(url)]; [None] stands for an exception that
    leaves the method ([round] raising). *)
Definition run_accessibility_check (u : string) : option report :=
  match fetch_url u with
  | None => Some (mk_report u 0 [] ["Failed to fetch URL"])
  | Some doc =>
      let cats := run_checks doc in
      match Py.round (normalized_score cats * 100) with
      | Some total => Some (mk_report u total cats (all_issues cats))
      | None => None
      end
  end.

End Checker.

(** ** The specification's wording

    The quantities the specification names, written independently of the
    loops of the checker. *)

Module Spec.

Local Open Scope float_scope.

(** How many members of a list satisfy a test. *)
Definition count {A : Type} (p : A -> bool) (l : list A) : nat :=
  List.length (filter p l).

(** Clamping to [[0,1]]. *)
Definition clamp01 (x : float) : float := Py.max 0 (Py.min x 1).

(** A float in [[0,1]]. *)
Definition in_unit (x : float) : Prop :=
  (0 <=? x) = true /\ (x <=? 1) = true.

(** *** Images *)

(** Blank: nothing but whitespace. *)
Definition blank (s : string) : bool :=
  forallb PyStr.is_space (list_ascii_of_string s).

Definition decorative (img : Bs4.element) : bool :=
  match Bs4.get img "role" with
  | Some r => String.eqb r "presentation"
  | None => false
  end.

(** A full miss: no [alt] attribute. *)
Definition full_miss (img : Bs4.element) : bool :=
  negb (Bs4.has_attr img "alt").

(** A half miss: a blank [alt] on an image that is not decorative. *)
Definition half_miss (img : Bs4.element) : bool :=
  match Bs4.get img "alt" with
  | Some alt => blank alt && negb (decorative img)
  | None => false
  end.

(** *** Headings *)

(** The skips along a sequence of levels that follows a heading of level
    [prev] ([prev = 0]: no heading yet). *)
Fixpoint count_skips (prev : nat) (levels : list nat) : nat :=
  match levels with
  | level :: rest =>
      (if Nat.ltb (prev + 1) level && Nat.ltb 0 prev then 1 else 0)
      + count_skips level rest
  | [] => 0
  end.

Definition h1_penalty (h1_count : nat) : float :=
  if Nat.eqb h1_count 0 then 0.5
  else if Nat.ltb 1 h1_count then 0.3 else 0.

Definition skip_penalty (skips : nat) : float :=
  Py.min 0.5 (Py.of_count skips * 0.1).

(** *** Links *)

Inductive link_class : Type :=
| LinkSkipped
| LinkEmpty
| LinkPoor
| LinkFine.

(** The trimmed, lowercased text of an anchor. *)
Definition link_text (a : Bs4.element) : string :=
  PyStr.lower (PyStr.strip (Bs4.get_text a)).

(** The anchor contains an image. *)
Definition has_image (a : Bs4.element) : bool :=
  existsb (fun d => String.eqb (Bs4.el_name d) "img")
    (flat_map (Bs4.descendants (Bs4.el_name a :: Bs4.el_parents a))
              (Bs4.el_contents a)).

Definition classify_link (a : Bs4.element) : link_class :=
  let t := link_text a in
  if String.eqb t "" then (if has_image a then LinkSkipped else LinkEmpty)
  else if PyStr.mem t poor_link_texts || Nat.ltb (String.length t) 3
       then LinkPoor else LinkFine.

Definition link_miss (a : Bs4.element) : bool :=
  match classify_link a with
  | LinkEmpty | LinkPoor => true
  | LinkSkipped | LinkFine => false
  end.

(** The issue an anchor gives rise to, if any. *)
Definition link_issue (a : Bs4.element) : list string :=
  match classify_link a with
  | LinkEmpty =>
      [PyStr.fmt ["Empty link text: "; Bs4.get_default a "href" "unknown"]]
  | LinkPoor =>
      [PyStr.fmt ["Non-descriptive link text: '"; link_text a; "' for ";
                  Bs4.get_default a "href" "unknown"]]
  | LinkSkipped | LinkFine => []
  end.

(** *** Forms *)

(** A control that counts: not an [input] of an excluded type. *)
Definition qualifying (c : Bs4.element) : bool :=
  negb (String.eqb (Bs4.el_name c) "input" && type_excluded c).

Definition controls (doc : Bs4.soup) : list Bs4.element :=
  filter qualifying (Bs4.find_all ["input"; "select"; "textarea"] doc).

(** A labeled control: a [label] refers to its [id], or it sits inside a
    [label], or it has an [aria-label] that is not blank. *)
Definition labeled (doc : Bs4.soup) (c : Bs4.element) : Prop :=
  (exists id l, Bs4.get c "id" = Some id /\ In l (Bs4.all_tags doc) /\
                Bs4.el_name l = "label" /\ Bs4.get l "for" = Some id)
  \/ In "label" (Bs4.el_parents c)
  \/ (exists a, Bs4.get c "aria-label" = Some a /\ blank a = false).

(** *** Colour contrast *)

(** A style declares a colour of some kind: it contains [color:],
    whitespace and then a text of that kind. *)
Definition declares (kind : string -> Prop) (style : string) : Prop :=
  exists pre ws tail post,
    style = (pre ++ "color:" ++ ws ++ tail ++ post)%string /\
    Re.all_of PyStr.is_space ws = true /\ kind tail.

(** What the light pattern looks for after [color:]: [#] and three
    characters [e] or [f], or [rgb(2], a digit from 3 to 5 and one more
    digit. *)
Definition light_tail (tail : string) : Prop :=
  (exists a b c,
      tail = String "#" (String a (String b (String c EmptyString))) /\
      Re.one_of "ef" a = true /\ Re.one_of "ef" b = true /\
      Re.one_of "ef" c = true)
  \/
  (exists d1 d2,
      tail = ("rgb(2" ++ String d1 (String d2 EmptyString))%string /\
      Re.in_range "3" "5" d1 = true /\ PyStr.is_digit d2 = true).

(** What the dark pattern looks for after [color:]: [#] and three
    characters from 0 to 2, or [rgb(], a digit from 0 to 2 and one more
    digit. *)
Definition dark_tail (tail : string) : Prop :=
  (exists a b c,
      tail = String "#" (String a (String b (String c EmptyString))) /\
      Re.in_range "0" "2" a = true /\ Re.in_range "0" "2" b = true /\
      Re.in_range "0" "2" c = true)
  \/
  (exists d1 d2,
      tail = ("rgb(" ++ String d1 (String d2 EmptyString))%string /\
      Re.in_range "0" "2" d1 = true /\ PyStr.is_digit d2 = true).


(** The elements the contrast check looks at: those whose [style]
    mentions [color]. *)
Definition styled (doc : Bs4.soup) : list Bs4.element :=
  Bs4.select_style_contains "color" doc.

Definition style_of (e : Bs4.element) : string :=
  Bs4.get_default e "style" "".








(** *** The weighted total *)

(** The weights of images, headings, links, forms, structure and
    contrast, in that order. *)
Definition weights : list float := [0.15; 0.15; 0.10; 0.15; 0.20; 0.15].

(** A sum of floats, added from the left. *)
Definition fsum (l : list float) : float := fold_left PrimFloat.add l 0.

Fixpoint products (xs ys : list float) : list float :=
  match xs, ys with
  | x :: xs', y :: ys' => x * y :: products xs' ys'
  | _, _ => []
  end.

(** [100 * (sum of score * weight) / (sum of weight)] *)
Definition weighted_total (scores : list float) : float :=
  100 * (fsum (products scores weights) / fsum weights).

End Spec.

(** ** Floats as rationals

    The vocabulary in which bounds on binary64 results are stated: the
    rational value of a mantissa and an exponent, and three classes of
    results. *)

Module FloatSpec.

Definition bpow (e : Z) : Q := (2 ^ e)%Q.

(** The value of mantissa [m] at exponent [e]. *)
Definition F2Q (m e : Z) : Q := (inject_Z m * bpow e)%Q.

(** The exponent of a binary64 number of magnitude [z]. *)
Definition fexp64 (z : Z) : Z := Z.max (z - 53) (-1074).

(** A mantissa and an exponent that make a binary64 number. *)
Definition valid64 (m : positive) (e : Z) : Prop :=
  bounded prec emax m e = true.

(** A shift record that lost nothing. *)
Definition exact (mrs : shr_record) : bool :=
  negb (shr_r mrs || shr_s mrs).

Definition is_exact (l : location) : bool :=
  match l with loc_Exact => true | _ => false end.

(** Finite, not negative and at most [b]. *)
Definition NB (r : spec_float) (b : Q) : Prop :=
  match r with
  | S754_zero _ => True
  | S754_finite false m e => (F2Q (Zpos m) e <= b)%Q
  | _ => False
  end.

(** Not negative: a zero, a positive number, plus infinity or a NaN. *)
Definition NN (r : spec_float) : Prop :=
  match r with
  | S754_zero false => True
  | S754_finite false _ _ => True
  | S754_infinity false => True
  | S754_nan => True
  | _ => False
  end.

(** Not above [b]: a number at most [b], a zero, a negative number, minus
    infinity or a NaN. *)
Definition LEb (r : spec_float) (b : Q) : Prop :=
  match r with
  | S754_finite false m e => (F2Q (Zpos m) e <= b)%Q
  | S754_infinity false => False
  | _ => True
  end.

Definition SF_one : spec_float := S754_finite false 4503599627370496 (-52).

(** A float that is a zero or a positive number at most one. *)
Definition unit_float (x : float) : Prop := NB (Prim2SF x) 1.

(** A float that is not negative. *)
Definition nonneg_float (x : float) : Prop := NN (Prim2SF x).

End FloatSpec.

(** ** More of Python *)

Module PyMore.

Local Open Scope float_scope.

(** The line feed of a string literal. *)
Definition nl : string := String (ascii_of_nat 10) EmptyString.

(** A cased code point below 256: a letter with a case, or one of the
    ordinal indicators 170 and 186. *)
Definition is_cased (c : ascii) : bool :=
  let n := N_of_ascii c in
  ((65 <=? n) && (n <=? 90) || (97 <=? n) && (n <=? 122)
   || (n =? 170) || (n =? 181) || (n =? 186)
   || (192 <=? n) && (n <=? 214) || (216 <=? n) && (n <=? 246)
   || (248 <=? n) && (n <=? 255))%N.

(** The title form of one code point.  The sharp s 223 becomes [Ss]; the
    title forms of 181 and 255 lie beyond 255, where the embedding has no
    code point: [None]. *)
Definition title_char (c : ascii) : option string :=
  let n := N_of_ascii c in
  if ((97 <=? n) && (n <=? 122) || (224 <=? n) && (n <=? 246)
      || (248 <=? n) && (n <=? 254))%N
  then Some (String (ascii_of_N (n - 32)) EmptyString)
  else if (n =? 223)%N then Some "Ss"
  else if ((n =? 181) || (n =? 255))%N then None
  else Some (String c EmptyString).

(** [str.title]: a code point that follows a cased one is lowered, any
    other takes its title form. *)
Fixpoint title_from (previous_is_cased : bool) (s : string) : option string :=
  match s with
  | String c s' =>
      match (if previous_is_cased
             then Some (String (PyStr.lower_char c) EmptyString)
             else title_char c),
            title_from (is_cased c) s' with
      | Some h, Some t => Some (h ++ t)%string
      | _, _ => None
      end
  | EmptyString => Some EmptyString
  end.

(** [s.title()] *)
Definition title (s : string) : option string := title_from false s.

(** [str(n)] for an [int] *)
Definition of_Z (z : Z) : string :=
  if (z <? 0)%Z then ("-" ++ PyStr.of_nat (Z.to_nat (- z)))%string
  else PyStr.of_nat (Z.to_nat z).

(** [float(n)] for an [int] below 2^63 in absolute value *)
Definition of_int (z : Z) : float :=
  if (z <? 0)%Z then - of_uint63 (Uint63.of_Z (- z))
  else of_uint63 (Uint63.of_Z z).

(** [int(x)]: the integer part, towards zero; it raises on an infinity
    and on a NaN. *)
Definition int (x : float) : option Z :=
  match Prim2SF x with
  | S754_zero _ => Some 0%Z
  | S754_finite s m e =>
      let v := if (0 <=? e)%Z then (Zpos m * 2 ^ e)%Z
               else (Zpos m / 2 ^ (- e))%Z in
      Some (if s then (- v)%Z else v)
  | S754_infinity _ => None
  | S754_nan => None
  end.

(** [enumerate(l)] *)
Definition enumerate {A : Type} (l : list A) : list (nat * A) :=
  combine (seq 0 (List.length l)) l.

(** [l[:1]] and [l[:-1]] are [firstn 1 l] and [removelast l]. *)

End PyMore.

(** ** Presenting a report *)

(** *** [main.py]: rating, text and chart *)

Definition get_score_rating (score : Z) : string :=
  if (90 <=? score)%Z then "Excellent"
  else if (80 <=? score)%Z then "Good"
  else if (70 <=? score)%Z then "Fair"
  else if (50 <=? score)%Z then "Poor"
  else "Very Poor".

(** One turn of the loop over the categories in [format_results]; [None]
    when [int] raises or the title leaves the code points below 256. *)
Definition format_category (output : option string)
           (item : string * category_result) : option string :=
  let '(category, details) := item in
  match output, PyMore.int (score details * 100)%float, PyMore.title category with
  | Some output, Some cat_score, Some title =>
      Some (output ++ PyStr.fmt ["- **"; title; "**: ";
                                 PyMore.of_Z cat_score; "/100"; PyMore.nl])%string
  | _, _, _ => None
  end.

(** One turn of the loop over the first ten issues. *)
Definition format_issue (output : string) (item : nat * string) : string :=
  let '(i, issue) := item in
  (output ++ PyStr.fmt [PyStr.of_nat (i + 1); ". "; issue; PyMore.nl])%string.

Definition format_results (results : report) : option string :=
  let score := total_score results in
  let rating := get_score_rating score in
  let output :=
    PyStr.fmt ["## Accessibility Report for "; url results;
               PyMore.nl; PyMore.nl] in
  let output :=
    (output ++ PyStr.fmt ["### Overall Score: "; PyMore.of_Z score;
                          "/100 - "; rating; PyMore.nl; PyMore.nl])%string in
  let output :=
    (output ++ PyStr.fmt ["### Category Scores:"; PyMore.nl; PyMore.nl])%string in
  match fold_left format_category (categories results) (Some output) with
  | None => None
  | Some output =>
      let output :=
        (output ++ PyStr.fmt [PyMore.nl; "### Top Issues:";
                              PyMore.nl; PyMore.nl])%string in
      let output :=
        fold_left format_issue
                  (PyMore.enumerate (firstn 10 (issues results))) output in
      if Nat.ltb 10 (List.length (issues results))
      then Some (output ++
                 PyStr.fmt [PyMore.nl; "...and ";
                            PyStr.of_nat (List.length (issues results) - 10);
                            " more issues."; PyMore.nl])%string
      else Some output
  end.

(** What [visualize_results] hands to matplotlib: the points of
    [ax.plot(angles, scores)], the ticks and labels of
    [plt.xticks(angles[:-1], categories)] and the title. *)
Record radar_chart : Type := mk_radar_chart {
  plot_angles : list float;
  plot_scores : list float;
  tick_angles : list float;
  tick_labels : list string;
  chart_title : string
}.

(** One turn of the loop that collects labels and scores. *)
Definition chart_step (acc : option (list string * list float))
           (item : string * category_result)
  : option (list string * list float) :=
  let '(category, details) := item in
  match acc, PyMore.title category with
  | Some (categories, scores), Some title =>
      Some (categories ++ [title], scores ++ [score details * 100]%float)
  | _, _ => None
  end.

Definition visualize_results (results : report) : option radar_chart :=
  match fold_left chart_step (categories results) (Some ([], [])) with
  | None => None
  | Some (categories, scores) =>
      let N := List.length categories in
      let angles :=
        map (fun n => (Py.of_count n / Py.of_count N * 2 * 3.14159)%float)
            (seq 0 N) in
      let angles := angles ++ firstn 1 angles in
      let scores := scores ++ firstn 1 scores in
      Some (mk_radar_chart angles scores (removelast angles) categories
              (PyStr.fmt ["Accessibility Score: ";
                          PyMore.of_Z (total_score results); "/100 - ";
                          get_score_rating (total_score results)]))
  end.

(** *** [app.py]: the page *)

Module App.

Local Open Scope float_scope.

Definition get_score_class (score : Z) : string :=
  if (90 <=? score)%Z then "excellent"
  else if (80 <=? score)%Z then "good"
  else if (70 <=? score)%Z then "fair"
  else if (50 <=? score)%Z then "poor"
  else "very-poor".

(** The colour of the score bar, the conditional expression in the
    overall score block. *)
Definition bar_color (score : Z) : string :=
  if (90 <=? score)%Z then "#28a745"
  else if (80 <=? score)%Z then "#17a2b8"
  else if (70 <=? score)%Z then "#ffc107"
  else if (50 <=? score)%Z then "#fd7e14"
  else "#dc3545".

(** The colours the style sheet of the page gives to the score
    classes. *)
Definition class_colors : list (string * string) :=
  [("excellent", "#28a745"); ("good", "#17a2b8"); ("fair", "#ffc107");
   ("poor", "#fd7e14"); ("very-poor", "#dc3545")].

(** [cat_score = int(details["score"] * 100)] *)
Definition cat_score (details : category_result) : option Z :=
  PyMore.int (score details * 100).

(** The argument of [st.progress(cat_score / 100)] *)
Definition progress_value (cat_score : Z) : float :=
  PyMore.of_int cat_score / PyMore.of_int 100.

(** The rows collected for the CSV download: one per issue, with the
    title of its category. *)
Definition issues_step (acc : option (list (string * string)))
           (item : string * category_result)
  : option (list (string * string)) :=
  let '(category, details) := item in
  fold_left
    (fun acc issue =>
       match acc, PyMore.title category with
       | Some rows, Some title => Some (rows ++ [(title, issue)])
       | _, _ => None
       end)
    (cat_issues details) acc.

Definition issues_data (results : report) : option (list (string * string)) :=
  fold_left issues_step (categories results) (Some []).

(** [recipient_email and "@" in recipient_email] *)
Definition email_accepted (recipient_email : string) : bool :=
  PyStr.truthy recipient_email && PyStr.contains "@" recipient_email.

End App.

(** *** What the presentations are compared with *)

Module PresentSpec.

(** The place of a rating on the scale from worst to best. *)
Definition rank (rating : string) : nat :=
  if String.eqb rating "Excellent" then 4
  else if String.eqb rating "Good" then 3
  else if String.eqb rating "Fair" then 2
  else if String.eqb rating "Poor" then 1
  else 0.

(** A rating as a style class: lower case, a hyphen for each space. *)
Fixpoint css_name (rating : string) : string :=
  match rating with
  | String c s =>
      String (if Ascii.eqb c " " then "-"%char else PyStr.lower_char c)
             (css_name s)
  | EmptyString => EmptyString
  end.





(** The number of light and of dark declarations among elements. *)
Definition light_count (elements : list Bs4.element) : nat :=
  Spec.count (fun e => Re.search light_pattern (Spec.style_of e)) elements.

Definition dark_count (elements : list Bs4.element) : nat :=
  Spec.count (fun e => Re.search dark_pattern (Spec.style_of e)) elements.

(** A category that can be shown: its score lies in [[0,1]] and its
    title stays within the code points of the embedding. *)
Definition presentable (c : string * category_result) : Prop :=
  FloatSpec.unit_float (score (snd c)) /\ exists t, PyMore.title (fst c) = Some t.

End PresentSpec.

(** *** Floats bounded from below *)

Module FloatBelow.

Import FloatSpec.

(** Positive and at least [b]: a number at least [b] or plus infinity. *)
Definition GEb (r : spec_float) (b : Q) : Prop :=
  match r with
  | S754_finite false m e => (b <= F2Q (Zpos m) e)%Q
  | S754_infinity false => True
  | _ => False
  end.

End FloatBelow.

(** ** The embedding at work *)

Example round_ties_to_even :
  Py.round 0.5 = Some 0%Z /\ Py.round 1.5 = Some 2%Z /\
  Py.round 2.5 = Some 2%Z /\ Py.round 61.111 = Some 61%Z /\
  Py.round (-0.75) = Some (-1)%Z /\ Py.round infinity = None /\
  Py.round nan = None.
Proof. vm_compute. repeat split. Qed.

Example strip_lower :
  PyStr.lower (PyStr.strip "  Click Here ") = "click here" /\
  PyStr.strip "   " = "" /\ PyStr.of_nat 12 = "12".
Proof. vm_compute. repeat split. Qed.

Example search_examples :
  Re.search light_pattern "color:#fff" = true /\
  Re.search light_pattern "background-color:  rgb(255, 0, 0)" = true /\
  Re.search dark_pattern "color: rgb(255, 0, 0)" = true /\
  Re.search dark_pattern "color: #000000" = true /\
  Re.search dark_pattern "color: #0a0a0a" = false /\
  Re.search light_pattern "colour: #fff" = false.
Proof. vm_compute. repeat split. Qed.

Example empty_page :
  run_accessibility_check (fun _ => Page []) "https://example.org"
  = Some (mk_report "https://example.org" 61
            [("images", mk_category_result 1 []);
             ("headings", mk_category_result 0 ["No headings found on page"]);
             ("links", mk_category_result 1 []);
             ("forms", mk_category_result 1 []);
             ("structure", mk_category_result 0
                ["No semantic HTML elements found"; "No <main> element found"]);
             ("contrast", mk_category_result 1
                ["Limited contrast check performed (inline styles only)"])]
            ["No headings found on page"; "No semantic HTML elements found";
             "No <main> element found";
             "Limited contrast check performed (inline styles only)"]).
Proof. vm_compute. reflexivity. Qed.

(** ** Bounds on binary64 results *)

Module FloatFacts.

Import FloatSpec.

Local Open Scope Z_scope.

(** *** Digits *)
Lemma digits2_pos_size (p : positive) : digits2_pos p = Pos.size p.
Proof. induction p; simpl; congruence. Qed.

Lemma Zdigits2_log2 (m : Z) : 0 < m -> Zdigits2 m = Z.log2 m + 1.
Proof.
  destruct m as [|p|p]; try lia. intros _. simpl.
  rewrite digits2_pos_size. destruct p; simpl; lia.
Qed.

Lemma Zdigits2_bounds (m : Z) :
  0 < m -> 2 ^ (Zdigits2 m - 1) <= m < 2 ^ Zdigits2 m.
Proof.
  intros H. rewrite Zdigits2_log2 by assumption.
  replace (Z.log2 m + 1 - 1) with (Z.log2 m) by lia.
  pose proof (Z.log2_spec m H). replace (Z.log2 m + 1) with (Z.succ (Z.log2 m)) by lia. lia.
Qed.

Lemma Zdigits2_nonneg m : 0 <= Zdigits2 m.
Proof. destruct m; simpl; lia. Qed.

Lemma Zdigits2_le_iff (m k : Z) : 0 <= m -> 0 <= k -> (Zdigits2 m <= k <-> m < 2 ^ k).
Proof.
  intros Hm Hk. destruct (Z.eq_dec m 0) as [->|Hne].
  - simpl. split; intros; [apply Z.pow_pos_nonneg; lia | lia].
  - assert (0 < m) by lia. pose proof (Zdigits2_bounds m H) as [H1 H2].
    pose proof (Zdigits2_nonneg m).
    split; intros.
    + eapply Z.lt_le_trans; [exact H2|]. apply Z.pow_le_mono_r; lia.
    + destruct (Z_le_gt_dec (Zdigits2 m) k); [assumption|].
      assert (2 ^ k <= 2 ^ (Zdigits2 m - 1)) by (apply Z.pow_le_mono_r; lia). lia.
Qed.

(** *** Shifting a mantissa to the right *)
Lemma iter_pos_nat {A} (f : A -> A) (p : positive) (x : A) :
  iter_pos f p x = Nat.iter (Pos.to_nat p) f x.
Proof.
  revert x. induction p; intros x; cbn [iter_pos].
  - rewrite !IHp.
    replace (Pos.to_nat p~1) with (Pos.to_nat p + (Pos.to_nat p + 1))%nat by lia.
    rewrite !Nat.iter_add. reflexivity.
  - rewrite !IHp.
    replace (Pos.to_nat p~0) with (Pos.to_nat p + Pos.to_nat p)%nat by lia.
    rewrite Nat.iter_add. reflexivity.
  - reflexivity.
Qed.


Lemma loc_exact_iff mrs : loc_of_shr_record mrs = loc_Exact <-> exact mrs = true.
Proof. destruct mrs as [m [|] [|]]; unfold exact; simpl; split; intros; congruence. Qed.

Lemma shr_1_m mrs : 0 <= shr_m mrs -> shr_m (shr_1 mrs) = shr_m mrs / 2.
Proof.
  destruct mrs as [m r s]; simpl. intros H.
  destruct m as [|[p|p|]|p]; simpl; try lia; try reflexivity.
  - apply Z.div_unique with (r := 1); lia.
  - apply Z.div_unique with (r := 0); lia.
Qed.

Lemma shr_1_exact mrs :
  0 <= shr_m mrs ->
  exact (shr_1 mrs) = exact mrs && Z.even (shr_m mrs).
Proof.
  destruct mrs as [m r s]; unfold exact; simpl. intros H.
  destruct m as [|[p|p|]|p]; simpl; try lia; destruct r, s; reflexivity.
Qed.

Lemma shr_n_m (n : nat) mrs :
  0 <= shr_m mrs ->
  shr_m (Nat.iter n shr_1 mrs) = shr_m mrs / 2 ^ Z.of_nat n.
Proof.
  induction n; intros H.
  - simpl. rewrite Z.div_1_r. reflexivity.
  - assert (0 < 2 ^ Z.of_nat n) by (apply Z.pow_pos_nonneg; lia).
    rewrite Nat2Z.inj_succ, Z.pow_succ_r by lia.
    change (Nat.iter (S n) shr_1 mrs) with (shr_1 (Nat.iter n shr_1 mrs)).
    rewrite shr_1_m.
    + rewrite IHn by assumption. rewrite Z.div_div by lia.
      f_equal. lia.
    + rewrite IHn by assumption. apply Z.div_pos; lia.
Qed.

Lemma shr_n_exact (n : nat) mrs :
  0 <= shr_m mrs ->
  exact (Nat.iter n shr_1 mrs) = exact mrs && (shr_m mrs mod 2 ^ Z.of_nat n =? 0).
Proof.
  induction n; intros H.
  - simpl. rewrite Z.mod_1_r. simpl. rewrite andb_true_r. reflexivity.
  - change (Nat.iter (S n) shr_1 mrs) with (shr_1 (Nat.iter n shr_1 mrs)).
    assert (Hp : 0 < 2 ^ Z.of_nat n) by (apply Z.pow_pos_nonneg; lia).
    rewrite shr_1_exact.
    2:{ rewrite shr_n_m by assumption. apply Z.div_pos; lia. }
    rewrite IHn by assumption. rewrite shr_n_m by assumption.
    rewrite <- andb_assoc. f_equal.
    rewrite Nat2Z.inj_succ, Z.pow_succ_r by lia.
    set (m := shr_m mrs) in *. set (q := 2 ^ Z.of_nat n) in *.
    pose proof (Z.div_mod m q ltac:(lia)) as Hd.
    pose proof (Z.mod_pos_bound m q Hp) as Hb.
    apply eq_true_iff_eq. rewrite andb_true_iff, !Z.eqb_eq, Z.even_spec.
    split.
    + intros [Hm [k Hk]]. apply Z.mod_divide; [lia|]. exists k. lia.
    + intros Hm. apply Z.mod_divide in Hm; [|lia]. destruct Hm as [k Hk].
      assert (m mod q = 0).
      { apply Z.mod_divide; [lia|]. exists (2 * k). lia. }
      split; [assumption|]. exists k.
      assert (m / q * q = 2 * k * q) by lia.
      apply Z.mul_cancel_r with (p := q); lia.
Qed.

(** *** Values *)

Local Open Scope Q_scope.


Lemma bpow_pos e : 0 < bpow e.
Proof. apply Qpower_0_lt. reflexivity. Qed.

Lemma bpow_add a b : bpow (a + b) == bpow a * bpow b.
Proof. apply Qpower_plus. discriminate. Qed.

Lemma bpow_Z n : (0 <= n)%Z -> bpow n == inject_Z (2 ^ n).
Proof. intros H. unfold bpow. rewrite Zpower_Qpower by assumption. reflexivity. Qed.

Lemma bpow_le a b : (a <= b)%Z -> bpow a <= bpow b.
Proof. intros H. apply Qpower_le_compat_l; [assumption|discriminate]. Qed.

Lemma bpow_lt_inv a b : bpow a < bpow b -> (a < b)%Z.
Proof. intros H. apply Qpower_lt_compat_l_inv with (q := 2); [assumption|reflexivity]. Qed.

Lemma F2Q_scale m e k : (0 <= k)%Z -> F2Q (m * 2 ^ k) (e - k) == F2Q m e.
Proof.
  intros H. unfold F2Q. rewrite inject_Z_mult, <- bpow_Z by assumption.
  rewrite <- Qmult_assoc, <- bpow_add. replace (k + (e - k))%Z with e by lia.
  reflexivity.
Qed.

Lemma F2Q_align m e e' : (e' <= e)%Z -> F2Q (m * 2 ^ (e - e')) e' == F2Q m e.
Proof.
  intros H. rewrite <- (F2Q_scale m e (e - e')) by lia.
  replace (e - (e - e'))%Z with e' by lia. reflexivity.
Qed.

Lemma F2Q_le_same m m' e : F2Q m e <= F2Q m' e <-> (m <= m')%Z.
Proof.
  unfold F2Q. pose proof (bpow_pos e). rewrite Zle_Qle. split; intros.
  - apply Qmult_le_r with (z := bpow e); assumption.
  - apply Qmult_le_r; assumption.
Qed.

Lemma F2Q_lt_same m m' e : F2Q m e < F2Q m' e <-> (m < m')%Z.
Proof.
  unfold F2Q. pose proof (bpow_pos e). rewrite Zlt_Qlt. split; intros.
  - apply Qmult_lt_r with (z := bpow e); assumption.
  - apply Qmult_lt_r; assumption.
Qed.

Lemma F2Q_le_iff m e m' e' :
  (e <= e')%Z -> (F2Q m e <= F2Q m' e' <-> (m <= m' * 2 ^ (e' - e))%Z).
Proof.
  intros H. rewrite <- (F2Q_scale m' e' (e' - e)) by lia.
  replace (e' - (e' - e))%Z with e by lia. apply F2Q_le_same.
Qed.

Lemma F2Q_lt_iff m e m' e' :
  (e <= e')%Z -> (F2Q m e < F2Q m' e' <-> (m < m' * 2 ^ (e' - e))%Z).
Proof.
  intros H. rewrite <- (F2Q_scale m' e' (e' - e)) by lia.
  replace (e' - (e' - e))%Z with e by lia. apply F2Q_lt_same.
Qed.

Lemma F2Q_digits m e :
  (0 < m)%Z -> bpow (Zdigits2 m - 1 + e) <= F2Q m e /\ F2Q m e < bpow (Zdigits2 m + e).
Proof.
  intros H. pose proof (Zdigits2_bounds m H) as [H1 H2].
  assert (Hd : (1 <= Zdigits2 m)%Z).
  { rewrite Zdigits2_log2 by assumption. pose proof (Z.log2_nonneg m). lia. }
  rewrite !bpow_add.
  rewrite (bpow_Z (Zdigits2 m - 1)), (bpow_Z (Zdigits2 m)) by lia.
  unfold F2Q. pose proof (bpow_pos e).
  split.
  - apply Qmult_le_r; [assumption|]. rewrite <- Zle_Qle. assumption.
  - apply Qmult_lt_r; [assumption|]. rewrite <- Zlt_Qlt. assumption.
Qed.


Lemma fexp64_eq z : fexp prec emax z = fexp64 z.
Proof. reflexivity. Qed.

Lemma fexp64_mono a b : (a <= b)%Z -> (fexp64 a <= fexp64 b)%Z.
Proof. unfold fexp64. lia. Qed.


Lemma valid64_spec m e :
  valid64 m e ->
  fexp64 (Zdigits2 (Zpos m) + e) = e /\ (e <= 971)%Z.
Proof.
  unfold valid64, bounded, canonical_mantissa. rewrite andb_true_iff.
  intros [H1 H2]. apply Z.eqb_eq in H1. apply Z.leb_le in H2.
  split; [exact H1 | exact H2].
Qed.


Local Open Scope Z_scope.


Lemma record_of_loc_m m l : shr_m (shr_record_of_loc m l) = m.
Proof. destruct l as [|[| |]]; reflexivity. Qed.

Lemma record_of_loc_exact m l : exact (shr_record_of_loc m l) = is_exact l.
Proof. destruct l as [|[| |]]; reflexivity. Qed.

Lemma shr_fexp_spec m e l :
  0 <= m ->
  let k := Z.max 0 (fexp64 (Zdigits2 m + e) - e) in
  exists mrs,
    shr_fexp prec emax m e l = (mrs, e + k) /\
    shr_m mrs = m / 2 ^ k /\
    exact mrs = is_exact l && (m mod 2 ^ k =? 0).
Proof.
  intros Hm k. unfold shr_fexp, shr. rewrite fexp64_eq.
  fold (Z.sub (fexp64 (Zdigits2 m + e)) e).
  remember (fexp64 (Zdigits2 m + e) - e) as n eqn:Hn.
  destruct n as [|p|p].
  - exists (shr_record_of_loc m l). subst k. rewrite Z.max_l by lia.
    rewrite Z.add_0_r, Z.div_1_r, Z.mod_1_r, record_of_loc_m, record_of_loc_exact.
    simpl. rewrite andb_true_r. auto.
  - exists (iter_pos shr_1 p (shr_record_of_loc m l)). subst k.
    rewrite Z.max_r by lia. rewrite iter_pos_nat.
    rewrite shr_n_m, shr_n_exact by (rewrite record_of_loc_m; assumption).
    rewrite record_of_loc_m, record_of_loc_exact, positive_nat_Z. auto.
  - exists (shr_record_of_loc m l). subst k. rewrite Z.max_l by lia.
    rewrite Z.add_0_r, Z.div_1_r, Z.mod_1_r, record_of_loc_m, record_of_loc_exact.
    simpl. rewrite andb_true_r. auto.
Qed.

Lemma round_nearest_even_bounds m l :
  m <= round_nearest_even m l <= m + 1.
Proof.
  destruct l as [|[| |]]; simpl; try lia. destruct (Z.even m); lia.
Qed.

Lemma round_nearest_even_exact mrs :
  exact mrs = true ->
  round_nearest_even (shr_m mrs) (loc_of_shr_record mrs) = shr_m mrs.
Proof.
  intros H. apply loc_exact_iff in H. rewrite H. reflexivity.
Qed.

(** The rounding step never climbs over a representable bound. *)
Lemma binary_round_aux_ub (m e : Z) (l : location) (mB : positive) (eB : Z) :
  0 <= m ->
  e <= fexp64 (Zdigits2 m + e) ->
  valid64 mB eB ->
  (F2Q m e <= F2Q (Zpos mB) eB)%Q ->
  (is_exact l = false -> (F2Q m e < F2Q (Zpos mB) eB)%Q) ->
  NB (binary_round_aux prec emax false m e l) (F2Q (Zpos mB) eB).
Proof.
  intros Hm Hpre HB Hle Hlt.
  destruct (valid64_spec _ _ HB) as [HcB HeB].
  set (e' := fexp64 (Zdigits2 m + e)) in *.
  (* the bound lies on the grid of the result *)
  assert (Hgrid : e' <= eB).
  { destruct (Z.eq_dec m 0) as [->|Hne].
    - subst e'. simpl in *. unfold fexp64 in *. lia.
    - assert (H0 : 0 < m) by lia.
      destruct (F2Q_digits m e H0) as [Hd1 _].
      destruct (F2Q_digits (Zpos mB) eB ltac:(lia)) as [_ Hd2].
      assert (Hb : (bpow (Zdigits2 m - 1 + e) < bpow (Zdigits2 (Z.pos mB) + eB))%Q).
      { eapply Qle_lt_trans; [exact Hd1|]. eapply Qle_lt_trans; [exact Hle|exact Hd2]. }
      apply bpow_lt_inv in Hb. rewrite <- HcB. apply fexp64_mono. lia. }
  unfold binary_round_aux.
  destruct (shr_fexp_spec m e l Hm) as (mrs & Hshr & Hm1 & Hex1).
  replace (Z.max 0 (fexp64 (Zdigits2 m + e) - e)) with (e' - e) in * by (subst e'; lia).
  rewrite Hshr. replace (e + (e' - e)) with e' by lia.
  set (k := e' - e) in *.
  assert (Hk : 0 <= k) by (subst k; lia).
  assert (Hpk : 0 < 2 ^ k) by (apply Z.pow_pos_nonneg; lia).
  set (G := Zpos mB * 2 ^ (eB - e')).
  assert (HG : Zpos mB * 2 ^ (eB - e) = G * 2 ^ k).
  { subst G k. rewrite <- Z.mul_assoc, <- Z.pow_add_r by lia. do 2 f_equal. lia. }
  apply F2Q_le_iff in Hle; [|lia]. rewrite HG in Hle.
  set (m1 := shr_m mrs) in *.
  assert (Hm1G : m1 <= G).
  { rewrite Hm1. apply Z.div_le_upper_bound; lia. }
  assert (Hm1nn : 0 <= m1) by (rewrite Hm1; apply Z.div_pos; lia).
  set (m2 := round_nearest_even m1 (loc_of_shr_record mrs)).
  assert (Hm2' : m1 <= m2 <= m1 + 1)
    by apply round_nearest_even_bounds.
  assert (Hm2 : m2 <= G).
  { pose proof (round_nearest_even_bounds m1 (loc_of_shr_record mrs)) as Hb.
    fold m2 in Hb.
    destruct (exact mrs) eqn:Hx.
    - subst m2 m1. rewrite round_nearest_even_exact by assumption. assumption.
    - assert (m < G * 2 ^ k).
      { symmetry in Hex1. apply andb_false_iff in Hex1. destruct Hex1 as [Hl|Hmod].
        - specialize (Hlt Hl). apply F2Q_lt_iff in Hlt; [|lia]. lia.
        - apply Z.eqb_neq in Hmod.
          assert (m <> G * 2 ^ k); [|lia].
          intros Heq. apply Hmod. rewrite Heq. apply Z.mod_mul. lia. }
      assert (m1 < G) by (rewrite Hm1; apply Z.div_lt_upper_bound; lia).
      lia. }
  (* the mantissa has at most 53 digits before rounding *)
  assert (Hm1d : m1 < 2 ^ 53).
  { rewrite Hm1. apply Z.div_lt_upper_bound; [lia|].
    destruct (Z.eq_dec m 0) as [->|Hne]; [lia|].
    destruct (Zdigits2_bounds m ltac:(lia)) as [_ Hd].
    eapply Z.lt_le_trans; [exact Hd|]. rewrite <- Z.pow_add_r by lia.
    apply Z.pow_le_mono_r; [lia|]. subst k e'. unfold fexp64. lia. }
  assert (He'min : -1074 <= e') by (subst e'; unfold fexp64; lia).
  destruct (shr_fexp_spec m2 e' loc_Exact ltac:(lia)) as (mrs2 & Hshr2 & Hm3 & _).
  rewrite Hshr2. clear Hshr2 Hshr.
  destruct (Z.eq_dec m2 (2 ^ 53)) as [Hcarry|Hnc].
  - (* the rounding carried into a 54th digit *)
    assert (Hd2 : Zdigits2 m2 = 54) by (rewrite Hcarry; reflexivity).
    rewrite Hd2 in *.
    replace (Z.max 0 (fexp64 (54 + e') - e')) with 1 in * by (unfold fexp64; lia).
    rewrite Hm3, Hcarry. change (2 ^ 53 / 2 ^ 1) with (Zpos (2 ^ 52)).
    assert (HeB' : e' + 1 <= eB).
    { destruct (Z_le_gt_dec (e' + 1) eB); [assumption|].
      assert (eB = e') by lia. unfold G in *. replace (eB - e') with 0 in * by lia.
      destruct (Zdigits2_bounds (Zpos mB) ltac:(lia)) as [_ Hd].
      assert (Zdigits2 (Z.pos mB) <= 53) by (unfold fexp64 in HcB; lia).
      assert (2 ^ Zdigits2 (Z.pos mB) <= 2 ^ 53) by (apply Z.pow_le_mono_r; lia).
      change (2 ^ 0) with 1 in *. lia. }
    replace (e' + 1 <=? emax - prec) with true
      by (symmetry; apply Z.leb_le; change (emax - prec) with 971; lia).
    simpl. apply F2Q_le_iff; [lia|].
    assert (2 ^ 53 <= G) by lia. unfold G in *.
    replace (eB - e') with (1 + (eB - (e' + 1))) in * by lia.
    rewrite Z.pow_add_r in * by lia. change (2 ^ 1) with 2 in *.
    change (Z.pos (2 ^ 52)) with (2 ^ 52).
    change (2 ^ 53) with (2 * 2 ^ 52) in H. clear - H. lia.
  - assert (Hd2 : Zdigits2 m2 <= 53) by (apply Zdigits2_le_iff; lia).
    replace (Z.max 0 (fexp64 (Zdigits2 m2 + e') - e')) with 0 in *
      by (unfold fexp64; lia).
    rewrite Z.add_0_r. rewrite Hm3, Z.div_1_r.
    destruct m2 as [|p|p]; [exact I| |lia].
    replace (e' <=? emax - prec) with true
      by (symmetry; apply Z.leb_le; change (emax - prec) with 971; lia).
    simpl. apply F2Q_le_iff; [lia|]. fold G. lia.
Qed.

(** Alignment and normalisation *)

Lemma iter_xO_spec (m d : positive) : Zpos (Pos.iter xO m d) = Zpos m * 2 ^ Zpos d.
Proof.
  change (Pos.iter xO m d) with (shift_pos d m). rewrite shift_pos_correct.
  rewrite Z.mul_comm. reflexivity.
Qed.

Lemma shl_align_spec (m : positive) (e e' : Z) :
  let '(m', e'') := shl_align m e e' in
  e'' = Z.min e e' /\ Zpos m' = Zpos m * 2 ^ (e - e'').
Proof.
  unfold shl_align. destruct (e' - e) as [|d|d] eqn:Hd.
  - split; [lia|]. rewrite Z.sub_diag. lia.
  - split; [lia|]. rewrite Z.sub_diag. lia.
  - split; [lia|]. rewrite iter_xO_spec. do 2 f_equal. lia.
Qed.

Lemma Zdigits2_shift (m d : Z) : 0 < m -> 0 <= d -> Zdigits2 (m * 2 ^ d) = Zdigits2 m + d.
Proof.
  intros Hm Hd. assert (0 < 2 ^ d) by (apply Z.pow_pos_nonneg; lia).
  rewrite !Zdigits2_log2 by nia. rewrite Z.log2_mul_pow2 by lia. lia.
Qed.

Lemma binary_round_ub (m : positive) (e : Z) (mB : positive) (eB : Z) :
  valid64 mB eB ->
  (F2Q (Zpos m) e <= F2Q (Zpos mB) eB)%Q ->
  NB (binary_round prec emax false m e) (F2Q (Zpos mB) eB).
Proof.
  intros HB Hle. unfold binary_round.
  pose proof (shl_align_spec m e (fexp prec emax (Z.pos (digits2_pos m) + e))) as Hs.
  destruct (shl_align m e (fexp prec emax (Z.pos (digits2_pos m) + e))) as [mz ez].
  destruct Hs as [He Hmz]. rewrite fexp64_eq in He.
  change (Z.pos (digits2_pos m)) with (Zdigits2 (Zpos m)) in He.
  assert (Hv : (F2Q (Zpos mz) ez == F2Q (Zpos m) e)%Q).
  { rewrite Hmz. apply F2Q_align. lia. }
  apply binary_round_aux_ub; try assumption; try lia.
  - rewrite Hmz, Zdigits2_shift by lia.
    replace (Zdigits2 (Z.pos m) + (e - ez) + ez) with (Zdigits2 (Z.pos m) + e) by lia.
    lia.
  - rewrite Hv. assumption.
  - discriminate.
Qed.



Lemma binary_round_aux_NN m e l : NN (binary_round_aux prec emax false m e l).
Proof.
  unfold binary_round_aux.
  destruct (shr_fexp prec emax m e l) as [mrs' e'].
  destruct (shr_fexp prec emax _ e' loc_Exact) as [mrs'' e''].
  destruct (shr_m mrs''); [exact I| |exact I].
  destruct (Z.leb _ _); reflexivity || exact I.
Qed.

Lemma binary_round_aux_neg m e l :
  match binary_round_aux prec emax true m e l with
  | S754_zero s | S754_infinity s | S754_finite s _ _ => s = true
  | S754_nan => True
  end.
Proof.
  unfold binary_round_aux.
  destruct (shr_fexp prec emax m e l) as [mrs' e'].
  destruct (shr_fexp prec emax _ e' loc_Exact) as [mrs'' e''].
  destruct (shr_m mrs''); [reflexivity| |exact I].
  destruct (Z.leb _ _); reflexivity.
Qed.

(** Order *)

Lemma F2Q_lt_exp m1 e1 m2 e2 :
  valid64 m1 e1 -> valid64 m2 e2 -> e1 < e2 ->
  (F2Q (Zpos m1) e1 < F2Q (Zpos m2) e2)%Q.
Proof.
  intros H1 H2 He.
  destruct (valid64_spec _ _ H1) as [Hc1 _]. destruct (valid64_spec _ _ H2) as [Hc2 _].
  destruct (F2Q_digits (Zpos m1) e1 ltac:(lia)) as [_ Hd1].
  destruct (F2Q_digits (Zpos m2) e2 ltac:(lia)) as [Hd2 _].
  eapply Qlt_le_trans; [exact Hd1|]. eapply Qle_trans; [|exact Hd2].
  apply bpow_le. unfold fexp64 in *. lia.
Qed.

Lemma SFcompare_finite m1 e1 m2 e2 :
  valid64 m1 e1 -> valid64 m2 e2 ->
  SFcompare (S754_finite false m1 e1) (S754_finite false m2 e2)
  = Some (F2Q (Zpos m1) e1 ?= F2Q (Zpos m2) e2)%Q.
Proof.
  intros H1 H2. simpl. f_equal. destruct (Z.compare_spec e1 e2) as [He|He|He].
  - subst e2. rewrite Pos.compare_cont_spec. simpl.
    change (Pos.compare m1 m2) with (Zpos m1 ?= Zpos m2).
    destruct (Z.compare_spec (Zpos m1) (Zpos m2)) as [Hm|Hm|Hm]; symmetry.
    + apply Qeq_alt. rewrite Hm. reflexivity.
    + apply Qlt_alt. apply F2Q_lt_same. assumption.
    + apply Qgt_alt. apply F2Q_lt_same. assumption.
  - symmetry. apply Qlt_alt. apply F2Q_lt_exp; assumption.
  - symmetry. apply Qgt_alt. apply F2Q_lt_exp; assumption.
Qed.

(** Sums and differences *)

Lemma F2Q_plus a b e : (F2Q (a + b) e == F2Q a e + F2Q b e)%Q.
Proof. unfold F2Q. rewrite inject_Z_plus. ring. Qed.

Lemma F2Q_minus a b e : (F2Q (a - b) e == F2Q a e - F2Q b e)%Q.
Proof. unfold F2Q, Z.sub. rewrite inject_Z_plus, inject_Z_opp. ring. Qed.

Lemma F2Q_pos m e : (0 < F2Q (Zpos m) e)%Q.
Proof.
  unfold F2Q. apply Qmult_lt_0_compat; [reflexivity | apply bpow_pos].
Qed.

Lemma shl_align_fst (m : positive) (e ez : Z) :
  ez <= e ->
  (F2Q (Zpos (fst (shl_align m e ez))) ez == F2Q (Zpos m) e)%Q.
Proof.
  intros H. pose proof (shl_align_spec m e ez) as Hs.
  destruct (shl_align m e ez) as [m' e']. simpl. destruct Hs as [He Hm].
  rewrite Hm. replace e' with ez by lia. apply F2Q_align. assumption.
Qed.

Lemma binary_normalize_ub (M ez : Z) (mB : positive) (eB : Z) :
  valid64 mB eB ->
  (F2Q M ez <= F2Q (Zpos mB) eB)%Q ->
  0 <= M ->
  NB (binary_normalize prec emax M ez false) (F2Q (Zpos mB) eB).
Proof.
  intros HB Hle HM. destruct M as [|p|p]; [exact I| |lia].
  simpl. apply binary_round_ub; assumption.
Qed.


Lemma NB_LEb r b : NB r b -> LEb r b.
Proof. destruct r as [s|[|]| |[|] m e]; simpl; auto. Qed.

Lemma binary_normalize_LEb (M ez : Z) (mB : positive) (eB : Z) :
  valid64 mB eB ->
  (F2Q M ez <= F2Q (Zpos mB) eB)%Q ->
  LEb (binary_normalize prec emax M ez false) (F2Q (Zpos mB) eB).
Proof.
  intros HB Hle. destruct M as [|p|p].
  - exact I.
  - apply NB_LEb. apply binary_normalize_ub; [assumption|assumption|lia].
  - simpl. unfold binary_round.
    destruct (shl_align p ez _) as [mz ez'].
    pose proof (binary_round_aux_neg (Zpos mz) ez' loc_Exact) as Hn.
    destruct (binary_round_aux prec emax true (Z.pos mz) ez' loc_Exact)
      as [s|s| |s m e]; try exact I; subst s; exact I.
Qed.

Lemma SFadd_ub x y bx b_y (mB : positive) (eB : Z) :
  NB x bx -> NB y b_y -> valid64 mB eB ->
  (0 <= bx)%Q -> (0 <= b_y)%Q ->
  (bx + b_y <= F2Q (Zpos mB) eB)%Q ->
  NB (SFadd prec emax x y) (F2Q (Zpos mB) eB).
Proof.
  intros Hx Hy HB H0x H0y Hle.
  destruct x as [sx|sx| |[|] mx ex]; try contradiction;
  destruct y as [sy|sy| |[|] my ey]; try contradiction; simpl in Hx, Hy.
  - simpl. destruct sx, sy; exact I.
  - simpl. lra.
  - simpl. lra.
  - unfold SFadd. simpl cond_Zopp.
    apply binary_normalize_ub; [assumption| |lia].
    rewrite F2Q_plus, !shl_align_fst by lia. lra.
Qed.

Lemma SFsub_LEb x y bx (mB : positive) (eB : Z) :
  NB x bx -> NN y -> valid64 mB eB ->
  (bx <= F2Q (Zpos mB) eB)%Q ->
  LEb (SFsub prec emax x y) (F2Q (Zpos mB) eB).
Proof.
  intros Hx Hy HB Hle.
  destruct x as [sx|sx| |[|] mx ex]; try contradiction;
  destruct y as [[|]|[|]| |[|] my ey]; try contradiction; simpl in Hx;
    try exact I.
  - simpl. destruct sx; exact I.
  - simpl. lra.
  - unfold SFsub. simpl cond_Zopp.
    apply binary_normalize_LEb; [assumption|].
    rewrite F2Q_minus, !shl_align_fst by lia.
    pose proof (F2Q_pos my ey). lra.
Qed.

Lemma SFsub_ub mx ex my ey (mB : positive) (eB : Z) :
  valid64 mB eB ->
  (F2Q (Zpos my) ey < F2Q (Zpos mx) ex)%Q ->
  (F2Q (Zpos mx) ex <= F2Q (Zpos mB) eB)%Q ->
  NB (SFsub prec emax (S754_finite false mx ex) (S754_finite false my ey))
     (F2Q (Zpos mB) eB).
Proof.
  intros HB Hlt Hle. unfold SFsub. simpl cond_Zopp.
  set (ez := Z.min ex ey).
  assert (Hv : (F2Q (Z.pos (fst (shl_align mx ex ez)) - Z.pos (fst (shl_align my ey ez))) ez
                == F2Q (Zpos mx) ex - F2Q (Zpos my) ey)%Q).
  { rewrite F2Q_minus, !shl_align_fst by (subst ez; lia). reflexivity. }
  apply binary_normalize_ub; [assumption| |].
  - rewrite Hv. pose proof (F2Q_pos my ey). lra.
  - assert (Hp : (0 < F2Q (Z.pos (fst (shl_align mx ex ez)) - Z.pos (fst (shl_align my ey ez))) ez)%Q)
      by (rewrite Hv; lra).
    assert (H0 : (F2Q 0 ez == 0)%Q) by (unfold F2Q; ring).
    rewrite <- H0 in Hp. apply F2Q_lt_same in Hp. lia.
Qed.

(** Products and quotients *)

Lemma F2Q_mult a e b e' : (F2Q (a * b) (e + e') == F2Q a e * F2Q b e')%Q.
Proof. unfold F2Q. rewrite inject_Z_mult, bpow_add. ring. Qed.

Lemma SFmul_ub x bx my ey (mB : positive) (eB : Z) :
  NB x bx -> 53 <= Zdigits2 (Zpos my) -> valid64 mB eB ->
  (bx * F2Q (Zpos my) ey <= F2Q (Zpos mB) eB)%Q ->
  NB (SFmul prec emax x (S754_finite false my ey)) (F2Q (Zpos mB) eB).
Proof.
  intros Hx Hd HB Hle.
  destruct x as [sx|sx| |[|] mx ex]; try contradiction; simpl in Hx.
  - exact I.
  - unfold SFmul. change (xorb false false) with false.
    apply binary_round_aux_ub; try assumption; try lia.
    + assert (53 <= Zdigits2 (Z.pos (mx * my))); [|unfold fexp64; lia].
      destruct (Z_le_gt_dec 53 (Zdigits2 (Z.pos (mx * my)))) as [|Hlt]; [assumption|].
      exfalso.
      assert (H52 : Zdigits2 (Z.pos (mx * my)) <= 52) by lia.
      apply Zdigits2_le_iff in H52; try lia.
      destruct (Zdigits2_bounds (Zpos my) ltac:(lia)) as [Hlo _].
      assert (2 ^ 52 <= 2 ^ (Zdigits2 (Z.pos my) - 1)) by (apply Z.pow_le_mono_r; lia).
      nia.
    + rewrite Pos2Z.inj_mul, F2Q_mult. eapply Qle_trans; [|exact Hle].
      apply Qmult_le_compat_r; [assumption|]. apply Qlt_le_weak, F2Q_pos.
    + discriminate.
Qed.

Lemma new_location_exact nb k : is_exact (new_location nb k) = (k =? 0).
Proof.
  unfold new_location, new_location_even, new_location_odd.
  destruct (Z.even nb); destruct (k =? 0); reflexivity.
Qed.

Lemma SFdiv_ub x bx my ey (mB : positive) (eB : Z) :
  NB x bx -> valid64 mB eB ->
  (bx <= F2Q (Zpos mB) eB * F2Q (Zpos my) ey)%Q ->
  NB (SFdiv prec emax x (S754_finite false my ey)) (F2Q (Zpos mB) eB).
Proof.
  intros Hx HB Hle.
  destruct x as [sx|sx| |[|] mx ex]; try contradiction; simpl in Hx.
  - exact I.
  - unfold SFdiv, SFdiv_core_binary. change (xorb false false) with false.
    rewrite !fexp64_eq.
    set (d1 := Zdigits2 (Zpos mx)). set (d2 := Zdigits2 (Zpos my)).
    set (e' := Z.min (fexp64 (d1 + ex - (d2 + ey))) (ex - ey)).
    set (s := ex - ey - e').
    assert (Hs : 0 <= s) by (subst s e'; lia).
    set (m' := match s with Z.pos _ => Z.shiftl (Z.pos mx) s | 0 => Z.pos mx | Z.neg _ => 0 end).
    assert (Hm' : m' = Zpos mx * 2 ^ s).
    { subst m'. destruct s as [|p|p]; [lia| |lia]. apply Z.shiftl_mul_pow2. lia. }
    clearbody m'.
    pose proof (Z_div_mod m' (Zpos my) ltac:(lia)) as Hdm.
    destruct (Z.div_eucl m' (Z.pos my)) as [q r]. destruct Hdm as [Hq Hr].
    assert (Hps : 0 < 2 ^ s) by (apply Z.pow_pos_nonneg; lia).
    assert (Hq0 : 0 <= q) by nia.
    (* the value of the dividend *)
    assert (Hx' : (F2Q m' (e' + ey) == F2Q (Zpos mx) ex)%Q).
    { rewrite Hm'. replace s with (ex - (e' + ey)) by (subst s; lia).
      apply F2Q_align. subst s. lia. }
    assert (Hy0 := F2Q_pos my ey).
    assert (Hqv : (F2Q q e' * F2Q (Zpos my) ey <= F2Q (Zpos mx) ex)%Q).
    { rewrite <- F2Q_mult, <- Hx'. apply F2Q_le_same. nia. }
    apply binary_round_aux_ub; try assumption.
    + (* enough digits *)
      destruct (Z.eq_dec q 0) as [->|Hq1].
      * simpl Zdigits2. 
        assert (d1 + s <= d2).
        { destruct (Zdigits2_bounds (Zpos mx) ltac:(lia)) as [Hlo _].
          destruct (Zdigits2_bounds (Zpos my) ltac:(lia)) as [_ Hhi].
          fold d1 in Hlo. fold d2 in Hhi.
          assert (H2 : 2 ^ (d1 - 1 + s) < 2 ^ d2).
          { rewrite Z.pow_add_r; [|subst d1; pose proof (Zdigits2_nonneg (Zpos mx));
              rewrite Zdigits2_log2 by lia; pose proof (Z.log2_nonneg (Zpos mx)); lia|lia].
            nia. }
          apply Z.pow_lt_mono_r_iff in H2; [lia|lia|].
          subst d2. apply Zdigits2_nonneg. }
        subst e' s. unfold fexp64 in *. lia.
      * assert (Hdq : d1 + s - d2 <= Zdigits2 q).
        { destruct (Z_le_gt_dec (d1 + s - d2) (Zdigits2 q)) as [|Hgt]; [assumption|].
          exfalso.
          assert (Hdq : Zdigits2 q <= d1 + s - d2 - 1) by lia.
          pose proof (Zdigits2_nonneg q).
          apply Zdigits2_le_iff in Hdq; try lia.
          destruct (Zdigits2_bounds (Zpos mx) ltac:(lia)) as [Hlo _].
          destruct (Zdigits2_bounds (Zpos my) ltac:(lia)) as [_ Hhi].
          fold d1 in Hlo. fold d2 in Hhi.
          assert (Hd2 : 0 <= d2) by (subst d2; apply Zdigits2_nonneg).
          assert (Hd1 : 1 <= d1).
          { subst d1. rewrite Zdigits2_log2 by lia.
            pose proof (Z.log2_nonneg (Zpos mx)). lia. }
          (* m' < (q + 1) * my <= 2^(d1+s-d2-1) * 2^d2 = 2^(d1-1+s) <= m' *)
          assert (Hc : (q + 1) * Zpos my <= 2 ^ (d1 + s - d2 - 1) * 2 ^ d2).
          { apply Z.mul_le_mono_nonneg; lia. }
          rewrite <- Z.pow_add_r in Hc by lia.
          replace (d1 + s - d2 - 1 + d2) with (d1 - 1 + s) in Hc by lia.
          rewrite Z.pow_add_r in Hc by lia. nia. }
        apply Z.le_trans with (fexp64 (d1 + ex - (d2 + ey))); [subst e'; lia|].
        apply fexp64_mono. subst s. lia.
    + apply Qle_trans with (F2Q (Zpos mx) ex / F2Q (Zpos my) ey)%Q.
      * apply Qle_shift_div_l; assumption.
      * apply Qle_shift_div_r; [assumption|]. lra.
    + (* inexact: strictly below *)
      intros Hne. rewrite new_location_exact in Hne. apply Z.eqb_neq in Hne.
      apply Qlt_le_trans with (F2Q (Zpos mx) ex / F2Q (Zpos my) ey)%Q.
      * apply Qlt_shift_div_l; [assumption|].
        rewrite <- F2Q_mult, <- Hx'. apply F2Q_lt_same. nia.
      * apply Qle_shift_div_r; [assumption|]. lra.
Qed.

(** *** Primitive floats *)

Lemma NB_le r b b' : NB r b -> (b <= b')%Q -> NB r b'.
Proof. destruct r as [s|s| |[|] m e]; simpl; auto. intros. lra. Qed.

Lemma LEb_le r b b' : LEb r b -> (b <= b')%Q -> LEb r b'.
Proof. destruct r as [s|[|]| |[|] m e]; simpl; auto. intros. lra. Qed.



Lemma Prim2SF_one : Prim2SF 1 = SF_one.
Proof. reflexivity. Qed.

Lemma Prim2SF_zero : Prim2SF 0 = S754_zero false.
Proof. reflexivity. Qed.

Lemma valid_one : valid64 4503599627370496 (-52).
Proof. reflexivity. Qed.

Lemma F2Q_one : (F2Q 4503599627370496 (-52) == 1)%Q.
Proof. reflexivity. Qed.

Lemma Prim2SF_valid64 x s m e : Prim2SF x = S754_finite s m e -> valid64 m e.
Proof. intros H. pose proof (Prim2SF_valid x) as Hv. rewrite H in Hv. exact Hv. Qed.

Lemma max0_unit x : LEb (Prim2SF x) 1 -> unit_float (Py.max 0 x).
Proof.
  intros H. unfold unit_float, Py.max. rewrite ltb_spec, Prim2SF_zero.
  destruct (Prim2SF x) as [s|[|]| |[|] m e] eqn:Hx; simpl in *;
    try exact I; try contradiction.
  rewrite Hx. exact H.
Qed.

Lemma min1_LEb x : LEb (Prim2SF (Py.min x 1)) 1.
Proof.
  unfold Py.min. rewrite ltb_spec, Prim2SF_one.
  destruct (SFltb SF_one (Prim2SF x)) eqn:Hlt.
  - rewrite Prim2SF_one. simpl. rewrite F2Q_one. apply Qle_refl.
  - destruct (Prim2SF x) as [s|[|]| |[|] m e] eqn:Hx; try exact I.
    + discriminate Hlt.
    + unfold SFltb, SF_one in Hlt.
      rewrite SFcompare_finite in Hlt
        by (try exact valid_one; eapply Prim2SF_valid64; exact Hx).
      simpl. rewrite F2Q_one in Hlt.
      destruct (1 ?= F2Q (Z.pos m) e)%Q eqn:Hc; try discriminate Hlt.
      * apply Qeq_alt in Hc. rewrite <- Hc. apply Qle_refl.
      * apply Qgt_alt in Hc. apply Qlt_le_weak. exact Hc.
Qed.

Lemma of_count_nonneg n : nonneg_float (Py.of_count n).
Proof.
  unfold nonneg_float, Py.of_count. rewrite of_uint63_spec.
  pose proof (to_Z_bounded (of_Z (Z.of_nat n))) as [Hb _].
  destruct (to_Z (of_Z (Z.of_nat n))) as [|p|p]; [exact I| |lia].
  simpl. unfold binary_round. destruct (shl_align p 0 _) as [mz ez].
  apply binary_round_aux_NN.
Qed.

Lemma SFdiv_NN x y : NN x -> NN y -> NN (SFdiv prec emax x y).
Proof.
  intros Hx Hy.
  destruct x as [[|]|[|]| |[|] mx ex]; try contradiction;
  destruct y as [[|]|[|]| |[|] my ey]; try contradiction; try exact I.
  unfold SFdiv. destruct (SFdiv_core_binary _ _ _ _ _ _) as [[mz ez] lz].
  apply binary_round_aux_NN.
Qed.

Lemma SFmul_NN x y : NN x -> NN y -> NN (SFmul prec emax x y).
Proof.
  intros Hx Hy.
  destruct x as [[|]|[|]| |[|] mx ex]; try contradiction;
  destruct y as [[|]|[|]| |[|] my ey]; try contradiction; try exact I.
  unfold SFmul. apply binary_round_aux_NN.
Qed.

Lemma truediv_nonneg a b : nonneg_float (Py.truediv a b).
Proof.
  unfold nonneg_float, Py.truediv. rewrite div_spec.
  apply SFdiv_NN; apply of_count_nonneg.
Qed.

Lemma mul_nonneg x y : nonneg_float x -> nonneg_float y -> nonneg_float (x * y).
Proof. unfold nonneg_float. intros. rewrite mul_spec. apply SFmul_NN; assumption. Qed.

Lemma sub_LEb x y :
  unit_float x -> nonneg_float y -> LEb (Prim2SF (x - y)) 1.
Proof.
  unfold unit_float, nonneg_float. intros Hx Hy. rewrite sub_spec.
  eapply LEb_le.
  - apply (SFsub_LEb _ _ 1 4503599627370496 (-52) Hx Hy valid_one).
    rewrite F2Q_one. apply Qle_refl.
  - rewrite F2Q_one. apply Qle_refl.
Qed.

(** [min(c, x)] for a non-negative [x] below [c] or not. *)
Lemma min_nonneg c x : nonneg_float c -> nonneg_float x -> nonneg_float (Py.min c x).
Proof. unfold Py.min. intros. destruct (x <? c)%float; assumption. Qed.

Lemma unit_one : unit_float 1.
Proof. unfold unit_float. rewrite Prim2SF_one. simpl. rewrite F2Q_one. apply Qle_refl. Qed.

(** A non-negative float strictly below a positive number [c]. *)
Lemma ltb_NB x c mc ec :
  Prim2SF c = S754_finite false mc ec ->
  nonneg_float x -> (x <? c)%float = true ->
  match Prim2SF x with
  | S754_zero _ => True
  | S754_finite false m e => (F2Q (Zpos m) e < F2Q (Zpos mc) ec)%Q
  | _ => False
  end.
Proof.
  intros Hc Hx Hlt. rewrite ltb_spec, Hc in Hlt. unfold nonneg_float in Hx.
  destruct (Prim2SF x) as [[|]|[|]| |[|] m e] eqn:Ex; try contradiction; try exact I;
    try discriminate Hlt.
  unfold SFltb in Hlt.
  rewrite SFcompare_finite in Hlt
    by (eapply Prim2SF_valid64; eassumption).
  destruct (F2Q (Z.pos m) e ?= F2Q (Z.pos mc) ec)%Q eqn:Hcmp; try discriminate Hlt.
  apply Qlt_alt. exact Hcmp.
Qed.

(** The order on floats read back from a bound. *)
Lemma unit_float_leb x :
  unit_float x -> (0 <=? x)%float = true /\ (x <=? 1)%float = true.
Proof.
  unfold unit_float. intros H. rewrite !leb_spec, Prim2SF_zero, Prim2SF_one.
  destruct (Prim2SF x) as [s|[|]| |[|] m e] eqn:Ex; try contradiction.
  - split; reflexivity.
  - split; [reflexivity|]. unfold SFleb, SF_one.
    rewrite SFcompare_finite by (try exact valid_one; eapply Prim2SF_valid64; exact Ex).
    simpl in H. rewrite F2Q_one.
    destruct (F2Q (Z.pos m) e ?= 1)%Q eqn:Hc; try reflexivity.
    apply Qgt_alt in Hc. lra.
Qed.

(** Clamping from above leaves a float that is not above one as it is. *)
Lemma min1_id x : LEb (Prim2SF x) 1 -> Py.min x 1 = x.
Proof.
  intros H. unfold Py.min. rewrite ltb_spec, Prim2SF_one.
  destruct (Prim2SF x) as [s|[|]| |[|] m e] eqn:Hx; try reflexivity;
    try contradiction.
  unfold SFltb, SF_one.
  rewrite SFcompare_finite
    by (try exact valid_one; eapply Prim2SF_valid64; exact Hx).
  simpl in H. rewrite F2Q_one.
  destruct (1 ?= F2Q (Z.pos m) e)%Q eqn:Hc; try reflexivity.
  apply Qlt_alt in Hc. lra.
Qed.

(** One minus a quotient of counts, clamped from below, is clamped. *)
Lemma clamp_quotient a b :
  Py.max 0 (1 - Py.truediv a b) = Spec.clamp01 (1 - Py.truediv a b).
Proof.
  unfold Spec.clamp01. rewrite min1_id; [reflexivity|].
  apply sub_LEb; [apply unit_one | apply truediv_nonneg].
Qed.

(** *** The scores of the six checkers *)

(** A comparison of two constants, by evaluation. *)
Ltac q_compute :=
  vm_compute;
  first [ exact I | reflexivity | discriminate
        | (let H := fresh in intro H; discriminate H) ].

Lemma check_alt_text_unit doc : unit_float (fst (check_alt_text doc)).
Proof.
  unfold check_alt_text. destruct (Nat.eqb _ 0); simpl.
  - apply unit_one.
  - apply max0_unit, min1_LEb.
Qed.

Lemma skip_penalty_nonneg k : nonneg_float (Py.min 0.5 (Py.of_count k * 0.1)).
Proof.
  apply min_nonneg; [exact I|]. apply mul_nonneg; [apply of_count_nonneg | exact I].
Qed.

Lemma check_heading_structure_unit doc :
  unit_float (fst (check_heading_structure doc)).
Proof.
  unfold check_heading_structure.
  destruct (Bs4.find_all _ doc) as [|h hs]; [exact I|].
  cbv zeta. cbn [fst]. apply max0_unit.
  set (h1_count := List.length (Bs4.find_all ["h1"%string] doc)).
  set (st := fold_left _ _ _).
  assert (Hs1 : unit_float
            (if Nat.eqb h1_count 0 then 1 - 0.5
             else if Nat.ltb 1 h1_count then 1 - 0.3 else 1)%float).
  { destruct (Nat.eqb h1_count 0); [q_compute|].
    destruct (Nat.ltb 1 h1_count); [q_compute | apply unit_one]. }
  destruct (Nat.ltb 0 (skips st)).
  - apply sub_LEb; [exact Hs1 | apply skip_penalty_nonneg].
  - apply NB_LEb. exact Hs1.
Qed.

Lemma check_descriptive_links_unit doc :
  unit_float (fst (check_descriptive_links doc)).
Proof.
  unfold check_descriptive_links.
  destruct (Bs4.find_all _ doc) as [|h hs]; [apply unit_one|].
  cbv zeta. cbn [fst]. apply max0_unit.
  apply sub_LEb; [apply unit_one | apply truediv_nonneg].
Qed.

Lemma check_form_labels_unit doc :
  unit_float (fst (check_form_labels doc)).
Proof.
  unfold check_form_labels.
  destruct (Bs4.find_all _ doc) as [|h hs]; [apply unit_one|].
  cbv zeta. destruct (Nat.eqb _ 0); [apply unit_one|].
  cbn [fst]. apply max0_unit.
  apply sub_LEb; [apply unit_one | apply truediv_nonneg].
Qed.

Lemma min1_unit z : nonneg_float z -> unit_float (Py.min 1 z).
Proof.
  intros Hz. unfold Py.min. destruct (z <? 1)%float eqn:Hlt; [|apply unit_one].
  pose proof (ltb_NB z 1 _ _ Prim2SF_one Hz Hlt) as H.
  unfold unit_float. destruct (Prim2SF z) as [s|[|]| |[|] m e]; try contradiction.
  - exact I.
  - simpl. rewrite F2Q_one in H. apply Qlt_le_weak. exact H.
Qed.

Lemma check_semantic_structure_unit doc :
  unit_float (fst (check_semantic_structure doc)).
Proof.
  unfold check_semantic_structure. cbv zeta.
  set (y := Py.min 1 _).
  assert (Hy : unit_float y) by (apply min1_unit, truediv_nonneg).
  destruct (negb _); cbn [fst]; apply max0_unit.
  - apply sub_LEb; [exact Hy | exact I].
  - apply NB_LEb. exact Hy.
Qed.

Lemma contrast_score_unit k :
  unit_float (1 - Py.min 0.5 (Py.of_count k * 0.1)).
Proof.
  set (x := (Py.of_count k * 0.1)%float).
  assert (Hx : nonneg_float x)
    by (apply mul_nonneg; [apply of_count_nonneg | exact I]).
  unfold Py.min. destruct (x <? 0.5)%float eqn:Hlt; [|q_compute].
  assert (H5 : Prim2SF 0.5 = S754_finite false 4503599627370496 (-53)) by reflexivity.
  pose proof (ltb_NB x 0.5 _ _ H5 Hx Hlt) as H.
  unfold unit_float. rewrite sub_spec, Prim2SF_one.
  destruct (Prim2SF x) as [s|[|]| |[|] m e]; try contradiction.
  - simpl. rewrite F2Q_one. apply Qle_refl.
  - eapply NB_le.
    + apply (SFsub_ub _ _ _ _ 4503599627370496 (-52) valid_one).
      * eapply Qlt_trans; [exact H|]. q_compute.
      * apply Qle_refl.
    + rewrite F2Q_one. apply Qle_refl.
Qed.

Lemma check_color_contrast_unit doc :
  unit_float (fst (check_color_contrast doc)).
Proof.
  unfold check_color_contrast. cbv zeta.
  destruct (contrast_issues _); cbn [fst]; apply contrast_score_unit.
Qed.

(** *** The weighted total *)

Lemma F2Q_le_cross m e m' e' a b :
  0 <= a -> 0 <= b -> e - a = e' - b ->
  (F2Q m e <= F2Q m' e')%Q -> m * 2 ^ a <= m' * 2 ^ b.
Proof.
  intros Ha Hb Heq H.
  rewrite <- (F2Q_scale m e a), <- (F2Q_scale m' e' b) in H by assumption.
  rewrite Heq in H. apply F2Q_le_same in H. exact H.
Qed.

Lemma mul_ub x c bx mc ec (mB : positive) (eB : Z) :
  NB (Prim2SF x) bx -> Prim2SF c = S754_finite false mc ec ->
  53 <= Zdigits2 (Zpos mc) -> valid64 mB eB ->
  (bx * F2Q (Zpos mc) ec <= F2Q (Zpos mB) eB)%Q ->
  NB (Prim2SF (x * c)) (F2Q (Zpos mB) eB).
Proof.
  intros Hx Hc Hd HB Hle. rewrite mul_spec, Hc. apply SFmul_ub with (bx := bx); assumption.
Qed.

Lemma add_ub x y bx b_y (mB : positive) (eB : Z) :
  NB (Prim2SF x) bx -> NB (Prim2SF y) b_y -> valid64 mB eB ->
  (0 <= bx)%Q -> (0 <= b_y)%Q ->
  (bx + b_y <= F2Q (Zpos mB) eB)%Q ->
  NB (Prim2SF (x + y)) (F2Q (Zpos mB) eB).
Proof.
  intros. rewrite add_spec. apply SFadd_ub with (bx := bx) (b_y := b_y); assumption.
Qed.

Lemma div_ub x c bx mc ec (mB : positive) (eB : Z) :
  NB (Prim2SF x) bx -> Prim2SF c = S754_finite false mc ec ->
  valid64 mB eB ->
  (bx <= F2Q (Zpos mB) eB * F2Q (Zpos mc) ec)%Q ->
  NB (Prim2SF (x / c)) (F2Q (Zpos mB) eB).
Proof.
  intros Hx Hc HB Hle. rewrite div_spec, Hc. apply SFdiv_ub with (bx := bx); assumption.
Qed.

Lemma round_ub p :
  NB (Prim2SF p) (F2Q 7036874417766402 (-46)) ->
  exists t, Py.round p = Some t /\ 0 <= t <= 100.
Proof.
  unfold Py.round. intros H.
  destruct (Prim2SF p) as [s|[|]| |[|] m e]; try contradiction.
  - exists 0. split; [reflexivity|lia].
  - simpl in H. eexists. split; [reflexivity|].
    destruct (Z.leb_spec 0 e) as [He|He].
    + apply (F2Q_le_cross _ _ _ _ (e + 46) 0) in H; try lia.
      rewrite Z.pow_add_r in H by lia. change (2 ^ 46) with 70368744177664 in H.
      assert (0 < 2 ^ e) by (apply Z.pow_pos_nonneg; lia).
      change (2 ^ 0) with 1 in H. nia.
    + apply (F2Q_le_cross _ _ _ _ 46 (- e)) in H; try lia.
      change (2 ^ 46) with 70368744177664 in H.
      assert (Hd : 0 < 2 ^ (- e)) by (apply Z.pow_pos_nonneg; lia).
      unfold Py.round_half_even. set (d := 2 ^ (- e)) in *.
      pose proof (Z.div_mod (Zpos m) d ltac:(lia)) as Hdm.
      pose proof (Z.mod_pos_bound (Zpos m) d Hd) as Hr.
      assert (Hq : 0 <= Zpos m / d) by (apply Z.div_pos; lia).
      set (q := Zpos m / d) in *. set (r := Zpos m mod d) in *.
      assert (Hq100 : q <= 100) by nia.
      destruct (Z.compare_spec (2 * r) d) as [Hc|Hc|Hc].
      * destruct (Z.even q); nia.
      * lia.
      * nia.
Qed.

Section Total.

Local Open Scope float_scope.

Variables s1 s2 s3 s4 s5 s6 : float.
Hypothesis H1 : unit_float s1.
Hypothesis H2 : unit_float s2.
Hypothesis H3 : unit_float s3.
Hypothesis H4 : unit_float s4.
Hypothesis H5 : unit_float s5.
Hypothesis H6 : unit_float s6.

(** One term of the sum: a score times its weight is at most the
    weight [m * 2^e]. *)
Ltac term_ub m e :=
  eapply (mul_ub _ _ 1 _ _ m e);
  [ eassumption | reflexivity | vm_compute; discriminate | reflexivity
  | q_compute ].

(** One addition: the sum so far is at most [l], the new term at most
    the weight [m * 2^e], and their sum at most the float given in the
    goal. *)
Ltac sum_ub l m e :=
  apply (add_ub _ _ l (F2Q (Zpos m) e));
  [ | term_ub m e | reflexivity | q_compute | q_compute | q_compute ].

(** The partial sums stay below 0.15, 0.3, 0.4, 0.55, 0.7500000000000001
    and 0.9000000000000001, the floats next above the sums of the
    weights. *)
Lemma weighted_sum_ub :
  NB (Prim2SF (0 + s1 * 0.15 + s2 * 0.15 + s3 * 0.10
               + s4 * 0.15 + s5 * 0.20 + s6 * 0.15))
     (F2Q 8106479329266894 (-53)).
Proof.
  sum_ub (F2Q 6755399441055745 (-53)) 5404319552844595%positive (-55)%Z.
  sum_ub (F2Q 4953959590107546 (-53)) 7205759403792794%positive (-55)%Z.
  sum_ub (F2Q 7205759403792794 (-54)) 5404319552844595%positive (-55)%Z.
  sum_ub (F2Q 5404319552844595 (-54)) 7205759403792794%positive (-56)%Z.
  sum_ub (F2Q 5404319552844595 (-55)) 5404319552844595%positive (-55)%Z.
  sum_ub 0%Q 5404319552844595%positive (-55)%Z.
  exact I.
Qed.

(** The quotient by the weight sum 0.9 is at most 1.0000000000000002, its
    product by 100 at most 100.00000000000003, and [round] brings that to
    100 at most. *)
Lemma total_round :
  exists t,
    Py.round ((0 + s1 * 0.15 + s2 * 0.15 + s3 * 0.10
               + s4 * 0.15 + s5 * 0.20 + s6 * 0.15)
              / (0 + 0.15 + 0.15 + 0.10 + 0.15 + 0.20 + 0.15) * 100) = Some t
    /\ (0 <= t <= 100)%Z.
Proof.
  apply round_ub.
  eapply (mul_ub _ _ (F2Q 4503599627370497 (-52)) _ _ 7036874417766402 (-46));
    [ | reflexivity | vm_compute; discriminate | reflexivity | q_compute ].
  eapply (div_ub _ _ _ _ _ 4503599627370497 (-52));
    [ apply weighted_sum_ub | reflexivity | reflexivity | q_compute ].
Qed.

End Total.

End FloatFacts.

(** ** Facts about strings, lists and the loops *)

Module LoopFacts.

Import FloatSpec FloatFacts.

Lemma lstrip_blank s : Spec.blank (PyStr.lstrip s) = Spec.blank s.
Proof.
  unfold Spec.blank. induction s as [|c s IH]; [reflexivity|]. simpl.
  destruct (PyStr.is_space c) eqn:Hc.
  - rewrite IH. reflexivity.
  - simpl. rewrite Hc. reflexivity.
Qed.

Lemma rstrip_empty s : String.eqb (PyStr.rstrip s) "" = Spec.blank s.
Proof.
  unfold Spec.blank. induction s as [|c s IH]; [reflexivity|]. simpl.
  destruct (PyStr.rstrip s) as [|c' r].
  - simpl in IH. rewrite <- IH. destruct (PyStr.is_space c); reflexivity.
  - simpl in IH. rewrite <- IH, andb_false_r. reflexivity.
Qed.

(** [s.strip() == ""] says that [s] is blank. *)
Lemma strip_empty s : String.eqb (PyStr.strip s) "" = Spec.blank s.
Proof. unfold PyStr.strip. rewrite rstrip_empty. apply lstrip_blank. Qed.

Lemma strip_truthy s : PyStr.truthy (PyStr.strip s) = negb (Spec.blank s).
Proof.
  rewrite <- strip_empty. destruct (PyStr.strip s); reflexivity.
Qed.

Lemma count_cons {A} (p : A -> bool) x l :
  Spec.count p (x :: l) = (if p x then 1 else 0) + Spec.count p l.
Proof. unfold Spec.count. simpl. destruct (p x); reflexivity. Qed.

(** Multiplication of binary64 numbers commutes. *)
Lemma float_mul_comm (x y : float) : (x * y = y * x)%float.
Proof.
  apply Prim2SF_inj. rewrite !mul_spec. unfold SF64mul.
  destruct (Prim2SF x) as [sx|sx| |sx mx ex], (Prim2SF y) as [sy|sy| |sy my ey];
    simpl; rewrite ?(xorb_comm sx sy); try reflexivity.
  rewrite (Pos.mul_comm mx my), (Z.add_comm ex ey). reflexivity.
Qed.

(** *** Images *)

Lemma alt_step_full img st :
  Spec.full_miss img = true ->
  alt_step st img =
  mk_alt_state (missing_alt st + 1) (empty_alt st)
    (alt_issues st ++
     [PyStr.fmt ["Image missing alt attribute: ";
                 Bs4.get_default img "src" "unknown"]]).
Proof.
  unfold Spec.full_miss, Bs4.has_attr, alt_step.
  destruct (Bs4.get img "alt"); [discriminate|reflexivity].
Qed.

Lemma alt_step_half img st :
  Spec.half_miss img = true ->
  alt_step st img =
  mk_alt_state (missing_alt st) (empty_alt st + 1)
    (alt_issues st ++
     [PyStr.fmt ["Image has empty alt text: ";
                 Bs4.get_default img "src" "unknown"]]).
Proof.
  unfold Spec.half_miss, Spec.decorative, alt_step.
  destruct (Bs4.get img "alt") as [alt|]; [|discriminate].
  rewrite strip_empty. intros ->. reflexivity.
Qed.

Lemma alt_step_none img st :
  Spec.full_miss img = false -> Spec.half_miss img = false ->
  alt_step st img = st.
Proof.
  unfold Spec.full_miss, Spec.half_miss, Spec.decorative, Bs4.has_attr, alt_step.
  destruct (Bs4.get img "alt") as [alt|]; [|discriminate].
  rewrite strip_empty. intros _ ->. reflexivity.
Qed.

Lemma full_half_disjoint img :
  Spec.full_miss img = true -> Spec.half_miss img = false.
Proof.
  unfold Spec.full_miss, Spec.half_miss, Bs4.has_attr.
  destruct (Bs4.get img "alt"); [discriminate|reflexivity].
Qed.

(** The counters of the image loop. *)
Lemma alt_fold imgs : forall st,
  let st' := fold_left alt_step imgs st in
  missing_alt st' = missing_alt st + Spec.count Spec.full_miss imgs /\
  empty_alt st' = empty_alt st + Spec.count Spec.half_miss imgs /\
  List.length (alt_issues st') =
    List.length (alt_issues st)
    + Spec.count Spec.full_miss imgs + Spec.count Spec.half_miss imgs.
Proof.
  induction imgs as [|img imgs IH]; intros st; cbn zeta.
  - unfold Spec.count. simpl. lia.
  - simpl fold_left. rewrite !count_cons.
    specialize (IH (alt_step st img)). cbn zeta in IH.
    destruct IH as (IH1 & IH2 & IH3). rewrite IH1, IH2, IH3.
    destruct (Spec.full_miss img) eqn:Hf.
    + rewrite (full_half_disjoint _ Hf), (alt_step_full _ _ Hf). simpl.
      rewrite length_app. simpl. lia.
    + destruct (Spec.half_miss img) eqn:Hh.
      * rewrite (alt_step_half _ _ Hh). simpl. rewrite length_app. simpl. lia.
      * rewrite (alt_step_none _ _ Hf Hh). lia.
Qed.

(** *** Headings *)

(** The counters of the heading loop. *)
Lemma skip_fold levels : forall st,
  let st' := fold_left skip_step levels st in
  skips st' = skips st + Spec.count_skips (prev_level st) levels /\
  List.length (skip_issues st') =
    List.length (skip_issues st) + Spec.count_skips (prev_level st) levels.
Proof.
  induction levels as [|level levels IH]; intros st; cbn zeta.
  - simpl. lia.
  - simpl fold_left. specialize (IH (skip_step st level)). cbn zeta in IH.
    destruct IH as [IH1 IH2]. rewrite IH1, IH2. unfold skip_step. simpl.
    destruct (Nat.ltb (prev_level st + 1) level && Nat.ltb 0 (prev_level st));
      simpl; rewrite ?length_app; simpl; lia.
Qed.

Lemma filter_filter_sub {A} (p q : A -> bool) (l : list A) :
  (forall x, p x = true -> q x = true) ->
  filter p (filter q l) = filter p l.
Proof.
  intros H. induction l as [|x l IH]; [reflexivity|]. simpl.
  destruct (q x) eqn:Hq; simpl.
  - rewrite IH. reflexivity.
  - destruct (p x) eqn:Hp; [|exact IH]. rewrite (H x Hp) in Hq. discriminate.
Qed.

(** The [h1] tags are the headings named [h1]. *)
Lemma find_all_h1 doc :
  Bs4.find_all ["h1"] doc =
  filter (fun e => PyStr.mem (Bs4.el_name e) ["h1"])
         (Bs4.find_all ["h1"; "h2"; "h3"; "h4"; "h5"; "h6"] doc).
Proof.
  unfold Bs4.find_all. symmetry. apply filter_filter_sub.
  intros x. unfold PyStr.mem. simpl.
  destruct (String.eqb (Bs4.el_name x) "h1"); [reflexivity|discriminate].
Qed.

Lemma heading_score doc :
  Bs4.find_all ["h1"; "h2"; "h3"; "h4"; "h5"; "h6"] doc <> [] ->
  let levels := map (fun h => heading_level (Bs4.el_name h))
                    (Bs4.find_all ["h1"; "h2"; "h3"; "h4"; "h5"; "h6"] doc) in
  let h1_count := List.length (Bs4.find_all ["h1"] doc) in
  let k := Spec.count_skips 0 levels in
  fst (check_heading_structure doc) =
  Py.max 0 (1 - Spec.h1_penalty h1_count - Spec.skip_penalty k)%float /\
  List.length (snd (check_heading_structure doc)) =
  (if Nat.eqb h1_count 1 then 0 else 1) + k.
Proof.
  intros Hne. cbv zeta. unfold check_heading_structure.
  destruct (Bs4.find_all ["h1"; "h2"; "h3"; "h4"; "h5"; "h6"] doc) as [|h hs] eqn:E;
    [congruence|]. rewrite <- E. clear E Hne h hs.
  set (levels := map _ _). set (h1_count := List.length _).
  cbv zeta. cbn [fst snd].
  pose proof (skip_fold levels
    (mk_skip_state 0 0
       (if Nat.eqb h1_count 0 then ["No H1 heading found"]
        else if Nat.ltb 1 h1_count
             then [PyStr.fmt ["Multiple H1 headings found (";
                              PyStr.of_nat h1_count; ")"]]
             else []))) as Hf.
  cbv zeta in Hf. cbn [skips prev_level skip_issues] in Hf.
  destruct Hf as [Hs Hi]. rewrite Hs, Hi. cbn [Nat.add].
  unfold Spec.h1_penalty, Spec.skip_penalty.
  destruct h1_count as [|[|n]]; cbn [Nat.eqb Nat.ltb Nat.leb List.length Nat.add];
    (split; [|reflexivity]);
    destruct (Spec.count_skips 0 levels); reflexivity.
Qed.

(** *** Links *)

Lemma truthy_hd_filter {A} (p : A -> bool) (l : list A) :
  match hd_error (filter p l) with Some _ => true | None => false end
  = existsb p l.
Proof.
  induction l as [|x l IH]; [reflexivity|]. simpl.
  destruct (p x); [reflexivity|exact IH].
Qed.

Lemma tag_find_img a :
  Bs4.truthy (Bs4.tag_find "img" a) = Spec.has_image a.
Proof. unfold Bs4.truthy, Bs4.tag_find, Spec.has_image. apply truthy_hd_filter. Qed.

Lemma truthy_eqb s : PyStr.truthy s = negb (String.eqb s "").
Proof. destruct s; reflexivity. Qed.

(** One turn of the link loop adds the issue of the anchor and counts it
    when it is a miss. *)
Lemma link_step_spec st a :
  poor_links (link_step st a)
  = poor_links st + (if Spec.link_miss a then 1 else 0) /\
  link_issues (link_step st a) = link_issues st ++ Spec.link_issue a.
Proof.
  unfold link_step, Spec.link_miss, Spec.link_issue, Spec.classify_link.
  rewrite tag_find_img, truthy_eqb. fold (Spec.link_text a).
  set (poor := PyStr.mem _ _ || _).
  destruct (String.eqb (Spec.link_text a) ""); simpl.
  - destruct (Spec.has_image a); simpl; rewrite ?app_nil_r; split;
      reflexivity || lia.
  - rewrite andb_false_r.
    destruct poor; simpl; rewrite ?app_nil_r; split; reflexivity || lia.
Qed.

Lemma link_fold links : forall st,
  let st' := fold_left link_step links st in
  poor_links st' = poor_links st + Spec.count Spec.link_miss links /\
  link_issues st' = link_issues st ++ flat_map Spec.link_issue links.
Proof.
  induction links as [|a links IH]; intros st; cbn zeta.
  - unfold Spec.count. simpl. rewrite app_nil_r. split; [lia|reflexivity].
  - simpl fold_left. specialize (IH (link_step st a)). cbn zeta in IH.
    destruct IH as [IH1 IH2]. destruct (link_step_spec st a) as [H1 H2].
    rewrite IH1, IH2, H1, H2, count_cons. simpl flat_map.
    rewrite <- app_assoc. split; [lia|reflexivity].
Qed.

Lemma link_issue_length a :
  List.length (Spec.link_issue a) = if Spec.link_miss a then 1 else 0.
Proof.
  unfold Spec.link_issue, Spec.link_miss.
  destruct (Spec.classify_link a); reflexivity.
Qed.

Lemma link_issues_length links :
  List.length (flat_map Spec.link_issue links) = Spec.count Spec.link_miss links.
Proof.
  induction links as [|a links IH]; [reflexivity|].
  simpl. rewrite length_app, IH, link_issue_length, count_cons. reflexivity.
Qed.

(** *** Forms *)

Lemma mem_singleton x y : PyStr.mem x [y] = String.eqb x y.
Proof. unfold PyStr.mem. simpl. apply orb_false_r. Qed.

Lemma existsb_pointwise {A} (p q : A -> bool) (l : list A) :
  (forall x, p x = q x) -> existsb p l = existsb q l.
Proof.
  intros H. induction l as [|x l IH]; [reflexivity|]. simpl.
  rewrite H, IH. reflexivity.
Qed.

(** [soup.find("label", attrs={"for": id})] finds a tag exactly when some
    [label] of the document carries that [for]. *)
Lemma find_label_for doc id :
  Bs4.truthy (Bs4.find_with_attr "label" "for" id doc) = true <->
  exists l, In l (Bs4.all_tags doc) /\ Bs4.el_name l = "label" /\
            Bs4.get l "for" = Some id.
Proof.
  unfold Bs4.truthy, Bs4.find_with_attr, Bs4.find_all.
  rewrite truthy_hd_filter, existsb_exists. split.
  - intros (l & Hin & Hfor). apply filter_In in Hin. destruct Hin as [Hin Hn].
    rewrite mem_singleton in Hn. apply String.eqb_eq in Hn.
    exists l. repeat split; try assumption.
    destruct (Bs4.get l "for") as [v|]; [|discriminate].
    apply String.eqb_eq in Hfor. congruence.
  - intros (l & Hin & Hn & Hfor). exists l. split.
    + apply filter_In. split; [assumption|]. rewrite mem_singleton, Hn.
      reflexivity.
    + rewrite Hfor. apply String.eqb_refl.
Qed.

Lemma parent_labels_spec parents :
  filter (fun p => String.eqb p "label") parents <> [] <-> In "label" parents.
Proof.
  split.
  - intros H. destruct (filter _ parents) as [|p l] eqn:E; [congruence|].
    assert (Hin : In p (filter (fun p => String.eqb p "label") parents))
      by (rewrite E; left; reflexivity).
    apply filter_In in Hin. destruct Hin as [Hin Hp].
    apply String.eqb_eq in Hp. congruence.
  - intros Hin Hnil.
    assert (H : In "label" (filter (fun p => String.eqb p "label") parents))
      by (apply filter_In; split; [assumption|reflexivity]).
    rewrite Hnil in H. exact H.
Qed.

(** The flag [has_label] of the loop body says that the control is
    labeled. *)
Lemma has_label_spec doc c :
  has_label doc c = true <-> Spec.labeled doc c.
Proof.
  unfold has_label, Spec.labeled. cbv zeta.
  pose proof (parent_labels_spec (Bs4.el_parents c)) as Hp.
  destruct (Bs4.get c "aria-label") as [a|] eqn:Ea.
  - rewrite strip_truthy. destruct (Spec.blank a) eqn:Hb; simpl.
    + destruct (filter _ (Bs4.el_parents c)) as [|p ps].
      * destruct (Bs4.get c "id") as [id|] eqn:Ei.
        -- pose proof (find_label_for doc id) as Hl.
           destruct (Bs4.truthy _); split.
           ++ intros _. left. destruct (proj1 Hl eq_refl) as (l & H).
              exists id, l. tauto.
           ++ reflexivity.
           ++ discriminate.
           ++ intros [(id' & l & Hid & H)|[H|(a' & Ha & Hb')]].
              ** injection Hid as <-. apply Hl. exists l. exact H.
              ** exfalso. apply Hp in H. apply H. reflexivity.
              ** congruence.
        -- split; [discriminate|].
           intros [(id' & l & Hid & H)|[H|(a' & Ha & Hb')]].
           ++ discriminate.
           ++ exfalso. apply Hp in H. apply H. reflexivity.
           ++ congruence.
      * split; [|reflexivity]. intros _. right. left. apply Hp. discriminate.
    + split; [|reflexivity]. intros _. right. right. exists a. split; congruence.
  - destruct (filter _ (Bs4.el_parents c)) as [|p ps].
    + destruct (Bs4.get c "id") as [id|] eqn:Ei.
      * pose proof (find_label_for doc id) as Hl.
        destruct (Bs4.truthy _); split.
        -- intros _. left. destruct (proj1 Hl eq_refl) as (l & H).
           exists id, l. tauto.
        -- reflexivity.
        -- discriminate.
        -- intros [(id' & l & Hid & H)|[H|(a' & Ha & Hb')]].
           ++ injection Hid as <-. apply Hl. exists l. exact H.
           ++ exfalso. apply Hp in H. apply H. reflexivity.
           ++ discriminate.
      * split; [discriminate|].
        intros [(id' & l & Hid & H)|[H|(a' & Ha & Hb')]].
        -- discriminate.
        -- exfalso. apply Hp in H. apply H. reflexivity.
        -- discriminate.
    + split; [|reflexivity]. intros _. right. left. apply Hp. discriminate.
Qed.

Lemma count_filter {A} (p q : A -> bool) (l : list A) :
  Spec.count p (filter q l) = Spec.count (fun x => q x && p x) l.
Proof.
  unfold Spec.count. induction l as [|x l IH]; [reflexivity|]. simpl.
  destruct (q x); simpl; [destruct (p x); simpl; rewrite IH|]; auto.
Qed.

(** One turn of the form loop. *)
Lemma form_step_spec doc st c :
  let miss := Spec.qualifying c && negb (has_label doc c) in
  total_inputs (form_step doc st c)
  = total_inputs st + (if Spec.qualifying c then 1 else 0) /\
  unlabeled (form_step doc st c) = unlabeled st + (if miss then 1 else 0) /\
  List.length (form_issues (form_step doc st c))
  = List.length (form_issues st) + (if miss then 1 else 0).
Proof.
  cbv zeta. unfold form_step, Spec.qualifying.
  destruct (String.eqb (Bs4.el_name c) "input" && type_excluded c); simpl.
  - lia.
  - destruct (has_label doc c); simpl; rewrite ?length_app; simpl; lia.
Qed.

(** The counters of the form loop. *)
Lemma form_fold doc inputs : forall st,
  let misses :=
    Spec.count (fun c => negb (has_label doc c))
               (filter Spec.qualifying inputs) in
  let st' := fold_left (form_step doc) inputs st in
  total_inputs st' = total_inputs st + Spec.count Spec.qualifying inputs /\
  unlabeled st' = unlabeled st + misses /\
  List.length (form_issues st') = List.length (form_issues st) + misses.
Proof.
  induction inputs as [|c inputs IH]; intros st; cbn zeta.
  - unfold Spec.count. simpl. lia.
  - simpl fold_left. specialize (IH (form_step doc st c)). cbn zeta in IH.
    destruct IH as (IH1 & IH2 & IH3). rewrite IH1, IH2, IH3.
    destruct (form_step_spec doc st c) as (H1 & H2 & H3).
    rewrite H1, H2, H3, !count_filter, !count_cons. lia.
Qed.

(** *** Regular expressions *)

Lemma append_assoc (a b c : string) :
  ((a ++ b) ++ c)%string = (a ++ (b ++ c))%string.
Proof. induction a as [|x a IH]; simpl; [reflexivity|rewrite IH; reflexivity]. Qed.

Lemma star_spec p k : forall t,
  Re.star p k t = true <->
  exists w rest, t = (w ++ rest)%string /\ Re.all_of p w = true /\ k rest = true.
Proof.
  induction t as [|c t IH]; simpl.
  - split.
    + intros H. exists "", "". auto.
    + intros (w & rest & Ht & _ & Hk). destruct w; [|discriminate Ht].
      simpl in Ht. subst rest. exact Hk.
  - rewrite orb_true_iff, andb_true_iff, IH. split.
    + intros [[Hc (w & rest & Ht & Hw & Hk)] | Hk].
      * exists (String c w), rest. subst t. repeat split; try assumption.
        unfold Re.all_of in *. simpl. rewrite Hc. exact Hw.
      * exists "", (String c t). auto.
    + intros (w & rest & Ht & Hw & Hk). destruct w as [|c' w].
      * simpl in Ht. subst rest. right. exact Hk.
      * simpl in Ht. injection Ht as <- ->. unfold Re.all_of in Hw. simpl in Hw.
        apply andb_true_iff in Hw. destruct Hw as [Hc Hw].
        left. split; [exact Hc|]. exists w, rest. auto.
Qed.

(** The matcher accepts exactly the prefixes the pattern stands for. *)
Lemma matches_spec r : forall s k,
  Re.matches r s k = true <->
  exists w rest, s = (w ++ rest)%string /\ Re.lang r w /\ k rest = true.
Proof.
  induction r as [c|p|p|r1 IH1 r2 IH2|r1 IH1 r2 IH2]; intros s k; simpl.
  - destruct s as [|c' s].
    + split; [discriminate|]. intros (w & rest & Hs & -> & _). discriminate Hs.
    + rewrite andb_true_iff, Ascii.eqb_eq. split.
      * intros [<- Hk]. exists (String c ""), s. auto.
      * intros (w & rest & Hs & -> & Hk). simpl in Hs. injection Hs as <- <-. auto.
  - destruct s as [|c' s].
    + split; [discriminate|]. intros (w & rest & Hs & (c & -> & _) & _). discriminate Hs.
    + rewrite andb_true_iff. split.
      * intros [Hp Hk]. exists (String c' ""), s. repeat split; eauto.
      * intros (w & rest & Hs & (c & -> & Hp) & Hk). simpl in Hs.
        injection Hs as <- <-. auto.
  - apply star_spec.
  - rewrite IH1. split.
    + intros (w1 & rest1 & Hs & H1 & H2). apply IH2 in H2.
      destruct H2 as (w2 & rest & Hr & H2 & Hk).
      exists (w1 ++ w2)%string, rest. subst. rewrite append_assoc. eauto 7.
    + intros (w & rest & Hs & (w1 & w2 & Hw & H1 & H2) & Hk).
      exists w1, (w2 ++ rest)%string. subst. rewrite append_assoc.
      repeat split; try assumption. apply IH2. eauto.
  - rewrite orb_true_iff, IH1, IH2. split.
    + intros [(w & rest & Hs & H & Hk)|(w & rest & Hs & H & Hk)];
        exists w, rest; auto.
    + intros (w & rest & Hs & [H|H] & Hk); [left|right]; eauto.
Qed.

(** [re.search] finds the pattern exactly when some part of the subject
    is a string the pattern stands for. *)
Lemma search_spec r : forall s,
  Re.search r s = true <->
  exists pre w post, s = (pre ++ w ++ post)%string /\ Re.lang r w.
Proof.
  induction s as [|c s IH]; simpl; rewrite orb_true_iff, matches_spec.
  - split.
    + intros [(w & rest & Hs & Hw & _)|H]; [|discriminate].
      exists "", w, rest. auto.
    + intros (pre & w & post & Hs & Hw). left. destruct pre; [|discriminate Hs].
      exists w, post. auto.
  - rewrite IH. split.
    + intros [(w & rest & Hs & Hw & _)|(pre & w & post & Hs & Hw)].
      * exists "", w, rest. auto.
      * exists (String c pre), w, post. subst s. auto.
    + intros (pre & w & post & Hs & Hw). destruct pre as [|c' pre].
      * left. exists w, post. auto.
      * right. simpl in Hs. injection Hs as <- ->. eauto.
Qed.

Lemma lang_lit s k : forall w,
  Re.lang (Re.lit s k) w <-> exists w', w = (s ++ w')%string /\ Re.lang k w'.
Proof.
  induction s as [|c s IH]; intros w; simpl.
  - split; [intros H; eauto|intros (w' & -> & H); exact H].
  - split.
    + intros (w1 & w2 & -> & -> & H). apply IH in H. destruct H as (w' & -> & H).
      exists w'. auto.
    + intros (w' & -> & H). exists (String c ""), (s ++ w')%string.
      repeat split. apply IH. eauto.
Qed.

Lemma lang_three p1 p2 p3 w :
  Re.lang (Re.Cat (Re.Cls p1) (Re.Cat (Re.Cls p2) (Re.Cls p3))) w <->
  exists a b c, w = String a (String b (String c "")) /\
                p1 a = true /\ p2 b = true /\ p3 c = true.
Proof.
  simpl. split.
  - intros (w1 & w2 & -> & (a & -> & Ha) & (w3 & w4 & -> & (b & -> & Hb) & (c & -> & Hc))).
    exists a, b, c. auto.
  - intros (a & b & c & -> & Ha & Hb & Hc).
    exists (String a ""), (String b (String c "")). repeat split; eauto.
    exists (String b ""), (String c ""). repeat split; eauto.
Qed.

Lemma lang_two p1 p2 w :
  Re.lang (Re.Cat (Re.Cls p1) (Re.Cls p2)) w <->
  exists a b, w = String a (String b "") /\ p1 a = true /\ p2 b = true.
Proof.
  simpl. split.
  - intros (w1 & w2 & -> & (a & -> & Ha) & (b & -> & Hb)). exists a, b. auto.
  - intros (a & b & -> & Ha & Hb).
    exists (String a ""), (String b ""). repeat split; eauto.
Qed.

Lemma lang_color (k1 k2 : Re.regex) (t1 t2 : string) w :
  Re.lang (Re.Alt (Re.lit "color:" (ws_star (Re.lit t1 k1)))
                  (Re.lit "color:" (ws_star (Re.lit t2 k2)))) w <->
  exists ws tail,
    w = ("color:" ++ ws ++ tail)%string /\
    Re.all_of PyStr.is_space ws = true /\
    ((exists v, tail = (t1 ++ v)%string /\ Re.lang k1 v) \/
     (exists v, tail = (t2 ++ v)%string /\ Re.lang k2 v)).
Proof.
  cbn [Re.lang]. rewrite !lang_lit. unfold ws_star. cbn [Re.lang]. split.
  - intros [(w' & -> & ws & w2 & -> & Hws & H)|(w' & -> & ws & w2 & -> & Hws & H)];
      apply lang_lit in H; exists ws, w2; auto.
  - intros (ws & tail & -> & Hws & [H|H]); [left|right];
      exists (ws ++ tail)%string; (split; [reflexivity|]);
      exists ws, tail; repeat split; try assumption; apply lang_lit; exact H.
Qed.

Lemma search_declares (k1 k2 : Re.regex) (t1 t2 : string) (kind : string -> Prop) :
  (forall tail, kind tail <->
     (exists v, tail = (t1 ++ v)%string /\ Re.lang k1 v) \/
     (exists v, tail = (t2 ++ v)%string /\ Re.lang k2 v)) ->
  forall style,
  Re.search (Re.Alt (Re.lit "color:" (ws_star (Re.lit t1 k1)))
                    (Re.lit "color:" (ws_star (Re.lit t2 k2)))) style = true
  <-> Spec.declares kind style.
Proof.
  intros Hk style. rewrite search_spec. unfold Spec.declares. split.
  - intros (pre & w & post & -> & H). apply lang_color in H.
    destruct H as (ws & tail & -> & Hws & H). apply Hk in H.
    exists pre, ws, tail, post. repeat split; try assumption.
    rewrite !append_assoc. reflexivity.
  - intros (pre & ws & tail & post & -> & Hws & H). apply Hk in H.
    exists pre, ("color:" ++ ws ++ tail)%string, post. split.
    + rewrite !append_assoc. reflexivity.
    + apply lang_color. eauto.
Qed.

(** The light pattern is found exactly in the styles that declare a
    light text. *)
Lemma light_pattern_spec style :
  Re.search light_pattern style = true <-> Spec.declares Spec.light_tail style.
Proof.
  apply search_declares. intros tail. unfold Spec.light_tail. split.
  - intros [(a & b & c & -> & H)|(d1 & d2 & -> & H)].
    + left. exists (String a (String b (String c ""))). split; [reflexivity|].
      apply lang_three. exists a, b, c. split; [reflexivity|exact H].
    + right. exists (String d1 (String d2 "")). split; [reflexivity|].
      apply lang_two. exists d1, d2. split; [reflexivity|exact H].
  - intros [(v & -> & H)|(v & -> & H)].
    + apply lang_three in H. destruct H as (a & b & c & -> & H). left.
      exists a, b, c. split; [reflexivity|exact H].
    + apply lang_two in H. destruct H as (a & b & -> & H). right.
      exists a, b. split; [reflexivity|exact H].
Qed.

(** The dark pattern is found exactly in the styles that declare a dark
    text. *)
Lemma dark_pattern_spec style :
  Re.search dark_pattern style = true <-> Spec.declares Spec.dark_tail style.
Proof.
  apply search_declares. intros tail. unfold Spec.dark_tail. split.
  - intros [(a & b & c & -> & H)|(d1 & d2 & -> & H)].
    + left. exists (String a (String b (String c ""))). split; [reflexivity|].
      apply lang_three. exists a, b, c. split; [reflexivity|exact H].
    + right. exists (String d1 (String d2 "")). split; [reflexivity|].
      apply lang_two. exists d1, d2. split; [reflexivity|exact H].
  - intros [(v & -> & H)|(v & -> & H)].
    + apply lang_three in H. destruct H as (a & b & c & -> & H). left.
      exists a, b, c. split; [reflexivity|exact H].
    + apply lang_two in H. destruct H as (a & b & -> & H). right.
      exists a, b. split; [reflexivity|exact H].
Qed.

(** *** Colour contrast *)

(** The counter and the issues of the contrast loop. *)
Lemma contrast_fold els : forall st,
  let st' := fold_left contrast_step els st in
  let light := Spec.count (fun e => Re.search light_pattern (Spec.style_of e)) els in
  let dark := Spec.count (fun e => Re.search dark_pattern (Spec.style_of e)) els in
  potential_issues st' = potential_issues st + light + dark /\
  count_occ string_dec (contrast_issues st') "Potential low contrast light text"
  = count_occ string_dec (contrast_issues st) "Potential low contrast light text"
    + light /\
  count_occ string_dec (contrast_issues st') "Potential low contrast dark text"
  = count_occ string_dec (contrast_issues st) "Potential low contrast dark text"
    + dark /\
  List.length (contrast_issues st')
  = List.length (contrast_issues st) + light + dark.
Proof.
  induction els as [|e els IH]; intros st; cbn zeta.
  - unfold Spec.count. simpl. lia.
  - simpl fold_left. specialize (IH (contrast_step st e)). cbn zeta in IH.
    destruct IH as (IH1 & IH2 & IH3 & IH4). rewrite IH1, IH2, IH3, IH4, !count_cons.
    unfold contrast_step. fold (Spec.style_of e).
    destruct (Re.search light_pattern (Spec.style_of e));
      destruct (Re.search dark_pattern (Spec.style_of e)); simpl;
      rewrite ?count_occ_app, ?length_app; simpl; lia.
Qed.

(** *** The aggregator *)

Lemma run_checks_eq doc :
  run_checks doc =
  [("images", mk_category_result (fst (check_alt_text doc))
                                 (snd (check_alt_text doc)));
   ("headings", mk_category_result (fst (check_heading_structure doc))
                                   (snd (check_heading_structure doc)));
   ("links", mk_category_result (fst (check_descriptive_links doc))
                                (snd (check_descriptive_links doc)));
   ("forms", mk_category_result (fst (check_form_labels doc))
                                (snd (check_form_labels doc)));
   ("structure", mk_category_result (fst (check_semantic_structure doc))
                                    (snd (check_semantic_structure doc)));
   ("contrast", mk_category_result (fst (check_color_contrast doc))
                                   (snd (check_color_contrast doc)))].
Proof.
  unfold run_checks.
  destruct (check_alt_text doc), (check_heading_structure doc),
    (check_descriptive_links doc), (check_form_labels doc),
    (check_semantic_structure doc), (check_color_contrast doc).
  reflexivity.
Qed.

(** The loop over the six recorded categories. *)
Lemma normalized_score_six r1 r2 r3 r4 r5 r6 :
  normalized_score
    [("images", r1); ("headings", r2); ("links", r3);
     ("forms", r4); ("structure", r5); ("contrast", r6)]
  = ((0 + score r1 * 0.15 + score r2 * 0.15 + score r3 * 0.10
      + score r4 * 0.15 + score r5 * 0.20 + score r6 * 0.15)
     / (0 + 0.15 + 0.15 + 0.10 + 0.15 + 0.20 + 0.15))%float.
Proof. reflexivity. Qed.

(** On a fetched page [round] does not raise, and the total lies between
    0 and 100. *)
Lemma run_success web u doc :
  web u = Page doc ->
  exists t,
    (0 <= t <= 100)%Z /\
    Py.round (normalized_score (run_checks doc) * 100) = Some t /\
    run_accessibility_check web u
    = Some (mk_report u t (run_checks doc) (all_issues (run_checks doc))).
Proof.
  intros Hweb. unfold run_accessibility_check, fetch_url. rewrite Hweb.
  rewrite run_checks_eq, normalized_score_six. cbn [score].
  destruct (total_round _ _ _ _ _ _
              (check_alt_text_unit doc) (check_heading_structure_unit doc)
              (check_descriptive_links_unit doc) (check_form_labels_unit doc)
              (check_semantic_structure_unit doc) (check_color_contrast_unit doc))
    as (t & Ht & Hb).
  exists t. rewrite Ht. auto.
Qed.

(** The contrast checker always reports something. *)
Lemma contrast_issues_nonempty doc : snd (check_color_contrast doc) <> [].
Proof.
  unfold check_color_contrast. cbv zeta.
  destruct (contrast_issues _); simpl; discriminate.
Qed.


Lemma prefix_app (a b : string) : prefix a (a ++ b) = true.
Proof.
  induction a as [|c a IH]; simpl; [destruct b; reflexivity|].
  destruct (ascii_dec c c) as [_|Hne]; [exact IH | contradiction Hne; reflexivity].
Qed.

Lemma contains_app (needle pre post : string) :
  PyStr.contains needle (pre ++ needle ++ post) = true.
Proof.
  induction pre as [|c pre IH].
  - cbn [append]. destruct (needle ++ post)%string eqn:E.
    + unfold PyStr.contains. rewrite <- E, prefix_app. reflexivity.
    + cbn [PyStr.contains]. rewrite <- E, prefix_app. reflexivity.
  - cbn [append PyStr.contains]. rewrite IH. apply orb_true_r.
Qed.




End LoopFacts.

(** ** The claims of the specification *)

Import FloatSpec FloatFacts LoopFacts.

(** C1. For every fetched page [run_accessibility_check] computes
    [total_score] as [round(100 * sum(score * weight) / sum(weight))] over
    the six categories with weights 0.15, 0.15, 0.10, 0.15, 0.20 and 0.15,
    whose sum is 0.9; when all six scores are 1.0 the total is 100. *)
Theorem C1_weighted_total (web : string -> response) (u : string)
        (doc : Bs4.soup) :
  web u = Page doc ->
  exists r,
    run_accessibility_check web u = Some r /\
    let scores := map (fun c => score (snd c)) (categories r) in
    map fst (categories r)
    = ["images"; "headings"; "links"; "forms"; "structure"; "contrast"] /\
    Spec.fsum Spec.weights = 0.9%float /\
    Py.round (Spec.weighted_total scores) = Some (total_score r) /\
    (scores = [1; 1; 1; 1; 1; 1]%float -> total_score r = 100%Z).
Proof.
  intros Hweb. destruct (run_success web u doc Hweb) as (t & _ & Ht & Hr).
  eexists. split; [exact Hr|]. cbn [categories total_score].
  rewrite run_checks_eq in *. cbn [map fst snd score].
  split; [reflexivity|]. split; [reflexivity|]. split.
  - unfold Spec.weighted_total. rewrite float_mul_comm. exact Ht.
  - intros Hs. injection Hs as H1 H2 H3 H4 H5 H6.
    rewrite normalized_score_six in Ht. cbn [score] in Ht.
    rewrite H1, H2, H3, H4, H5, H6 in Ht. vm_compute in Ht. congruence.
Qed.

(** A page whose six scores are all 1.0 meets the hypotheses of C1. *)
Lemma C1_weighted_total_witness :
  exists r,
    run_accessibility_check
      (fun _ => Page [Bs4.Tag "header" [] [];
                      Bs4.Tag "main" [] [Bs4.Tag "h1" [] [Bs4.NavigableString "Title"]];
                      Bs4.Tag "footer" [] []])
      "https://example.org" = Some r /\
    total_score r = 100%Z.
Proof.
  destruct (C1_weighted_total
              (fun _ => Page [Bs4.Tag "header" [] [];
                              Bs4.Tag "main" [] [Bs4.Tag "h1" [] [Bs4.NavigableString "Title"]];
                              Bs4.Tag "footer" [] []])
              "https://example.org" _ eq_refl) as (r & Hr & _ & _ & _ & H100).
  exists r. split; [exact Hr|]. apply H100.
  injection Hr as <-. reflexivity.
Defined.



(** C3. For every fetched page each of the six checkers returns a score
    in [[0,1]], and the report's total score is an integer in
    [[0,100]]. *)
Theorem C3_score_ranges (web : string -> response) (u : string)
        (doc : Bs4.soup) :
  web u = Page doc ->
  (Spec.in_unit (fst (check_alt_text doc)) /\
   Spec.in_unit (fst (check_heading_structure doc)) /\
   Spec.in_unit (fst (check_descriptive_links doc)) /\
   Spec.in_unit (fst (check_form_labels doc)) /\
   Spec.in_unit (fst (check_semantic_structure doc)) /\
   Spec.in_unit (fst (check_color_contrast doc))) /\
  exists r,
    run_accessibility_check web u = Some r /\
    Forall (fun c => Spec.in_unit (score (snd c))) (categories r) /\
    (0 <= total_score r <= 100)%Z.
Proof.
  intros Hweb.
  assert (Hs : Spec.in_unit (fst (check_alt_text doc)) /\
               Spec.in_unit (fst (check_heading_structure doc)) /\
               Spec.in_unit (fst (check_descriptive_links doc)) /\
               Spec.in_unit (fst (check_form_labels doc)) /\
               Spec.in_unit (fst (check_semantic_structure doc)) /\
               Spec.in_unit (fst (check_color_contrast doc))).
  { repeat split;
      first [ apply (unit_float_leb _ (check_alt_text_unit doc))
            | apply (unit_float_leb _ (check_heading_structure_unit doc))
            | apply (unit_float_leb _ (check_descriptive_links_unit doc))
            | apply (unit_float_leb _ (check_form_labels_unit doc))
            | apply (unit_float_leb _ (check_semantic_structure_unit doc))
            | apply (unit_float_leb _ (check_color_contrast_unit doc)) ]. }
  split; [exact Hs|].
  destruct (run_success web u doc Hweb) as (t & Hb & _ & Hr).
  eexists. split; [exact Hr|]. cbn [categories total_score].
  split; [|exact Hb]. rewrite run_checks_eq.
  destruct Hs as (H1 & H2 & H3 & H4 & H5 & H6).
  repeat (apply Forall_cons; [assumption|]). apply Forall_nil.
Qed.

(** An empty page is fetched, scored 61 and meets the hypothesis of C3. *)
Lemma C3_score_ranges_witness :
  exists r,
    run_accessibility_check (fun _ => Page []) "https://example.org" = Some r /\
    Forall (fun c => Spec.in_unit (score (snd c))) (categories r) /\
    (0 <= total_score r <= 100)%Z.
Proof.
  exact (proj2 (C3_score_ranges (fun _ => Page []) "https://example.org" []
                  eq_refl)).
Defined.

(** C4. The alt-text checker returns score 1.0 and no issue when the
    document has no image; otherwise the score is
    [1 - (fullMisses + 0.5 * halfMisses) / totalImages] clamped to [[0,1]],
    where an image without [alt] is a full miss and an image with a blank
    [alt] and no [presentation] role is a half miss, with one issue per
    miss; four images with one full and one half miss score 0.625. *)
Theorem C4_alt_text (doc : Bs4.soup) :
  let images := Bs4.find_all ["img"] doc in
  let full := Spec.count Spec.full_miss images in
  let half := Spec.count Spec.half_miss images in
  (images = [] -> check_alt_text doc = (1%float, [])) /\
  (images <> [] ->
   fst (check_alt_text doc) =
   Spec.clamp01 (1 - (Py.of_count full + 0.5 * Py.of_count half)
                     / Py.of_count (List.length images))%float /\
   List.length (snd (check_alt_text doc)) = full + half) /\
  (List.length images = 4 -> full = 1 -> half = 1 ->
   fst (check_alt_text doc) = 0.625%float).
Proof.
  cbv zeta. unfold check_alt_text.
  pose proof (alt_fold (Bs4.find_all ["img"] doc) (mk_alt_state 0 0 [])) as Hf.
  cbv zeta in Hf. simpl in Hf. destruct Hf as (Hm & He & Hi).
  set (images := Bs4.find_all ["img"] doc) in *.
  split; [|split].
  - intros ->. reflexivity.
  - intros Hne. destruct images as [|i l] eqn:E; [congruence|].
    rewrite <- E in *. replace (Nat.eqb (List.length images) 0) with false
      by (rewrite E; reflexivity).
    cbn [fst snd]. rewrite Hm, He, Hi, (float_mul_comm 0.5). split; reflexivity.
  - intros H4 H1 Hh. rewrite H4. cbn [Nat.eqb fst]. rewrite Hm, He, H1, Hh.
    reflexivity.
Qed.

(** A document with four images, one without [alt] and one with a blank
    [alt], meets the hypotheses of C4. *)
Lemma C4_alt_text_witness :
  let doc := [Bs4.Tag "img" [("alt", "logo")] [];
              Bs4.Tag "img" [("src", "a.png")] [];
              Bs4.Tag "img" [("alt", "  "); ("src", "b.png")] [];
              Bs4.Tag "img" [("alt", ""); ("role", "presentation")] []] in
  check_alt_text doc =
  (0.625%float, ["Image missing alt attribute: a.png";
                 "Image has empty alt text: b.png"]).
Proof.
  intros doc.
  pose proof (proj2 (proj2 (C4_alt_text doc)) eq_refl eq_refl eq_refl) as H.
  rewrite (surjective_pairing (check_alt_text doc)), H. reflexivity.
Defined.

(** C5. The heading checker returns score 0.0 with the single issue
    "No headings found on page" when there is no heading; otherwise the
    penalty is 0.5 for no [h1] and 0.3 for more than one, a skip is counted
    whenever a level exceeds the previous level plus one (the previous
    level starts at 0 and is ignored until the first heading), the skip
    penalty is [min(0.5, skips * 0.1)] and the score is
    [max(0, 1.0 - h1Penalty - skipPenalty)]; a document whose headings are
    an [h1] followed by an [h3] scores 0.9 with one skip issue. *)
Theorem C5_heading_structure (doc : Bs4.soup) :
  let headings := Bs4.find_all ["h1"; "h2"; "h3"; "h4"; "h5"; "h6"] doc in
  let levels := map (fun h => heading_level (Bs4.el_name h)) headings in
  let h1_count := List.length (Bs4.find_all ["h1"] doc) in
  let skips := Spec.count_skips 0 levels in
  (headings = [] ->
   check_heading_structure doc = (0%float, ["No headings found on page"])) /\
  (headings <> [] ->
   fst (check_heading_structure doc) =
   Py.max 0 (1 - Spec.h1_penalty h1_count - Spec.skip_penalty skips)%float /\
   List.length (snd (check_heading_structure doc)) =
   (if Nat.eqb h1_count 1 then 0 else 1) + skips) /\
  (map Bs4.el_name headings = ["h1"; "h3"] ->
   check_heading_structure doc =
   (0.9%float, ["Heading level skip from h1 to h3"])).
Proof.
  cbv zeta. split; [|split].
  - unfold check_heading_structure. intros ->. reflexivity.
  - intros Hne. apply heading_score. exact Hne.
  - intros Hn. unfold check_heading_structure.
    rewrite find_all_h1.
    destruct (Bs4.find_all _ doc) as [|[n1 a1 c1 p1] [|[n2 a2 c2 p2] [|h3 l]]];
      try discriminate Hn.
    simpl in Hn. injection Hn as -> ->. reflexivity.
Qed.

(** A page with an [h1] and an [h3] inside a [div] meets the last
    hypothesis of C5. *)
Lemma C5_heading_structure_witness :
  check_heading_structure
    [Bs4.Tag "h1" [] [Bs4.NavigableString "Title"];
     Bs4.Tag "div" [] [Bs4.Tag "h3" [] [Bs4.NavigableString "Part"]]]
  = (0.9%float, ["Heading level skip from h1 to h3"]).
Proof.
  exact (proj2 (proj2 (C5_heading_structure
    [Bs4.Tag "h1" [] [Bs4.NavigableString "Title"];
     Bs4.Tag "div" [] [Bs4.Tag "h3" [] [Bs4.NavigableString "Part"]]]))
    eq_refl).
Defined.

(** C6. The link checker returns score 1.0 and no issue when the document
    has no anchor; otherwise each anchor is judged on its trimmed,
    lowercased text: an anchor with an image and no text is skipped, an
    empty text is a miss with an "Empty link text" issue, a text in the
    poor list or shorter than three characters is a miss with a
    "Non-descriptive link text" issue; the score is
    [1 - misses / totalLinks] over all anchors, clamped to [[0,1]]; five
    links with two misses score 0.6 with two issues. *)
Theorem C6_descriptive_links (doc : Bs4.soup) :
  let links := Bs4.find_all ["a"] doc in
  let misses := Spec.count Spec.link_miss links in
  (links = [] -> check_descriptive_links doc = (1%float, [])) /\
  (links <> [] ->
   fst (check_descriptive_links doc)
   = Spec.clamp01 (1 - Py.truediv misses (List.length links))%float /\
   snd (check_descriptive_links doc) = flat_map Spec.link_issue links /\
   List.length (snd (check_descriptive_links doc)) = misses) /\
  (List.length links = 5 -> misses = 2 ->
   fst (check_descriptive_links doc) = 0.6%float /\
   List.length (snd (check_descriptive_links doc)) = 2).
Proof.
  cbv zeta. unfold check_descriptive_links.
  pose proof (link_fold (Bs4.find_all ["a"] doc) (mk_link_state 0 [])) as Hf.
  cbv zeta in Hf. simpl in Hf. destruct Hf as [Hp Hi].
  set (links := Bs4.find_all ["a"] doc) in *.
  split; [|split].
  - intros ->. reflexivity.
  - intros Hne. destruct links as [|a l] eqn:E; [congruence|].
    rewrite <- E in *. cbn [fst snd]. rewrite Hp, Hi, link_issues_length.
    split; [apply clamp_quotient | split; reflexivity].
  - intros H5 H2. destruct links as [|a l] eqn:E; [discriminate H5|].
    rewrite <- E in *. cbn [fst snd].
    rewrite Hp, Hi, link_issues_length, H5, H2. split; reflexivity.
Qed.

(** Five anchors, two of which read "click here", meet the hypotheses of
    C6. *)
Lemma C6_descriptive_links_witness :
  let a := fun text => Bs4.Tag "a" [("href", "/x")] [Bs4.NavigableString text] in
  let doc := [a "Click here"; a "Documentation"; a " click here ";
              a "Contact us"; a "Pricing"] in
  fst (check_descriptive_links doc) = 0.6%float /\
  List.length (snd (check_descriptive_links doc)) = 2.
Proof.
  intros a doc.
  exact (proj2 (proj2 (C6_descriptive_links doc)) eq_refl eq_refl).
Defined.

(** C7. The form checker counts the [input], [select] and [textarea]
    controls other than inputs of type hidden, submit, button or image; a
    control is labeled when a [label] refers to its [id], when it sits
    inside a [label], or when it has a non-blank [aria-label]; the result
    is score 1.0 and no issue when no control counts, else
    [1 - unlabeled / total] clamped to [[0,1]] with one issue per
    unlabeled control; three controls of which one is unlabeled score
    [1 - 1/3]. *)
Theorem C7_form_labels (doc : Bs4.soup) :
  let controls := Spec.controls doc in
  let misses := Spec.count (fun c => negb (has_label doc c)) controls in
  (forall c, has_label doc c = true <-> Spec.labeled doc c) /\
  (controls = [] -> check_form_labels doc = (1%float, [])) /\
  (controls <> [] ->
   fst (check_form_labels doc)
   = Spec.clamp01 (1 - Py.truediv misses (List.length controls))%float /\
   List.length (snd (check_form_labels doc)) = misses) /\
  (List.length controls = 3 -> misses = 1 ->
   fst (check_form_labels doc) = (1 - 1 / 3)%float).
Proof.
  cbv zeta. split; [intros c; apply has_label_spec|].
  unfold check_form_labels, Spec.controls.
  pose proof (form_fold doc (Bs4.find_all ["input"; "select"; "textarea"] doc)
                (mk_form_state 0 0 [])) as Hf.
  cbv zeta in Hf. simpl in Hf. destruct Hf as (Ht & Hu & Hi).
  set (inputs := Bs4.find_all ["input"; "select"; "textarea"] doc) in *.
  assert (Hlen : Spec.count Spec.qualifying inputs
                 = List.length (filter Spec.qualifying inputs)) by reflexivity.
  split; [|split].
  - intros Hnil. destruct inputs as [|c l] eqn:E; [reflexivity|].
    rewrite <- E in *. rewrite Ht, Hlen, Hnil. reflexivity.
  - intros Hne. destruct inputs as [|c l] eqn:E;
      [exfalso; apply Hne; reflexivity|].
    rewrite <- E in *. rewrite Ht, Hlen.
    destruct (filter Spec.qualifying inputs) as [|c' l'] eqn:E'; [congruence|].
    rewrite <- E' in *. replace (Nat.eqb (List.length (filter Spec.qualifying inputs)) 0)
      with false by (rewrite E'; reflexivity).
    cbn [fst snd]. rewrite Hu, Hi. split; [apply clamp_quotient|reflexivity].
  - intros H3 H1. destruct inputs as [|c l] eqn:E;
      [simpl in H3; discriminate H3|].
    rewrite <- E in *. rewrite Ht, Hlen, H3. cbn [Nat.eqb fst].
    rewrite Hu, H1. reflexivity.
Qed.

(** Three text inputs, one with a [label], one with an [aria-label] and
    one with neither, next to a hidden input, meet the hypotheses of C7. *)
Lemma C7_form_labels_witness :
  let doc := [Bs4.Tag "label" [("for", "n")] [Bs4.NavigableString "Name"];
              Bs4.Tag "input" [("type", "text"); ("id", "n")] [];
              Bs4.Tag "input" [("type", "text"); ("aria-label", "Email")] [];
              Bs4.Tag "input" [("type", "text"); ("name", "q")] [];
              Bs4.Tag "input" [("type", "hidden")] []] in
  fst (check_form_labels doc) = (1 - 1 / 3)%float.
Proof.
  intros doc.
  exact (proj2 (proj2 (proj2 (C7_form_labels doc))) eq_refl eq_refl).
Defined.

(** C8. The structure checker counts the elements named header, footer,
    nav, main, article, section or aside, takes
    [min(1.0, count / 3)], reports "No semantic HTML elements found" when
    the count is 0, and when there is no [main] reports
    "No <main> element found" and subtracts 0.3, the result being clamped
    to at least 0; no landmark at all gives score 0 with both issues. *)
Theorem C8_semantic_structure (doc : Bs4.soup) :
  let landmarks := List.length (Bs4.find_all semantic_tags doc) in
  let has_main :=
    existsb (fun e => String.eqb (Bs4.el_name e) "main") (Bs4.all_tags doc) in
  let ratio := Py.min 1 (Py.truediv landmarks 3) in
  fst (check_semantic_structure doc)
  = Py.max 0 (if has_main then ratio else ratio - 0.3)%float /\
  snd (check_semantic_structure doc)
  = (if Nat.eqb landmarks 0 then ["No semantic HTML elements found"] else [])
    ++ (if has_main then [] else ["No <main> element found"]) /\
  (landmarks = 0 ->
   check_semantic_structure doc
   = (0%float, ["No semantic HTML elements found"; "No <main> element found"])).
Proof.
  cbv zeta. unfold check_semantic_structure.
  assert (Hm : Bs4.truthy (Bs4.find "main" doc)
               = existsb (fun e => String.eqb (Bs4.el_name e) "main")
                         (Bs4.all_tags doc)).
  { unfold Bs4.truthy, Bs4.find, Bs4.find_all. rewrite truthy_hd_filter.
    apply existsb_pointwise. intros e. apply mem_singleton. }
  rewrite Hm. split; [|split].
  - destruct (existsb _ _); reflexivity.
  - destruct (existsb _ _); simpl; rewrite ?app_nil_r; reflexivity.
  - intros H0. rewrite H0.
    assert (Hn : existsb (fun e => String.eqb (Bs4.el_name e) "main")
                         (Bs4.all_tags doc) = false).
    { apply length_zero_iff_nil in H0. unfold Bs4.find_all in H0.
      destruct (existsb _ _) eqn:He; [|reflexivity].
      apply existsb_exists in He. destruct He as (e & Hin & Hname).
      assert (Hf : In e (filter (fun e => PyStr.mem (Bs4.el_name e) semantic_tags)
                                (Bs4.all_tags doc))).
      { apply filter_In. split; [assumption|].
        apply String.eqb_eq in Hname. rewrite Hname. reflexivity. }
      rewrite H0 in Hf. destruct Hf. }
    rewrite Hn. reflexivity.
Qed.

(** A page without any landmark meets the hypothesis of C8. *)
Lemma C8_semantic_structure_witness :
  check_semantic_structure
    [Bs4.Tag "div" [] [Bs4.Tag "p" [] [Bs4.NavigableString "text"]]]
  = (0%float, ["No semantic HTML elements found"; "No <main> element found"]).
Proof.
  exact (proj2 (proj2 (C8_semantic_structure
    [Bs4.Tag "div" [] [Bs4.Tag "p" [] [Bs4.NavigableString "text"]]])) eq_refl).
Defined.




(** C10. The contrast checker never returns an empty issue list, so the
    report of every fetched page has a non-empty issue list, also when its
    total score is 100. *)
Theorem C10_issues_nonempty :
  (forall doc, snd (check_color_contrast doc) <> []) /\
  (forall web u doc,
     web u = Page doc ->
     exists r, run_accessibility_check web u = Some r /\ issues r <> []) /\
  (exists doc, forall web u,
     web u = Page doc ->
     exists r, run_accessibility_check web u = Some r /\
               total_score r = 100%Z /\ issues r <> []).
Proof.
  assert (Hall : forall doc, all_issues (run_checks doc) <> []).
  { intros doc. rewrite run_checks_eq. unfold all_issues. simpl.
    rewrite app_nil_r. pose proof (contrast_issues_nonempty doc) as Hc.
    intros Hnil. do 5 (apply app_eq_nil in Hnil; destruct Hnil as [_ Hnil]).
    contradiction. }
  split; [exact contrast_issues_nonempty|]. split.
  - intros web u doc Hweb. destruct (run_success web u doc Hweb) as (t & _ & _ & Hr).
    eexists. split; [exact Hr|]. apply Hall.
  - exists [Bs4.Tag "header" [] [];
            Bs4.Tag "main" [] [Bs4.Tag "h1" [] [Bs4.NavigableString "Title"]];
            Bs4.Tag "footer" [] []].
    intros web u Hweb. destruct (run_success web u _ Hweb) as (t & _ & Ht & Hr).
    eexists. split; [exact Hr|]. split; [|apply Hall].
    simpl. vm_compute in Ht. congruence.
Qed.

(** A page with a header, a main part holding an [h1] and a footer scores
    100 and still carries the note of the contrast checker. *)
Lemma C10_issues_nonempty_witness :
  exists r,
    run_accessibility_check
      (fun _ => Page [Bs4.Tag "header" [] [];
                      Bs4.Tag "main" [] [Bs4.Tag "h1" [] [Bs4.NavigableString "Title"]];
                      Bs4.Tag "footer" [] []])
      "https://example.org" = Some r /\ issues r <> [].
Proof.
  exact (proj1 (proj2 C10_issues_nonempty) _ "https://example.org" _ eq_refl).
Defined.

(** ** Further properties *)

(** *** Rounding, from below *)

Module FloatLow.

Import FloatSpec FloatBelow FloatFacts.

Local Open Scope Z_scope.

(** The rounding step never falls below a representable bound. *)
Lemma binary_round_aux_lb (m e : Z) (l : location) (mB : positive) (eB : Z) :
  0 <= m ->
  e <= fexp64 (Zdigits2 m + e) ->
  valid64 mB eB ->
  (F2Q (Zpos mB) eB <= F2Q m e)%Q ->
  GEb (binary_round_aux prec emax false m e l) (F2Q (Zpos mB) eB).
Proof.
  intros Hm Hpre HB Hle.
  destruct (valid64_spec _ _ HB) as [HcB HeB].
  assert (H0 : 0 < m).
  { pose proof (F2Q_pos mB eB) as Hp.
    assert (Hz : (F2Q 0 e == 0)%Q) by (unfold F2Q; ring).
    assert (Hlt : (F2Q 0 e < F2Q m e)%Q) by (rewrite Hz; lra).
    apply F2Q_lt_same in Hlt. exact Hlt. }
  set (d := Zdigits2 m) in *.
  set (dB := Zdigits2 (Zpos mB)) in *.
  set (e' := fexp64 (d + e)) in *.
  destruct (F2Q_digits m e H0) as [Hd1 Hd2]. fold d in Hd1, Hd2.
  destruct (F2Q_digits (Zpos mB) eB ltac:(lia)) as [HB1 HB2]. fold dB in HB1, HB2.
  assert (Hmag : dB + eB <= d + e).
  { assert (Hb : (bpow (dB - 1 + eB) < bpow (d + e))%Q).
    { eapply Qle_lt_trans; [exact HB1|]. eapply Qle_lt_trans; [exact Hle|exact Hd2]. }
    apply bpow_lt_inv in Hb. lia. }
  assert (Hgrid : eB <= e').
  { rewrite <- HcB. apply fexp64_mono. exact Hmag. }
  unfold binary_round_aux.
  destruct (shr_fexp_spec m e l Hm) as (mrs & Hshr & Hm1 & Hex1).
  fold d in Hshr, Hm1, Hex1. fold e' in Hshr, Hm1, Hex1.
  replace (Z.max 0 (e' - e)) with (e' - e) in * by lia.
  rewrite Hshr. replace (e + (e' - e)) with e' by lia.
  set (k := e' - e) in *.
  assert (Hk : 0 <= k) by (subst k; lia).
  assert (Hpk : 0 < 2 ^ k) by (apply Z.pow_pos_nonneg; lia).
  set (m1 := shr_m mrs) in *.
  (* the truncated mantissa is still at least the bound *)
  assert (Hm1B : (F2Q (Zpos mB) eB <= F2Q m1 e')%Q /\ 0 < m1).
  { destruct (Z.eq_dec eB e') as [Heq|Hne].
    - rewrite Heq in *. rewrite <- (F2Q_align (Zpos mB) e' e) in Hle by lia.
      apply F2Q_le_same in Hle. fold k in Hle.
      assert (Zpos mB <= m1) by (rewrite Hm1; apply Z.div_le_lower_bound; lia).
      split; [apply F2Q_le_same; assumption|lia].
    - assert (Hlt : dB + eB < d + e).
      { destruct (Z_lt_ge_dec (dB + eB) (d + e)); [assumption|].
        exfalso. apply Hne. rewrite <- HcB. unfold e'. f_equal. lia. }
      assert (He' : e' = d + e - 53).
      { unfold e', fexp64 in *. lia. }
      assert (Hdk : d - 1 = 52 + k) by (unfold k; lia).
      destruct (Zdigits2_bounds m H0) as [Hlo _]. fold d in Hlo.
      rewrite Hdk, Z.pow_add_r in Hlo by lia.
      assert (H52 : 2 ^ 52 <= m1).
      { rewrite Hm1. apply Z.div_le_lower_bound; lia. }
      split; [|lia].
      apply Qle_trans with (bpow (dB + eB)); [apply Qlt_le_weak; exact HB2|].
      apply Qle_trans with (bpow (52 + e')); [apply bpow_le; lia|].
      apply Qle_trans with (F2Q (2 ^ 52) e').
      + unfold F2Q. rewrite bpow_add, (bpow_Z 52) by lia. apply Qle_refl.
      + apply F2Q_le_same. exact H52. }
  destruct Hm1B as [Hm1B Hm1p].
  set (m2 := round_nearest_even m1 (loc_of_shr_record mrs)).
  assert (Hm2' : m1 <= m2 <= m1 + 1) by apply round_nearest_even_bounds.
  assert (Hm1d : m1 < 2 ^ 53).
  { rewrite Hm1. apply Z.div_lt_upper_bound; [lia|].
    destruct (Zdigits2_bounds m ltac:(lia)) as [_ Hd]. fold d in Hd.
    eapply Z.lt_le_trans; [exact Hd|]. rewrite <- Z.pow_add_r by lia.
    apply Z.pow_le_mono_r; [lia|]. subst k e'. unfold fexp64. lia. }
  assert (He'min : -1074 <= e') by (subst e'; unfold fexp64; lia).
  assert (Hm2B : (F2Q (Zpos mB) eB <= F2Q m2 e')%Q).
  { eapply Qle_trans; [exact Hm1B|]. apply F2Q_le_same. lia. }
  destruct (shr_fexp_spec m2 e' loc_Exact ltac:(lia)) as (mrs2 & Hshr2 & Hm3 & _).
  rewrite Hshr2. clear Hshr2 Hshr.
  destruct (Z.eq_dec m2 (2 ^ 53)) as [Hcarry|Hnc].
  - assert (Hdd : Zdigits2 m2 = 54) by (rewrite Hcarry; reflexivity).
    rewrite Hdd in *.
    replace (Z.max 0 (fexp64 (54 + e') - e')) with 1 in * by (unfold fexp64; lia).
    rewrite Hm3, Hcarry. change (2 ^ 53 / 2 ^ 1) with (Zpos (2 ^ 52)).
    destruct (e' + 1 <=? emax - prec); [|exact I].
    simpl. eapply Qle_trans; [exact Hm2B|]. rewrite Hcarry.
    apply F2Q_le_iff; [lia|]. replace (e' + 1 - e') with 1 by lia.
    vm_compute. discriminate.
  - assert (Hdd : Zdigits2 m2 <= 53) by (apply Zdigits2_le_iff; lia).
    replace (Z.max 0 (fexp64 (Zdigits2 m2 + e') - e')) with 0 in *
      by (unfold fexp64; lia).
    rewrite Z.add_0_r. rewrite Hm3, Z.div_1_r.
    destruct m2 as [|p|p]; [lia| |lia].
    destruct (e' <=? emax - prec); [|exact I].
    simpl. exact Hm2B.
Qed.

Lemma binary_round_lb (m : positive) (e : Z) (mB : positive) (eB : Z) :
  valid64 mB eB ->
  (F2Q (Zpos mB) eB <= F2Q (Zpos m) e)%Q ->
  GEb (binary_round prec emax false m e) (F2Q (Zpos mB) eB).
Proof.
  intros HB Hle. unfold binary_round.
  pose proof (shl_align_spec m e (fexp prec emax (Z.pos (digits2_pos m) + e))) as Hs.
  destruct (shl_align m e (fexp prec emax (Z.pos (digits2_pos m) + e))) as [mz ez].
  destruct Hs as [He Hmz]. rewrite fexp64_eq in He.
  change (Z.pos (digits2_pos m)) with (Zdigits2 (Zpos m)) in He.
  assert (Hv : (F2Q (Zpos mz) ez == F2Q (Zpos m) e)%Q).
  { rewrite Hmz. apply F2Q_align. lia. }
  apply binary_round_aux_lb; try assumption; try lia.
  - rewrite Hmz, Zdigits2_shift by lia.
    replace (Zdigits2 (Z.pos m) + (e - ez) + ez) with (Zdigits2 (Z.pos m) + e) by lia.
    lia.
  - rewrite Hv. assumption.
Qed.

Lemma binary_normalize_lb (M ez : Z) (mB : positive) (eB : Z) :
  valid64 mB eB ->
  (F2Q (Zpos mB) eB <= F2Q M ez)%Q ->
  GEb (binary_normalize prec emax M ez false) (F2Q (Zpos mB) eB).
Proof.
  intros HB Hle.
  assert (H0 : 0 < M).
  { pose proof (F2Q_pos mB eB) as Hp.
    assert (Hz : (F2Q 0 ez == 0)%Q) by (unfold F2Q; ring).
    assert (Hlt : (F2Q 0 ez < F2Q M ez)%Q) by (rewrite Hz; lra).
    apply F2Q_lt_same in Hlt. exact Hlt. }
  destruct M as [|p|p]; try lia.
  simpl. apply binary_round_lb; assumption.
Qed.

Lemma GEb_le r b b' : GEb r b -> (b' <= b)%Q -> GEb r b'.
Proof.
  destruct r as [s|[|]| |[|] m e]; simpl; auto. intros. lra.
Qed.

Lemma SFadd_lb x y bx b_y (mB : positive) (eB : Z) :
  NB x bx -> GEb y b_y -> valid64 mB eB ->
  (F2Q (Zpos mB) eB <= b_y)%Q ->
  GEb (SFadd prec emax x y) (F2Q (Zpos mB) eB).
Proof.
  intros Hx Hy HB Hle.
  destruct x as [sx|sx| |[|] mx ex]; try contradiction;
  destruct y as [sy|[|]| |[|] my ey]; try contradiction; simpl in Hx, Hy.
  - exact I.
  - simpl. lra.
  - exact I.
  - unfold SFadd. simpl cond_Zopp.
    apply binary_normalize_lb; [assumption|].
    rewrite F2Q_plus, !shl_align_fst by lia.
    pose proof (F2Q_pos mx ex). lra.
Qed.

Lemma SFsub_lb mx ex y b_y (mB : positive) (eB : Z) :
  NB y b_y -> valid64 mB eB ->
  (F2Q (Zpos mB) eB <= F2Q (Zpos mx) ex - b_y)%Q ->
  (0 <= b_y)%Q ->
  GEb (SFsub prec emax (S754_finite false mx ex) y) (F2Q (Zpos mB) eB).
Proof.
  intros Hy HB Hle H0.
  destruct y as [sy|sy| |[|] my ey]; try contradiction; simpl in Hy.
  - simpl. lra.
  - unfold SFsub. simpl cond_Zopp.
    apply binary_normalize_lb; [assumption|].
    assert (Hv : (F2Q (Z.pos (fst (shl_align mx ex (Z.min ex ey)))
                       + - Z.pos (fst (shl_align my ey (Z.min ex ey)))) (Z.min ex ey)
                  == F2Q (Zpos mx) ex - F2Q (Zpos my) ey)%Q).
    { change (?a + - ?b) with (a - b). rewrite F2Q_minus, !shl_align_fst by lia.
      reflexivity. }
    simpl Z.opp. simpl Z.opp in Hv. rewrite Hv. lra.
Qed.

Lemma SFmul_lb x bx my ey (mB : positive) (eB : Z) :
  GEb x bx -> 53 <= Zdigits2 (Zpos my) -> valid64 mB eB ->
  (F2Q (Zpos mB) eB <= bx * F2Q (Zpos my) ey)%Q ->
  GEb (SFmul prec emax x (S754_finite false my ey)) (F2Q (Zpos mB) eB).
Proof.
  intros Hx Hd HB Hle.
  destruct x as [sx|[|]| |[|] mx ex]; try contradiction; simpl in Hx.
  - exact I.
  - unfold SFmul. change (xorb false false) with false.
    apply binary_round_aux_lb; try assumption; try lia.
    + assert (53 <= Zdigits2 (Z.pos (mx * my))); [|unfold fexp64; lia].
      destruct (Z_le_gt_dec 53 (Zdigits2 (Z.pos (mx * my)))) as [|Hlt]; [assumption|].
      exfalso.
      assert (H52 : Zdigits2 (Z.pos (mx * my)) <= 52) by lia.
      apply Zdigits2_le_iff in H52; try lia.
      destruct (Zdigits2_bounds (Zpos my) ltac:(lia)) as [Hlo _].
      assert (2 ^ 52 <= 2 ^ (Zdigits2 (Z.pos my) - 1)) by (apply Z.pow_le_mono_r; lia).
      nia.
    + rewrite Pos2Z.inj_mul, F2Q_mult. eapply Qle_trans; [exact Hle|].
      apply Qmult_le_compat_r; [assumption|]. apply Qlt_le_weak, F2Q_pos.
Qed.

Lemma SFdiv_lb x bx my ey (mB : positive) (eB : Z) :
  GEb x bx -> valid64 mB eB ->
  (F2Q (Zpos mB) eB * F2Q (Zpos my) ey <= bx)%Q ->
  GEb (SFdiv prec emax x (S754_finite false my ey)) (F2Q (Zpos mB) eB).
Proof.
  intros Hx HB Hle.
  destruct x as [sx|[|]| |[|] mx ex]; try contradiction; simpl in Hx.
  - exact I.
  - destruct (valid64_spec _ _ HB) as [HcB HeB].
    unfold SFdiv, SFdiv_core_binary. change (xorb false false) with false.
    rewrite !fexp64_eq.
    set (d1 := Zdigits2 (Zpos mx)). set (d2 := Zdigits2 (Zpos my)).
    set (e' := Z.min (fexp64 (d1 + ex - (d2 + ey))) (ex - ey)).
    set (s := ex - ey - e').
    assert (Hs : 0 <= s) by (subst s e'; lia).
    set (m' := match s with Z.pos _ => Z.shiftl (Z.pos mx) s | 0 => Z.pos mx | Z.neg _ => 0 end).
    assert (Hm' : m' = Zpos mx * 2 ^ s).
    { subst m'. destruct s as [|p|p]; [lia| |lia]. apply Z.shiftl_mul_pow2. lia. }
    clearbody m'.
    pose proof (Z_div_mod m' (Zpos my) ltac:(lia)) as Hdm.
    assert (Hqdef : fst (Z.div_eucl m' (Z.pos my)) = m' / Zpos my) by reflexivity.
    destruct (Z.div_eucl m' (Z.pos my)) as [q r]. destruct Hdm as [Hq Hr].
    simpl in Hqdef.
    assert (Hps : 0 < 2 ^ s) by (apply Z.pow_pos_nonneg; lia).
    assert (Hq0 : 0 <= q) by nia.
    assert (Hx' : (F2Q m' (e' + ey) == F2Q (Zpos mx) ex)%Q).
    { rewrite Hm'. replace s with (ex - (e' + ey)) by (subst s; lia).
      apply F2Q_align. subst s. lia. }
    assert (Hy0 := F2Q_pos my ey).
    destruct (Zdigits2_bounds (Zpos mx) ltac:(lia)) as [Hlo1 Hhi1].
    destruct (Zdigits2_bounds (Zpos my) ltac:(lia)) as [Hlo2 Hhi2].
    fold d1 in Hlo1, Hhi1. fold d2 in Hlo2, Hhi2.
    assert (Hd2 : 1 <= d2).
    { subst d2. rewrite Zdigits2_log2 by lia.
      pose proof (Z.log2_nonneg (Zpos my)). lia. }
    assert (Hd1 : 1 <= d1).
    { subst d1. rewrite Zdigits2_log2 by lia.
      pose proof (Z.log2_nonneg (Zpos mx)). lia. }
    apply binary_round_aux_lb; try assumption.
    + (* enough digits *)
      destruct (Z.eq_dec q 0) as [->|Hq1].
      * simpl Zdigits2.
        assert (d1 + s <= d2).
        { assert (H2 : 2 ^ (d1 - 1 + s) < 2 ^ d2).
          { rewrite Z.pow_add_r by lia. nia. }
          apply Z.pow_lt_mono_r_iff in H2; lia. }
        subst e' s. unfold fexp64 in *. lia.
      * assert (Hdq : d1 + s - d2 <= Zdigits2 q).
        { destruct (Z_le_gt_dec (d1 + s - d2) (Zdigits2 q)) as [|Hgt]; [assumption|].
          exfalso.
          assert (Hdq : Zdigits2 q <= d1 + s - d2 - 1) by lia.
          pose proof (Zdigits2_nonneg q).
          apply Zdigits2_le_iff in Hdq; try lia.
          assert (Hc : (q + 1) * Zpos my <= 2 ^ (d1 + s - d2 - 1) * 2 ^ d2).
          { apply Z.mul_le_mono_nonneg; lia. }
          rewrite <- Z.pow_add_r in Hc by lia.
          replace (d1 + s - d2 - 1 + d2) with (d1 - 1 + s) in Hc by lia.
          rewrite Z.pow_add_r in Hc by lia. nia. }
        apply Z.le_trans with (fexp64 (d1 + ex - (d2 + ey))); [subst e'; lia|].
        apply fexp64_mono. subst s. lia.
    + (* the truncated quotient is still at least the bound *)
      assert (HBx : (F2Q (Zpos mB) eB * F2Q (Zpos my) ey <= F2Q m' (e' + ey))%Q)
        by (rewrite Hx'; lra).
      destruct (Z_le_gt_dec e' eB) as [Hge|Hlt].
      * rewrite <- (F2Q_align (Zpos mB) eB e') in HBx by lia.
        rewrite <- F2Q_mult in HBx. apply F2Q_le_same in HBx.
        rewrite <- (F2Q_align (Zpos mB) eB e') by lia.
        apply F2Q_le_same. rewrite Hqdef.
        apply Z.div_le_lower_bound; lia.
      * set (mu := d1 + ex - (d2 + ey)) in *.
        assert (He'mu : e' <= mu - 53) by (unfold e', fexp64 in *; lia).
        assert (HdB : Zdigits2 (Zpos mB) + eB < mu).
        { destruct (Z_lt_ge_dec (Zdigits2 (Zpos mB) + eB) mu); [assumption|].
          exfalso.
          assert (fexp64 mu <= fexp64 (Zdigits2 (Zpos mB) + eB))
            by (apply fexp64_mono; lia).
          unfold e' in Hlt. lia. }
        set (t := mu - 1 - e').
        assert (Ht : 52 <= t) by (unfold t; lia).
        assert (Hqt : 2 ^ t <= q).
        { rewrite Hqdef. apply Z.div_le_lower_bound; [lia|].
          assert (Hpt : 0 < 2 ^ t) by (apply Z.pow_pos_nonneg; lia).
          assert (H1 : Zpos my * 2 ^ t <= 2 ^ d2 * 2 ^ t) by nia.
          rewrite <- Z.pow_add_r in H1 by lia.
          replace (d2 + t) with (d1 - 1 + s) in H1 by (unfold t, mu, s; lia).
          rewrite Z.pow_add_r in H1 by lia. nia. }
        destruct (F2Q_digits (Zpos mB) eB ltac:(lia)) as [_ HB2].
        apply Qle_trans with (bpow (Zdigits2 (Zpos mB) + eB));
          [apply Qlt_le_weak; exact HB2|].
        apply Qle_trans with (bpow (t + e')); [apply bpow_le; unfold t; lia|].
        apply Qle_trans with (F2Q (2 ^ t) e').
        -- unfold F2Q. rewrite bpow_add, (bpow_Z t) by lia. apply Qle_refl.
        -- apply F2Q_le_same. exact Hqt.
Qed.

(** *** Primitive floats, from below *)

Lemma mul_lb x c bx mc ec (mB : positive) (eB : Z) :
  GEb (Prim2SF x) bx -> Prim2SF c = S754_finite false mc ec ->
  53 <= Zdigits2 (Zpos mc) -> valid64 mB eB ->
  (F2Q (Zpos mB) eB <= bx * F2Q (Zpos mc) ec)%Q ->
  GEb (Prim2SF (x * c)) (F2Q (Zpos mB) eB).
Proof.
  intros Hx Hc Hd HB Hle. rewrite mul_spec, Hc. apply SFmul_lb with (bx := bx); assumption.
Qed.

Lemma div_lb x c bx mc ec (mB : positive) (eB : Z) :
  GEb (Prim2SF x) bx -> Prim2SF c = S754_finite false mc ec ->
  valid64 mB eB ->
  (F2Q (Zpos mB) eB * F2Q (Zpos mc) ec <= bx)%Q ->
  GEb (Prim2SF (x / c)) (F2Q (Zpos mB) eB).
Proof.
  intros Hx Hc HB Hle. rewrite div_spec, Hc. apply SFdiv_lb with (bx := bx); assumption.
Qed.

Lemma add_lb x y bx b_y (mB : positive) (eB : Z) :
  NB (Prim2SF x) bx -> GEb (Prim2SF y) b_y -> valid64 mB eB ->
  (F2Q (Zpos mB) eB <= b_y)%Q ->
  GEb (Prim2SF (x + y)) (F2Q (Zpos mB) eB).
Proof.
  intros. rewrite add_spec. apply SFadd_lb with (bx := bx) (b_y := b_y); assumption.
Qed.

Lemma sub_lb c y mc ec b_y (mB : positive) (eB : Z) :
  Prim2SF c = S754_finite false mc ec ->
  NB (Prim2SF y) b_y -> valid64 mB eB ->
  (F2Q (Zpos mB) eB <= F2Q (Zpos mc) ec - b_y)%Q ->
  (0 <= b_y)%Q ->
  GEb (Prim2SF (c - y)) (F2Q (Zpos mB) eB).
Proof.
  intros Hc. intros. rewrite sub_spec, Hc. apply SFsub_lb with (b_y := b_y); assumption.
Qed.

(** A count below 2^63 becomes a float that is at least every
    representable number below the count. *)
Lemma of_count_lb n (mB : positive) (eB : Z) :
  Z.of_nat n < 2 ^ 63 -> valid64 mB eB ->
  (F2Q (Zpos mB) eB <= inject_Z (Z.of_nat n))%Q ->
  GEb (Prim2SF (Py.of_count n)) (F2Q (Zpos mB) eB).
Proof.
  intros Hn HB Hle. unfold Py.of_count. rewrite of_uint63_spec, of_Z_spec.
  change wB with (2 ^ 63). rewrite Z.mod_small by lia.
  apply binary_normalize_lb; [assumption|].
  unfold F2Q at 2. change (bpow 0) with 1%Q. rewrite Qmult_1_r. exact Hle.
Qed.

(** A float at least [c] is not below [c]. *)
Lemma not_ltb x c mc ec :
  Prim2SF c = S754_finite false mc ec ->
  GEb (Prim2SF x) (F2Q (Zpos mc) ec) -> (x <? c)%float = false.
Proof.
  intros Hc Hx. rewrite ltb_spec, Hc.
  destruct (Prim2SF x) as [s|[|]| |[|] m e] eqn:Ex; try contradiction.
  - reflexivity.
  - unfold SFltb. rewrite SFcompare_finite.
    + simpl in Hx. destruct (F2Q (Z.pos m) e ?= F2Q (Z.pos mc) ec)%Q eqn:Hcmp;
        try reflexivity.
      apply Qlt_alt in Hcmp. lra.
    + eapply Prim2SF_valid64; exact Ex.
    + eapply Prim2SF_valid64; exact Hc.
Qed.

(** [round] of a float at least the integer [c] is at least [c]. *)
Lemma round_lb p (c : Z) :
  GEb (Prim2SF p) (inject_Z c) ->
  forall t, Py.round p = Some t -> c <= t.
Proof.
  unfold Py.round. intros H t.
  destruct (Prim2SF p) as [s|[|]| |[|] m e]; try contradiction; try discriminate.
  simpl in H. intros Ht. injection Ht as <-.
  assert (Hc : (F2Q c 0 == inject_Z c)%Q).
  { unfold F2Q. change (bpow 0) with 1%Q. apply Qmult_1_r. }
  rewrite <- Hc in H.
  destruct (Z.leb_spec 0 e) as [He|He].
  - rewrite <- (F2Q_align (Zpos m) e 0) in H by lia.
    apply F2Q_le_same in H. rewrite Z.sub_0_r in H. exact H.
  - rewrite <- (F2Q_align c 0 e) in H by lia.
    apply F2Q_le_same in H. replace (0 - e) with (- e) in H by lia.
    assert (Hd : 0 < 2 ^ (- e)) by (apply Z.pow_pos_nonneg; lia).
    unfold Py.round_half_even. set (d := 2 ^ (- e)) in *.
    assert (Hq : c <= Zpos m / d) by (apply Z.div_le_lower_bound; lia).
    destruct (2 * (Zpos m mod d) ?= d); [destruct (Z.even _)| |]; lia.
Qed.

(** [min(0.5, x)] is a number between 0 and a half. *)
Lemma min_half_NB x :
  nonneg_float x -> NB (Prim2SF (Py.min 0.5 x)) (1 # 2).
Proof.
  intros Hx. unfold Py.min. destruct (x <? 0.5)%float eqn:Hlt; [|q_compute].
  assert (H5 : Prim2SF 0.5 = S754_finite false 4503599627370496 (-53)) by reflexivity.
  pose proof (ltb_NB x 0.5 _ _ H5 Hx Hlt) as H.
  destruct (Prim2SF x) as [s|[|]| |[|] m e]; try contradiction; [exact I|].
  simpl. apply Qlt_le_weak. eapply Qlt_le_trans; [exact H|]. q_compute.
Qed.

(** The penalty [min(0.5, k * 0.1)] leaves at least a half. *)
Lemma contrast_score_lb k :
  GEb (Prim2SF (1 - Py.min 0.5 (Py.of_count k * 0.1)))
      (F2Q 4503599627370496 (-53)).
Proof.
  apply (sub_lb _ _ 4503599627370496 (-52) (1 # 2)).
  - reflexivity.
  - apply min_half_NB. apply mul_nonneg; [apply of_count_nonneg | exact I].
  - reflexivity.
  - q_compute.
  - q_compute.
Qed.

(** A float at least [c] compares so. *)
Lemma GEb_leb x c mc ec :
  Prim2SF c = S754_finite false mc ec ->
  GEb (Prim2SF x) (F2Q (Zpos mc) ec) -> (c <=? x)%float = true.
Proof.
  intros Hc Hx. rewrite leb_spec, Hc.
  destruct (Prim2SF x) as [s|[|]| |[|] m e] eqn:Ex; try contradiction.
  - reflexivity.
  - unfold SFleb. rewrite SFcompare_finite.
    + simpl in Hx. destruct (F2Q (Z.pos mc) ec ?= F2Q (Z.pos m) e)%Q eqn:Hcmp;
        try reflexivity.
      apply Qgt_alt in Hcmp. lra.
    + eapply Prim2SF_valid64; exact Hc.
    + eapply Prim2SF_valid64; exact Ex.
Qed.

(** *** Scores from below *)

(** Three landmarks or more give the full ratio. *)
Lemma landmark_ratio_full n :
  (3 <= n)%nat -> Z.of_nat n < 2 ^ 63 ->
  Py.min 1 (Py.truediv n 3) = 1%float.
Proof.
  intros H3 Hn. unfold Py.min.
  rewrite (not_ltb _ 1 4503599627370496 (-52)); [reflexivity|reflexivity|].
  unfold Py.truediv.
  apply (div_lb _ _ (F2Q 6755399441055744 (-51)) 6755399441055744 (-51)).
  - apply of_count_lb; [exact Hn | reflexivity |].
    apply Qle_trans with (inject_Z 3); [q_compute|].
    rewrite <- Zle_Qle. lia.
  - reflexivity.
  - reflexivity.
  - rewrite F2Q_one. rewrite Qmult_1_l. apply Qle_refl.
Qed.

(** Five matches or more cost the full penalty of a half. *)
Lemma penalty_full k :
  (5 <= k)%nat -> Z.of_nat k < 2 ^ 63 ->
  Py.min 0.5 (Py.of_count k * 0.1) = 0.5%float.
Proof.
  intros H5 Hk. unfold Py.min.
  rewrite (not_ltb _ 0.5 4503599627370496 (-53)); [reflexivity|reflexivity|].
  apply (mul_lb _ _ (F2Q 5629499534213120 (-50)) 7205759403792794 (-56)).
  - apply of_count_lb; [exact Hk | reflexivity |].
    apply Qle_trans with (inject_Z 5); [q_compute|].
    rewrite <- Zle_Qle. lia.
  - reflexivity.
  - vm_compute. discriminate.
  - reflexivity.
  - q_compute.
Qed.

(** The penalty for [k] matches, for every count the embedding converts. *)
Lemma penalty_table k :
  Z.of_nat k < 2 ^ 63 ->
  Py.min 0.5 (Py.of_count k * 0.1)
  = nth (Nat.min k 5)
        [0; 0.1; 0.2; 0.30000000000000004; 0.4; 0.5]%float 0.5%float.
Proof.
  intros Hk.
  destruct (Nat.le_gt_cases 5 k) as [H5|H5].
  - rewrite penalty_full by assumption.
    replace (Nat.min k 5) with 5%nat by lia. reflexivity.
  - do 5 (destruct k as [|k]; [reflexivity|]). lia.
Qed.

(** No miss among a positive number of elements: the quotient is zero. *)
Lemma zero_ratio n :
  (1 <= n)%nat -> Z.of_nat n < 2 ^ 63 ->
  (0 / Py.of_count n)%float = 0%float.
Proof.
  intros H1 Hn. apply Prim2SF_inj. rewrite div_spec.
  assert (H : GEb (Prim2SF (Py.of_count n)) (F2Q 4503599627370496 (-52))).
  { apply of_count_lb; [exact Hn | reflexivity |].
    rewrite F2Q_one. change 1%Q with (inject_Z 1). rewrite <- Zle_Qle. lia. }
  destruct (Prim2SF (Py.of_count n)) as [s|[|]| |[|] m e]; try contradiction;
    reflexivity.
Qed.

Section TotalLow.

Local Open Scope float_scope.

Variables s1 s2 s3 s4 s5 s6 : float.
Hypothesis H1 : unit_float s1.
Hypothesis H2 : unit_float s2.
Hypothesis H3 : unit_float s3.
Hypothesis H4 : unit_float s4.
Hypothesis H5 : unit_float s5.
Hypothesis H6 : GEb (Prim2SF s6) (F2Q 4503599627370496 (-53)).

Ltac term_le m e :=
  eapply (mul_ub _ _ 1 _ _ m e);
  [ eassumption | reflexivity | vm_compute; discriminate | reflexivity
  | q_compute ].

Ltac sum_le l m e :=
  apply (add_ub _ _ l (F2Q (Zpos m) e));
  [ | term_le m e | reflexivity | q_compute | q_compute | q_compute ].

(** The sum is at least the share of the last score: half of 0.15. *)
Lemma weighted_sum_lb :
  GEb (Prim2SF (0 + s1 * 0.15 + s2 * 0.15 + s3 * 0.10
                + s4 * 0.15 + s5 * 0.20 + s6 * 0.15))
      (F2Q 5404319552844595 (-56)).
Proof.
  apply (add_lb _ _ (F2Q 6755399441055745 (-53)) (F2Q 5404319552844595 (-56))).
  - sum_le (F2Q 4953959590107546 (-53)) 7205759403792794%positive (-55)%Z.
    sum_le (F2Q 7205759403792794 (-54)) 5404319552844595%positive (-55)%Z.
    sum_le (F2Q 5404319552844595 (-54)) 7205759403792794%positive (-56)%Z.
    sum_le (F2Q 5404319552844595 (-55)) 5404319552844595%positive (-55)%Z.
    sum_le 0%Q 5404319552844595%positive (-55)%Z.
    exact I.
  - eapply (mul_lb _ _ _ _ _ 5404319552844595 (-56));
      [ exact H6 | reflexivity | vm_compute; discriminate | reflexivity
      | q_compute ].
  - reflexivity.
  - apply Qle_refl.
Qed.

(** The quotient by the weight sum is at least 0.0833, its product by 100
    at least 8, and so is what [round] makes of it. *)
Lemma total_round_lb t :
  Py.round ((0 + s1 * 0.15 + s2 * 0.15 + s3 * 0.10
             + s4 * 0.15 + s5 * 0.20 + s6 * 0.15)
            / (0 + 0.15 + 0.15 + 0.10 + 0.15 + 0.20 + 0.15) * 100) = Some t ->
  (8 <= t)%Z.
Proof.
  apply round_lb.
  eapply GEb_le with (b := F2Q 4503599627370496 (-49)); [|q_compute].
  eapply (mul_lb _ _ (F2Q 6004799503160660 (-56)) _ _ 4503599627370496 (-49));
    [ | reflexivity | vm_compute; discriminate | reflexivity | q_compute ].
  eapply (div_lb _ _ _ _ _ 6004799503160660 (-56));
    [ apply weighted_sum_lb | reflexivity | reflexivity | q_compute ].
Qed.

End TotalLow.

End FloatLow.

(** *** Presenting a report *)

Module PresentFacts.

Import FloatSpec FloatFacts LoopFacts.

Local Open Scope string_scope.
Local Open Scope list_scope.

Local Open Scope Z_scope.

(** [int] of a float between 0 and 100 is an integer between 0 and 100. *)
Lemma int_ub p :
  NB (Prim2SF p) (F2Q 7036874417766400 (-46)) ->
  exists c, PyMore.int p = Some c /\ 0 <= c <= 100.
Proof.
  unfold PyMore.int. intros H.
  destruct (Prim2SF p) as [s|[|]| |[|] m e]; try contradiction.
  - exists 0. split; [reflexivity|lia].
  - simpl in H. eexists. split; [reflexivity|].
    destruct (Z.leb_spec 0 e) as [He|He].
    + apply (F2Q_le_cross _ _ _ _ (e + 46) 0) in H; try lia.
      rewrite Z.pow_add_r in H by lia. change (2 ^ 46) with 70368744177664 in H.
      assert (0 < 2 ^ e) by (apply Z.pow_pos_nonneg; lia).
      change (2 ^ 0) with 1 in H. nia.
    + apply (F2Q_le_cross _ _ _ _ 46 (- e)) in H; try lia.
      change (2 ^ 46) with 70368744177664 in H.
      assert (Hd : 0 < 2 ^ (- e)) by (apply Z.pow_pos_nonneg; lia).
      set (d := 2 ^ (- e)) in *. split.
      * apply Z.div_pos; lia.
      * apply Z.div_le_upper_bound; [lia|]. nia.
Qed.

(** A score in [[0,1]] shows as an integer percentage. *)
Lemma cat_score_unit details :
  unit_float (score details) ->
  exists c, App.cat_score details = Some c /\ 0 <= c <= 100.
Proof.
  intros H. unfold App.cat_score. apply int_ub.
  eapply (mul_ub _ _ 1 _ _ 7036874417766400 (-46));
    [ exact H | reflexivity | vm_compute; discriminate | reflexivity
    | q_compute ].
Qed.

Lemma progress_table :
  forallb (fun k => let v := App.progress_value (Z.of_nat k) in
                    PrimFloat.leb 0 v && PrimFloat.leb v 1)
          (seq 0 101) = true.
Proof. vm_compute. reflexivity. Qed.

Lemma progress_unit c :
  0 <= c <= 100 -> Spec.in_unit (App.progress_value c).
Proof.
  intros Hc. pose proof progress_table as H.
  rewrite forallb_forall in H. specialize (H (Z.to_nat c)).
  rewrite Z2Nat.id in H by lia. cbv zeta in H.
  apply andb_true_iff. apply H. apply in_seq. lia.
Qed.

(** The scores of a report of a fetched page. *)
Lemma run_checks_unit doc :
  Forall (fun c => unit_float (score (snd c))) (run_checks doc).
Proof.
  rewrite run_checks_eq.
  repeat (apply Forall_cons; [cbn [snd score]|]); try apply Forall_nil.
  - apply check_alt_text_unit.
  - apply check_heading_structure_unit.
  - apply check_descriptive_links_unit.
  - apply check_form_labels_unit.
  - apply check_semantic_structure_unit.
  - apply check_color_contrast_unit.
Qed.

Lemma run_checks_titles doc :
  map (fun c => PyMore.title (fst c)) (run_checks doc)
  = [Some "Images"; Some "Headings"; Some "Links"; Some "Forms";
     Some "Structure"; Some "Contrast"].
Proof. rewrite run_checks_eq. reflexivity. Qed.

(** What a report returned by [run_accessibility_check] looks like. *)
Lemma run_report web u r :
  run_accessibility_check web u = Some r ->
  (fetch_url web u = None /\ r = mk_report u 0 [] ["Failed to fetch URL"]) \/
  (exists doc t,
     web u = Page doc /\ (0 <= t <= 100) /\
     Py.round (normalized_score (run_checks doc) * 100) = Some t /\
     r = mk_report u t (run_checks doc) (all_issues (run_checks doc))).
Proof.
  intros Hr. destruct (web u) as [|doc] eqn:Hweb.
  - left.
    assert (Hf : fetch_url web u = None)
      by (unfold fetch_url; rewrite Hweb; reflexivity).
    split; [exact Hf|].
    unfold run_accessibility_check in Hr. rewrite Hf in Hr. congruence.
  - right. destruct (run_success web u doc Hweb) as (t & Hb & Hround & Hr').
    exists doc, t. repeat split; try assumption; try lia. congruence.
Qed.

Lemma run_checks_presentable doc : Forall PresentSpec.presentable (run_checks doc).
Proof.
  pose proof (run_checks_unit doc) as Hu. revert Hu.
  rewrite run_checks_eq. intros Hu.
  repeat match goal with
  | H : Forall _ (_ :: _) |- _ => inversion H; subst; clear H
  end.
  repeat (apply Forall_cons; [split; [assumption | eexists; reflexivity]|]).
  apply Forall_nil.
Qed.

Lemma string_app_nil_r (s : string) : (s ++ "")%string = s.
Proof. induction s as [|c s IH]; simpl; [reflexivity | rewrite IH; reflexivity]. Qed.

Lemma concat_cons (x : string) (xs : list string) :
  String.concat "" (x :: xs) = (x ++ String.concat "" xs)%string.
Proof.
  destruct xs; simpl; [rewrite string_app_nil_r|]; reflexivity.
Qed.

Lemma fmt_app (l1 l2 : list string) :
  PyStr.fmt (l1 ++ l2) = (PyStr.fmt l1 ++ PyStr.fmt l2)%string.
Proof.
  unfold PyStr.fmt. induction l1 as [|x l1 IH]; [reflexivity|].
  rewrite <- app_comm_cons, !concat_cons, IH, append_assoc. reflexivity.
Qed.





(** A float between 0 and the float [c] compares so. *)
Lemma NB_leb x c mc ec :
  Prim2SF c = S754_finite false mc ec ->
  NB (Prim2SF x) (F2Q (Zpos mc) ec) ->
  (0 <=? x)%float = true /\ (x <=? c)%float = true.
Proof.
  intros Hc H. rewrite !leb_spec, Prim2SF_zero, Hc.
  destruct (Prim2SF x) as [s|[|]| |[|] m e] eqn:Ex; try contradiction.
  - split; reflexivity.
  - split; [reflexivity|]. unfold SFleb.
    rewrite SFcompare_finite
      by (eapply Prim2SF_valid64; first [exact Ex | exact Hc]).
    simpl in H.
    destruct (F2Q (Z.pos m) e ?= F2Q (Z.pos mc) ec)%Q eqn:Hcmp; try reflexivity.
    apply Qgt_alt in Hcmp. lra.
Qed.

(** A score in [[0,1]] is plotted between 0 and 100. *)
Lemma plotted_score details :
  unit_float (score details) ->
  (0 <=? score details * 100)%float = true /\
  (score details * 100 <=? 100)%float = true.
Proof.
  intros H. apply (NB_leb _ 100%float 7036874417766400 (-46)); [reflexivity|].
  eapply (mul_ub _ _ 1 _ _ 7036874417766400 (-46));
    [ exact H | reflexivity | vm_compute; discriminate | reflexivity
    | q_compute ].
Qed.

(** The loop of [visualize_results] collects one title and one score for
    each category. *)
Lemma chart_fold cats : forall labels scores,
  Forall PresentSpec.presentable cats ->
  exists titles,
    fold_left chart_step cats (Some (labels, scores))
    = Some (labels ++ titles,
            scores ++ map (fun c => (score (snd c) * 100)%float) cats) /\
    map (fun c => PyMore.title (fst c)) cats = map Some titles.
Proof.
  induction cats as [|[category details] cats IH]; intros labels scores Hall.
  - exists []. simpl. rewrite !app_nil_r. split; reflexivity.
  - inversion Hall as [|? ? [Hu [t Ht]] Hrest]; subst. cbn [fst snd] in *.
    cbn [fold_left]. unfold chart_step at 2. rewrite Ht.
    destruct (IH (labels ++ [t]) (scores ++ [(score details * 100)%float]) Hrest)
      as (titles & Hf & Hm).
    exists (t :: titles). rewrite Hf. split.
    + rewrite <- !app_assoc. reflexivity.
    + cbn [map fst]. rewrite Ht, Hm. reflexivity.
Qed.

(** Closing a loop and dropping the last point gives the points back. *)
Lemma removelast_closed {A} (l : list A) : removelast (l ++ firstn 1 l) = l.
Proof.
  destruct l as [|x l]; [reflexivity|].
  change (firstn 1 (x :: l)) with [x]. apply removelast_last.
Qed.

(** The rows of one category. *)
Lemma issues_inner_fold category t (issues : list string) :
  forall rows : list (string * string),
  PyMore.title category = Some t ->
  fold_left
    (fun (acc : option (list (string * string))) (issue : string) =>
       match acc, PyMore.title category with
       | Some rows, Some title => Some (rows ++ [(title, issue)])
       | _, _ => None
       end) issues (Some rows)
  = Some (rows ++ map (fun issue => (t, issue)) issues).
Proof.
  intros rows Ht. set (f := fun _ _ => _). revert rows.
  induction issues as [|issue issues IH]; intros rows.
  - simpl. rewrite app_nil_r. reflexivity.
  - assert (Hstep : f (Some rows) issue = Some (rows ++ [(t, issue)]))
      by (unfold f; rewrite Ht; reflexivity).
    cbn [fold_left]. rewrite Hstep, IH, <- app_assoc. reflexivity.
Qed.

(** The rows of the table of issues: one for each issue of each category,
    in the order of the report. *)
Lemma issues_fold cats : forall rows0,
  Forall PresentSpec.presentable cats ->
  exists rows,
    fold_left App.issues_step cats (Some rows0) = Some (rows0 ++ rows) /\
    map snd rows = all_issues cats /\
    Forall (fun row => exists c, In c cats /\
                                 PyMore.title (fst c) = Some (fst row)) rows.
Proof.
  induction cats as [|[category details] cats IH]; intros rows0 Hall.
  - exists []. rewrite app_nil_r. repeat split. apply Forall_nil.
  - inversion Hall as [|? ? [Hu [t Ht]] Hrest]; subst. cbn [fst snd] in *.
    cbn [fold_left]. unfold App.issues_step at 2.
    rewrite (issues_inner_fold category t) by exact Ht.
    destruct (IH (rows0 ++ map (fun issue => (t, issue)) (cat_issues details)) Hrest)
      as (rows & Hf & Hs & Hc).
    exists (map (fun issue => (t, issue)) (cat_issues details) ++ rows).
    rewrite Hf, <- app_assoc. split; [reflexivity|]. split.
    + rewrite map_app, map_map, Hs. cbn [snd]. rewrite map_id. reflexivity.
    + apply Forall_app. split.
      * apply Forall_forall. intros row Hin. apply in_map_iff in Hin.
        destruct Hin as (issue & <- & _).
        exists (category, details). split; [left; reflexivity | exact Ht].
      * eapply Forall_impl; [|exact Hc]. intros row (c & Hin & Hc').
        exists c. split; [right; exact Hin | exact Hc'].
Qed.

(** A style that declares a colour contains [color]. *)
Lemma declares_contains kind style :
  Spec.declares kind style -> PyStr.contains "color" style = true.
Proof.
  intros (pre & ws & tail & post & -> & _).
  change ("color:" ++ ws ++ tail ++ post)%string
    with ("color" ++ (":" ++ ws ++ tail ++ post))%string.
  apply contains_app.
Qed.

(** The selector [[style*="color"]] keeps every element that one of the
    two patterns matches. *)
Lemma selected_of_match (p : Re.regex) (kind : string -> Prop) :
  (forall style, Re.search p style = true <-> Spec.declares kind style) ->
  forall elements,
    Spec.count (fun e => Re.search p (Spec.style_of e))
      (filter (fun e => match Bs4.get e "style" with
                        | Some v => PyStr.contains "color" v
                        | None => false
                        end) elements)
    = Spec.count (fun e => Re.search p (Spec.style_of e)) elements.
Proof.
  intros Hp elements. rewrite count_filter. unfold Spec.count. f_equal.
  apply filter_ext. intros e.
  destruct (Re.search p (Spec.style_of e)) eqn:Hs; [|apply andb_false_r].
  rewrite andb_true_r. apply Hp in Hs. apply declares_contains in Hs.
  unfold Spec.style_of, Bs4.get_default in Hs.
  destruct (Bs4.get e "style"); [exact Hs | discriminate Hs].
Qed.

(** A text begins with [a] exactly when it is [a] followed by something. *)
Lemma prefix_spec (a s : string) :
  prefix a s = true -> exists post, s = (a ++ post)%string.
Proof.
  revert s. induction a as [|c a IH]; intros s H.
  - exists s. reflexivity.
  - destruct s as [|c' s]; [discriminate H|]. simpl in H.
    destruct (ascii_dec c c') as [<-|]; [|discriminate H].
    destruct (IH s H) as (post & ->). exists post. reflexivity.
Qed.

Lemma contains_spec (needle s : string) :
  PyStr.contains needle s = true <->
  exists pre post, s = (pre ++ needle ++ post)%string.
Proof.
  split.
  - induction s as [|c s IH]; intros H.
    + cbn [PyStr.contains] in H. rewrite orb_false_r in H.
      destruct (prefix_spec _ _ H) as (post & Hp). exists ""%string, post. exact Hp.
    + cbn [PyStr.contains] in H. apply orb_true_iff in H. destruct H as [H|H].
      * destruct (prefix_spec _ _ H) as (post & Hp). exists ""%string, post. exact Hp.
      * destruct (IH H) as (pre & post & ->).
        exists (String c pre), post. reflexivity.
  - intros (pre & post & ->). apply contains_app.
Qed.

(** The total of six scores of 1.0. *)
Lemma total_of_ones :
  Py.round ((0 + 1 * 0.15 + 1 * 0.15 + 1 * 0.10 + 1 * 0.15 + 1 * 0.20 + 1 * 0.15)
            / (0 + 0.15 + 0.15 + 0.10 + 0.15 + 0.20 + 0.15) * 100)%float
  = Some 100%Z.
Proof. vm_compute. reflexivity. Qed.

End PresentFacts.

(** *** Flawless categories *)

Module EdgeFacts.

Import FloatSpec FloatBelow FloatFacts FloatLow LoopFacts.

Local Open Scope string_scope.
Local Open Scope list_scope.

Lemma length_zero_nil {A} (l : list A) : List.length l = 0 -> l = [].
Proof. destruct l; [reflexivity | discriminate]. Qed.

(** No miss among [n] elements leaves the score at 1.0. *)
Lemma ratio_one n :
  1 <= n -> (Z.of_nat n < 2 ^ 63)%Z ->
  Py.max 0 (1 - Py.truediv 0 n) = 1%float.
Proof.
  intros H1 Hn. unfold Py.truediv.
  change (Py.of_count 0) with 0%float. rewrite zero_ratio by assumption.
  reflexivity.
Qed.

Lemma check_alt_text_clean doc :
  let images := Bs4.find_all ["img"] doc in
  (Z.of_nat (List.length images) < 2 ^ 63)%Z ->
  (check_alt_text doc = (1%float, []) <->
   Spec.count Spec.full_miss images = 0 /\ Spec.count Spec.half_miss images = 0).
Proof.
  cbv zeta. intros Hn. unfold check_alt_text.
  set (images := Bs4.find_all ["img"] doc) in *.
  destruct (Nat.eqb (List.length images) 0) eqn:E.
  - apply Nat.eqb_eq, length_zero_nil in E. rewrite E. split; auto.
  - apply Nat.eqb_neq in E.
    pose proof (alt_fold images (mk_alt_state 0 0 [])) as Hf.
    cbv zeta in Hf. simpl in Hf. destruct Hf as (Hm & He & Hi).
    split.
    + intros Heq. injection Heq as _ Hiss. rewrite Hiss in Hi. simpl in Hi. lia.
    + intros [Hfull Hhalf]. rewrite Hfull, Hhalf in *.
      rewrite Hm, He. apply length_zero_nil in Hi. rewrite Hi. f_equal.
      change (Py.of_count 0 + Py.of_count 0 * 0.5)%float with 0%float.
      rewrite zero_ratio by lia. reflexivity.
Qed.

Lemma check_descriptive_links_clean doc :
  let links := Bs4.find_all ["a"] doc in
  (Z.of_nat (List.length links) < 2 ^ 63)%Z ->
  (check_descriptive_links doc = (1%float, []) <->
   Spec.count Spec.link_miss links = 0).
Proof.
  cbv zeta. intros Hn. unfold check_descriptive_links.
  set (links := Bs4.find_all ["a"] doc) in *.
  destruct links as [|a l] eqn:E; [split; reflexivity|]. rewrite <- E in *.
  pose proof (link_fold links (mk_link_state 0 [])) as Hf.
  cbv zeta in Hf. simpl in Hf. destruct Hf as (Hp & Hi).
  rewrite Hp, Hi. split.
  - intros Heq. injection Heq as _ Hiss.
    rewrite <- link_issues_length, Hiss. reflexivity.
  - intros H0. rewrite H0.
    assert (Hiss : flat_map Spec.link_issue links = []).
    { apply length_zero_nil. rewrite link_issues_length. exact H0. }
    rewrite Hiss. f_equal. apply ratio_one; [rewrite E; simpl; lia | exact Hn].
Qed.

Lemma check_form_labels_clean doc :
  let controls := Spec.controls doc in
  (Z.of_nat (List.length controls) < 2 ^ 63)%Z ->
  (check_form_labels doc = (1%float, []) <->
   Spec.count (fun c => negb (has_label doc c)) controls = 0).
Proof.
  cbv zeta. unfold check_form_labels, Spec.controls. intros Hn.
  pose proof (form_fold doc (Bs4.find_all ["input"; "select"; "textarea"] doc)
                (mk_form_state 0 0 [])) as Hf.
  cbv zeta in Hf. simpl in Hf. destruct Hf as (Ht & Hu & Hi).
  set (inputs := Bs4.find_all ["input"; "select"; "textarea"] doc) in *.
  change (Spec.count Spec.qualifying inputs)
    with (List.length (filter Spec.qualifying inputs)) in Ht.
  destruct inputs as [|c l] eqn:E; [split; reflexivity|]. rewrite <- E in *.
  rewrite Ht.
  destruct (Nat.eqb (List.length (filter Spec.qualifying inputs)) 0) eqn:E0.
  - apply Nat.eqb_eq, length_zero_nil in E0. rewrite E0. split; reflexivity.
  - apply Nat.eqb_neq in E0. rewrite Hu. split.
    + intros Heq. injection Heq as _ Hiss. rewrite Hiss in Hi. simpl in Hi. lia.
    + intros H0. rewrite H0 in *. apply length_zero_nil in Hi. rewrite Hi.
      f_equal. apply ratio_one; [lia | exact Hn].
Qed.

(** The headings are flawless exactly when there is one [h1] and no
    skip. *)
Lemma check_heading_structure_clean doc :
  let headings := Bs4.find_all ["h1"; "h2"; "h3"; "h4"; "h5"; "h6"] doc in
  let levels := map (fun h => heading_level (Bs4.el_name h)) headings in
  check_heading_structure doc = (1%float, []) <->
  List.length (Bs4.find_all ["h1"] doc) = 1 /\ Spec.count_skips 0 levels = 0.
Proof.
  cbv zeta.
  destruct (Bs4.find_all ["h1"; "h2"; "h3"; "h4"; "h5"; "h6"] doc) as [|h hs] eqn:E.
  - unfold check_heading_structure. rewrite E. split; [discriminate|].
    intros [H1 _]. rewrite find_all_h1, E in H1. discriminate H1.
  - assert (Hne : Bs4.find_all ["h1"; "h2"; "h3"; "h4"; "h5"; "h6"] doc <> [])
      by (rewrite E; discriminate).
    destruct (heading_score doc Hne) as [Hs Hl]. rewrite E in Hs, Hl.
    destruct (check_heading_structure doc) as [s iss]. cbn [fst snd] in *.
    split.
    + intros Heq. injection Heq as _ Hiss. rewrite Hiss in Hl. cbn [List.length] in Hl.
      destruct (Nat.eqb_spec (List.length (Bs4.find_all ["h1"] doc)) 1); lia.
    + intros [H1 H0]. rewrite H1, H0 in *. cbn [Nat.eqb Nat.add] in Hl.
      apply length_zero_nil in Hl. rewrite Hs, Hl. reflexivity.
Qed.

(** Three landmarks or more, one of them [main], are flawless; without a
    [main] they score 0.7. *)
Lemma check_semantic_structure_full doc :
  let landmarks := List.length (Bs4.find_all semantic_tags doc) in
  3 <= landmarks -> (Z.of_nat landmarks < 2 ^ 63)%Z ->
  check_semantic_structure doc
  = if Bs4.truthy (Bs4.find "main" doc) then (1%float, [])
    else (0.7%float, ["No <main> element found"]).
Proof.
  cbv zeta. intros H3 Hn. unfold check_semantic_structure.
  rewrite landmark_ratio_full by assumption.
  destruct (Nat.eqb_spec (List.length (Bs4.find_all semantic_tags doc)) 0); [lia|].
  destruct (Bs4.truthy (Bs4.find "main" doc)); reflexivity.
Qed.

(** The contrast score through the number of matches. *)
Lemma contrast_score_eq doc :
  fst (check_color_contrast doc)
  = (1 - Py.min 0.5
           (Py.of_count (PresentSpec.light_count (Spec.styled doc)
                         + PresentSpec.dark_count (Spec.styled doc)) * 0.1))%float.
Proof.
  unfold check_color_contrast.
  pose proof (contrast_fold (Bs4.select_style_contains "color" doc)
                (mk_contrast_state 0 [])) as Hf.
  cbv zeta in Hf. simpl in Hf. destruct Hf as (Hp & _).
  cbv zeta. rewrite Hp.
  destruct (contrast_issues _); reflexivity.
Qed.

(** Without a match the contrast checker leaves its note only. *)
Lemma check_color_contrast_clean doc :
  PresentSpec.light_count (Spec.styled doc) = 0 ->
  PresentSpec.dark_count (Spec.styled doc) = 0 ->
  check_color_contrast doc
  = (1%float, ["Limited contrast check performed (inline styles only)"]).
Proof.
  intros Hl Hd. unfold check_color_contrast.
  pose proof (contrast_fold (Bs4.select_style_contains "color" doc)
                (mk_contrast_state 0 [])) as Hf.
  cbv zeta in Hf. simpl in Hf. destruct Hf as (Hp & _ & _ & Hlen).
  fold (Spec.styled doc) in *.
  unfold PresentSpec.light_count, PresentSpec.dark_count in *.
  rewrite Hl, Hd in *. cbv zeta. rewrite Hp.
  apply length_zero_nil in Hlen. rewrite Hlen. reflexivity.
Qed.

(** A fetched page never totals less than 8: the contrast score keeps at
    least a half of its weight. *)
Lemma total_floor doc t :
  Py.round (normalized_score (run_checks doc) * 100) = Some t -> (8 <= t)%Z.
Proof.
  rewrite run_checks_eq, normalized_score_six. cbn [score].
  apply total_round_lb.
  - apply check_alt_text_unit.
  - apply check_heading_structure_unit.
  - apply check_descriptive_links_unit.
  - apply check_form_labels_unit.
  - apply check_semantic_structure_unit.
  - rewrite contrast_score_eq. apply contrast_score_lb.
Qed.

End EdgeFacts.

(** ** Further properties of the checker and of its presentations *)

Import FloatBelow FloatLow PresentFacts EdgeFacts.

(** X1. [get_score_rating] never gives a lower rating to a higher score,
    and its five ratings are reached exactly on the scores from 90 up,
    from 80 to 89, from 70 to 79, from 50 to 69, and below 50. *)
Theorem X1_rating_scale :
  (forall a b : Z,
     (a <= b)%Z ->
     PresentSpec.rank (get_score_rating a) <= PresentSpec.rank (get_score_rating b)) /\
  (forall score : Z,
     (get_score_rating score = "Excellent" <-> (90 <= score)%Z) /\
     (get_score_rating score = "Good" <-> (80 <= score < 90)%Z) /\
     (get_score_rating score = "Fair" <-> (70 <= score < 80)%Z) /\
     (get_score_rating score = "Poor" <-> (50 <= score < 70)%Z) /\
     (get_score_rating score = "Very Poor" <-> (score < 50)%Z)).
Proof.
  split.
  - intros a b Hab. unfold get_score_rating.
    destruct (Z.leb_spec 90 a), (Z.leb_spec 80 a), (Z.leb_spec 70 a),
             (Z.leb_spec 50 a), (Z.leb_spec 90 b), (Z.leb_spec 80 b),
             (Z.leb_spec 70 b), (Z.leb_spec 50 b);
      try lia; cbv; lia.
  - intros score. unfold get_score_rating.
    destruct (Z.leb_spec 90 score), (Z.leb_spec 80 score),
             (Z.leb_spec 70 score), (Z.leb_spec 50 score);
      try lia;
      repeat split; intros; try discriminate; try lia; try reflexivity.
Qed.

(** A score of 49 is rated no better than a score of 95. *)
Lemma X1_rating_scale_witness :
  PresentSpec.rank (get_score_rating 49) <= PresentSpec.rank (get_score_rating 95).
Proof.
  apply (proj1 X1_rating_scale 49%Z 95%Z). lia.
Defined.

(** X2. For every score the style class chosen by [get_score_class] is
    the rating of [get_score_rating] in lower case with a hyphen for the
    space, and the colour of the score bar is the colour the style sheet
    gives to that class. *)
Theorem X2_class_follows_rating (score : Z) :
  App.get_score_class score = PresentSpec.css_name (get_score_rating score) /\
  In (App.get_score_class score, App.bar_color score) App.class_colors.
Proof.
  unfold App.get_score_class, App.bar_color, get_score_rating.
  destruct (90 <=? score)%Z; [split; [reflexivity | cbv; tauto]|].
  destruct (80 <=? score)%Z; [split; [reflexivity | cbv; tauto]|].
  destruct (70 <=? score)%Z; [split; [reflexivity | cbv; tauto]|].
  destruct (50 <=? score)%Z; split; first [reflexivity | cbv; tauto].
Qed.

(** X3. For every category of a report that [run_accessibility_check]
    returns, [int(score * 100)] does not raise and is an integer from 0
    to 100, and the value handed to the progress bar, that integer
    divided by 100, lies in [[0,1]]. *)
Theorem X3_category_percentages (web : string -> response) (u : string)
        (r : report) (c : string * category_result) :
  run_accessibility_check web u = Some r ->
  In c (categories r) ->
  exists k : Z,
    App.cat_score (snd c) = Some k /\ (0 <= k <= 100)%Z /\
    Spec.in_unit (App.progress_value k).
Proof.
  intros Hr Hin.
  assert (Hu : unit_float (score (snd c))).
  { destruct (run_report web u r Hr) as [[_ ->] | (doc & t & _ & _ & _ & ->)].
    - contradiction Hin.
    - pose proof (run_checks_unit doc) as Hall.
      rewrite Forall_forall in Hall. apply Hall. exact Hin. }
  destruct (cat_score_unit (snd c) Hu) as (k & Hk & Hb).
  exists k. split; [exact Hk|]. split; [exact Hb|]. apply progress_unit. exact Hb.
Qed.

(** The image category of an empty page meets the hypotheses of X3. *)
Lemma X3_category_percentages_witness :
  exists k : Z,
    App.cat_score (mk_category_result 1 []) = Some k /\ (0 <= k <= 100)%Z /\
    Spec.in_unit (App.progress_value k).
Proof.
  apply (X3_category_percentages
           (fun _ => Page []) "https://example.org"
           (mk_report "https://example.org" 61 (run_checks [])
                      (all_issues (run_checks [])))
           ("images", mk_category_result 1 [])).
  - vm_compute. reflexivity.
  - left. reflexivity.
Defined.



(** X5. When the fetch fails, the text that [format_results] makes of the
    report is the title for the URL, the total 0 rated "Very Poor", an
    empty list of categories and the single issue
    "1. Failed to fetch URL". *)
Theorem X5_failure_text (web : string -> response) (u : string) :
  fetch_url web u = None ->
  exists r : report,
    run_accessibility_check web u = Some r /\
    format_results r
    = Some (PyStr.fmt ["## Accessibility Report for "; u; PyMore.nl; PyMore.nl;
                       "### Overall Score: 0/100 - Very Poor"; PyMore.nl; PyMore.nl;
                       "### Category Scores:"; PyMore.nl; PyMore.nl;
                       PyMore.nl; "### Top Issues:"; PyMore.nl; PyMore.nl;
                       "1. Failed to fetch URL"; PyMore.nl]).
Proof.
  intros Hf. unfold run_accessibility_check. rewrite Hf.
  eexists. split; [reflexivity|].
  unfold format_results. cbn [total_score url categories issues fold_left].
  cbn [firstn List.length Nat.ltb Nat.leb PyMore.enumerate seq combine fold_left
       format_issue].
  rewrite <- !fmt_app. reflexivity.
Qed.

(** A world in which every request fails meets the hypothesis of X5. *)
Lemma X5_failure_text_witness :
  exists r : report,
    run_accessibility_check (fun _ => RequestException) "https://down.example"
    = Some r /\
    format_results r
    = Some (PyStr.fmt ["## Accessibility Report for "; "https://down.example";
                       PyMore.nl; PyMore.nl;
                       "### Overall Score: 0/100 - Very Poor"; PyMore.nl; PyMore.nl;
                       "### Category Scores:"; PyMore.nl; PyMore.nl;
                       PyMore.nl; "### Top Issues:"; PyMore.nl; PyMore.nl;
                       "1. Failed to fetch URL"; PyMore.nl]).
Proof.
  exact (X5_failure_text (fun _ => RequestException) "https://down.example" eq_refl).
Defined.

(** X6. [visualize_results] builds a chart for every report that
    [run_accessibility_check] returns: the plotted angles and scores are
    equally many, there is one tick with one label for each category, the
    plotted angles are the tick angles followed by the first of them, and
    every plotted score lies between 0 and 100, the limits of the
    chart. *)
Theorem X6_chart_data (web : string -> response) (u : string) (r : report) :
  run_accessibility_check web u = Some r ->
  exists chart : radar_chart,
    visualize_results r = Some chart /\
    List.length (plot_angles chart) = List.length (plot_scores chart) /\
    List.length (tick_angles chart) = List.length (tick_labels chart) /\
    List.length (tick_labels chart) = List.length (categories r) /\
    plot_angles chart = tick_angles chart ++ firstn 1 (tick_angles chart) /\
    Forall (fun s => (0 <=? s)%float = true /\ (s <=? 100)%float = true)
           (plot_scores chart).
Proof.
  intros Hr.
  assert (Hall : Forall PresentSpec.presentable (categories r)).
  { destruct (run_report web u r Hr) as [[_ ->] | (doc & t & _ & _ & _ & ->)].
    - apply Forall_nil.
    - apply run_checks_presentable. }
  destruct (chart_fold (categories r) [] [] Hall) as (titles & Hfold & Htitles).
  unfold visualize_results. rewrite Hfold. cbn [app].
  assert (Hlen : List.length titles = List.length (categories r)).
  { apply (f_equal (@List.length _)) in Htitles.
    rewrite !length_map in Htitles. symmetry. exact Htitles. }
  eexists. split; [reflexivity|]. cbn [plot_angles plot_scores tick_angles tick_labels].
  rewrite removelast_closed.
  set (angles := map _ (seq 0 (List.length titles))).
  set (scores := map _ (categories r)).
  assert (Ha : List.length angles = List.length titles)
    by (unfold angles; rewrite length_map, length_seq; reflexivity).
  assert (Hs : List.length scores = List.length titles)
    by (unfold scores; rewrite length_map; symmetry; exact Hlen).
  assert (Hscores : Forall (fun s => (0 <=? s)%float = true /\ (s <=? 100)%float = true)
                           scores).
  { unfold scores. apply Forall_map. eapply Forall_impl; [|exact Hall].
    intros c [Hu _]. apply plotted_score. exact Hu. }
  repeat split.
  - rewrite !length_app, Ha, Hs. f_equal.
    destruct angles, scores, titles; try discriminate; reflexivity.
  - exact Ha.
  - exact Hlen.
  - apply Forall_app. split; [exact Hscores|].
    destruct scores as [|s scores]; [apply Forall_nil|].
    inversion Hscores; subst. apply Forall_cons; [assumption | apply Forall_nil].
Qed.

(** The report of an empty page meets the hypothesis of X6. *)
Lemma X6_chart_data_witness :
  exists chart : radar_chart,
    visualize_results (mk_report "https://example.org" 61 (run_checks [])
                                 (all_issues (run_checks []))) = Some chart /\
    List.length (plot_angles chart) = List.length (plot_scores chart).
Proof.
  destruct (X6_chart_data (fun _ => Page []) "https://example.org"
              (mk_report "https://example.org" 61 (run_checks [])
                         (all_issues (run_checks []))))
    as (chart & Hc & Hl & _).
  - vm_compute. reflexivity.
  - exists chart. split; assumption.
Defined.

(** X7. The table of issues offered for download has, for a fetched page,
    one row for each issue of the report, in the order of the report and
    under the title of one of the six categories, and it is never empty;
    for a failed fetch it has no row. *)
Theorem X7_issue_table (web : string -> response) (u : string) (r : report) :
  run_accessibility_check web u = Some r ->
  exists rows : list (string * string),
    App.issues_data r = Some rows /\
    (fetch_url web u = None -> rows = []) /\
    (forall doc, web u = Page doc ->
       map snd rows = issues r /\ rows <> [] /\
       Forall (fun row => In (fst row)
                 ["Images"; "Headings"; "Links"; "Forms"; "Structure"; "Contrast"])
              rows).
Proof.
  intros Hr.
  destruct (run_report web u r Hr) as [[Hf ->] | (doc & t & Hweb & _ & _ & ->)].
  - exists []. split; [reflexivity|]. split; [reflexivity|].
    intros doc Hweb. unfold fetch_url in Hf. rewrite Hweb in Hf. discriminate Hf.
  - destruct (issues_fold (run_checks doc) [] (run_checks_presentable doc))
      as (rows & Hfold & Hsnd & Hcat).
    exists rows. split; [exact Hfold|]. split.
    + intros Hf. unfold fetch_url in Hf. rewrite Hweb in Hf. discriminate Hf.
    + intros doc' Hweb'. rewrite Hweb in Hweb'. injection Hweb' as <-.
      cbn [issues]. split; [exact Hsnd|]. split.
      * intros Hnil. rewrite Hnil in Hsnd. simpl in Hsnd.
        assert (Hne : all_issues (run_checks doc) <> []).
        { rewrite run_checks_eq. unfold all_issues. cbn [flat_map snd cat_issues].
          rewrite app_nil_r. intros Happ.
          repeat (apply app_eq_nil in Happ; destruct Happ as [_ Happ]).
          exact (contrast_issues_nonempty doc Happ). }
        apply Hne. symmetry. exact Hsnd.
      * eapply Forall_impl; [|exact Hcat]. intros row (c & Hin & Ht).
        pose proof (run_checks_titles doc) as Htitles.
        assert (Hin' : In (PyMore.title (fst c))
                          (map (fun c => PyMore.title (fst c)) (run_checks doc)))
          by (apply (in_map (fun c => PyMore.title (fst c))); exact Hin).
        rewrite Htitles, Ht in Hin'. cbn [In] in Hin'.
        cbn [In].
        repeat (destruct Hin' as [Hin'|Hin'];
                [injection Hin' as <-; tauto|]).
        contradiction Hin'.
Qed.

(** The report of an empty page meets the hypothesis of X7. *)
Lemma X7_issue_table_witness :
  exists rows : list (string * string),
    App.issues_data (mk_report "https://example.org" 61 (run_checks [])
                               (all_issues (run_checks []))) = Some rows /\
    rows <> [].
Proof.
  destruct (X7_issue_table (fun _ => Page []) "https://example.org"
              (mk_report "https://example.org" 61 (run_checks [])
                         (all_issues (run_checks []))))
    as (rows & Hrows & _ & Hpage).
  - vm_compute. reflexivity.
  - exists rows. split; [exact Hrows|]. exact (proj1 (proj2 (Hpage [] eq_refl))).
Defined.

(** X8. The address check of the page accepts a text exactly when it
    contains the character [@]; a lone [@] is accepted. *)
Theorem X8_email_accepted (recipient_email : string) :
  App.email_accepted recipient_email = true <->
  exists before after : string,
    recipient_email = (before ++ "@" ++ after)%string.
Proof.
  unfold App.email_accepted. rewrite <- contains_spec. split.
  - intros H. apply andb_true_iff in H. exact (proj2 H).
  - intros H. rewrite H, andb_true_r.
    destruct recipient_email; [discriminate H | reflexivity].
Qed.

(** X9. A fetched page never totals less than 8, so that a report has
    total 0 exactly when the fetch failed. *)
Theorem X9_total_floor (web : string -> response) (u : string) (r : report) :
  run_accessibility_check web u = Some r ->
  (forall doc, web u = Page doc -> (8 <= total_score r <= 100)%Z) /\
  (total_score r = 0%Z <-> fetch_url web u = None).
Proof.
  intros Hr.
  destruct (run_report web u r Hr) as [[Hf ->] | (doc & t & Hweb & Hb & Hround & ->)].
  - split.
    + intros doc Hweb. unfold fetch_url in Hf. rewrite Hweb in Hf. discriminate Hf.
    + split; [intros _; exact Hf | reflexivity].
  - pose proof (total_floor doc t Hround) as H8. cbn [total_score]. split.
    + intros _ _. lia.
    + split; [lia|]. intros Hf. unfold fetch_url in Hf. rewrite Hweb in Hf.
      discriminate Hf.
Qed.

(** A page on which every checker finds its worst totals exactly 8: the
    bound of X9 is reached. *)
Lemma X9_total_floor_witness :
  let doc := [Bs4.Tag "img" [] [];
              Bs4.Tag "a" [("href", "/")] [];
              Bs4.Tag "input" [("type", "text")] [];
              Bs4.Tag "p" [("style", "color:#fff;background-color:#000")] [];
              Bs4.Tag "p" [("style", "color:#eee;background-color:#111")] [];
              Bs4.Tag "p" [("style", "color:#fff;background-color:#222")] []] in
  let r := mk_report "https://example.org" 8 (run_checks doc)
                     (all_issues (run_checks doc)) in
  run_accessibility_check (fun _ => Page doc) "https://example.org" = Some r /\
  (8 <= total_score r <= 100)%Z.
Proof.
  cbv zeta.
  assert (Hr : run_accessibility_check
                 (fun _ => Page
                    [Bs4.Tag "img" [] [];
                     Bs4.Tag "a" [("href", "/")] [];
                     Bs4.Tag "input" [("type", "text")] [];
                     Bs4.Tag "p" [("style", "color:#fff;background-color:#000")] [];
                     Bs4.Tag "p" [("style", "color:#eee;background-color:#111")] [];
                     Bs4.Tag "p" [("style", "color:#fff;background-color:#222")] []])
                 "https://example.org"
               = Some (mk_report "https://example.org" 8
                         (run_checks
                            [Bs4.Tag "img" [] [];
                             Bs4.Tag "a" [("href", "/")] [];
                             Bs4.Tag "input" [("type", "text")] [];
                             Bs4.Tag "p" [("style", "color:#fff;background-color:#000")] [];
                             Bs4.Tag "p" [("style", "color:#eee;background-color:#111")] [];
                             Bs4.Tag "p" [("style", "color:#fff;background-color:#222")] []])
                         (all_issues
                            (run_checks
                               [Bs4.Tag "img" [] [];
                                Bs4.Tag "a" [("href", "/")] [];
                                Bs4.Tag "input" [("type", "text")] [];
                                Bs4.Tag "p" [("style", "color:#fff;background-color:#000")] [];
                                Bs4.Tag "p" [("style", "color:#eee;background-color:#111")] [];
                                Bs4.Tag "p" [("style", "color:#fff;background-color:#222")] []]))))
    by (vm_compute; reflexivity).
  split; [exact Hr|].
  exact (proj1 (X9_total_floor _ _ _ Hr) _ eq_refl).
Defined.

(** X10. The contrast score is never below 0.5; for [k] matches it is
    1.0, 0.9, 0.8, 0.7 or 0.6 when [k] is 0 to 4 and 0.5 from five matches
    on (for every count below 2^63, the counts that the embedding
    converts to a float). *)
Theorem X10_contrast_scores (doc : Bs4.soup) :
  let k := PresentSpec.light_count (Spec.styled doc)
           + PresentSpec.dark_count (Spec.styled doc) in
  (0.5 <=? fst (check_color_contrast doc))%float = true /\
  ((Z.of_nat k < 2 ^ 63)%Z ->
   fst (check_color_contrast doc)
   = nth (Nat.min k 5) [1; 0.9; 0.8; 0.7; 0.6; 0.5]%float 0.5%float).
Proof.
  cbv zeta. rewrite contrast_score_eq. split.
  - apply (GEb_leb _ 0.5%float 4503599627370496 (-53)); [reflexivity|].
    apply contrast_score_lb.
  - intros Hk. rewrite penalty_table by exact Hk.
    set (k := PresentSpec.light_count _ + PresentSpec.dark_count _).
    assert (Hm : Nat.min k 5 <= 5) by lia.
    destruct (Nat.min k 5) as [|[|[|[|[|[|j]]]]]]; try reflexivity. lia.
Qed.

(** Six matches, a light and a dark one on each of three elements, score
    0.5. *)
Lemma X10_contrast_scores_witness :
  fst (check_color_contrast
         [Bs4.Tag "p" [("style", "color:#fff;background-color:#000")] [];
          Bs4.Tag "p" [("style", "color:#eee;background-color:#111")] [];
          Bs4.Tag "p" [("style", "color:#fff;background-color:#222")] []])
  = 0.5%float.
Proof.
  refine (proj2 (X10_contrast_scores _) _). vm_compute. reflexivity.
Defined.

(** X11. With three landmarks or more (fewer than 2^63) the structure
    checker returns 1.0 and no issue when one of them is a [main], and 0.7
    with the issue "No <main> element found" otherwise. *)
Theorem X11_structure_full_credit (doc : Bs4.soup) :
  let landmarks := List.length (Bs4.find_all semantic_tags doc) in
  3 <= landmarks -> (Z.of_nat landmarks < 2 ^ 63)%Z ->
  check_semantic_structure doc
  = if Bs4.truthy (Bs4.find "main" doc) then (1%float, [])
    else (0.7%float, ["No <main> element found"]).
Proof. exact (check_semantic_structure_full doc). Qed.

(** A page with a header, a navigation, a section and a footer but no
    [main] meets the hypotheses of X11. *)
Lemma X11_structure_full_credit_witness :
  check_semantic_structure
    [Bs4.Tag "header" [] [Bs4.Tag "nav" [] []];
     Bs4.Tag "section" [] []; Bs4.Tag "footer" [] []]
  = (0.7%float, ["No <main> element found"]).
Proof.
  apply (X11_structure_full_credit
           [Bs4.Tag "header" [] [Bs4.Tag "nav" [] []];
            Bs4.Tag "section" [] []; Bs4.Tag "footer" [] []]).
  - vm_compute. lia.
  - vm_compute. reflexivity.
Defined.

(** X12. The image, link and form checkers return 1.0 with no issue
    exactly when they count no miss: no image without [alt] or with a
    blank [alt] that is not decorative, no anchor with an empty or poor
    text, no counted control without a label (for fewer than 2^63
    elements of each kind). *)
Theorem X12_flawless_ratios (doc : Bs4.soup) :
  let images := Bs4.find_all ["img"] doc in
  let links := Bs4.find_all ["a"] doc in
  let controls := Spec.controls doc in
  (Z.of_nat (List.length images) < 2 ^ 63)%Z ->
  (Z.of_nat (List.length links) < 2 ^ 63)%Z ->
  (Z.of_nat (List.length controls) < 2 ^ 63)%Z ->
  (check_alt_text doc = (1%float, []) <->
   Spec.count Spec.full_miss images = 0 /\ Spec.count Spec.half_miss images = 0) /\
  (check_descriptive_links doc = (1%float, []) <->
   Spec.count Spec.link_miss links = 0) /\
  (check_form_labels doc = (1%float, []) <->
   Spec.count (fun c => negb (has_label doc c)) controls = 0).
Proof.
  cbv zeta. intros Hi Hl Hc. split; [|split].
  - apply check_alt_text_clean. exact Hi.
  - apply check_descriptive_links_clean. exact Hl.
  - apply check_form_labels_clean. exact Hc.
Qed.

(** A page with a described image, a descriptive link and a labeled
    input meets the hypotheses of X12. *)
Lemma X12_flawless_ratios_witness :
  let doc := [Bs4.Tag "img" [("alt", "The team")] [];
              Bs4.Tag "a" [("href", "/docs")] [Bs4.NavigableString "Documentation"];
              Bs4.Tag "input" [("type", "text"); ("aria-label", "Search")] []] in
  check_alt_text doc = (1%float, []) /\
  check_descriptive_links doc = (1%float, []) /\
  check_form_labels doc = (1%float, []).
Proof.
  cbv zeta.
  destruct (X12_flawless_ratios
              [Bs4.Tag "img" [("alt", "The team")] [];
               Bs4.Tag "a" [("href", "/docs")] [Bs4.NavigableString "Documentation"];
               Bs4.Tag "input" [("type", "text"); ("aria-label", "Search")] []])
    as (Hi & Hl & Hc); try (vm_compute; reflexivity).
  split; [|split].
  - apply Hi. vm_compute. split; reflexivity.
  - apply Hl. vm_compute. reflexivity.
  - apply Hc. vm_compute. reflexivity.
Defined.

(** X13. The heading checker returns 1.0 with no issue exactly when the
    page has exactly one [h1] and no heading skips a level. *)
Theorem X13_flawless_headings (doc : Bs4.soup) :
  let headings := Bs4.find_all ["h1"; "h2"; "h3"; "h4"; "h5"; "h6"] doc in
  let levels := map (fun h => heading_level (Bs4.el_name h)) headings in
  check_heading_structure doc = (1%float, []) <->
  List.length (Bs4.find_all ["h1"] doc) = 1 /\ Spec.count_skips 0 levels = 0.
Proof. exact (check_heading_structure_clean doc). Qed.

(** An [h1] followed by an [h2] and an [h3] is flawless. *)
Lemma X13_flawless_headings_witness :
  check_heading_structure
    [Bs4.Tag "h1" [] [Bs4.NavigableString "Title"];
     Bs4.Tag "h2" [] [Bs4.NavigableString "Part"];
     Bs4.Tag "h3" [] [Bs4.NavigableString "Detail"]]
  = (1%float, []).
Proof.
  apply (proj2 (X13_flawless_headings
                  [Bs4.Tag "h1" [] [Bs4.NavigableString "Title"];
                   Bs4.Tag "h2" [] [Bs4.NavigableString "Part"];
                   Bs4.Tag "h3" [] [Bs4.NavigableString "Detail"]])).
  vm_compute. split; reflexivity.
Defined.

(** X14. A fetched page with no miss in images, links and forms, exactly
    one [h1] and no heading skip, three landmarks or more with a [main],
    and no match of the contrast patterns gets the total 100, rated
    "Excellent", and the note of the contrast checker as its only
    issue. *)
Theorem X14_flawless_page (web : string -> response) (u : string)
        (doc : Bs4.soup) :
  let images := Bs4.find_all ["img"] doc in
  let links := Bs4.find_all ["a"] doc in
  let controls := Spec.controls doc in
  let headings := Bs4.find_all ["h1"; "h2"; "h3"; "h4"; "h5"; "h6"] doc in
  let levels := map (fun h => heading_level (Bs4.el_name h)) headings in
  let landmarks := List.length (Bs4.find_all semantic_tags doc) in
  web u = Page doc ->
  (Z.of_nat (List.length images) < 2 ^ 63)%Z ->
  (Z.of_nat (List.length links) < 2 ^ 63)%Z ->
  (Z.of_nat (List.length controls) < 2 ^ 63)%Z ->
  (Z.of_nat landmarks < 2 ^ 63)%Z ->
  Spec.count Spec.full_miss images = 0 ->
  Spec.count Spec.half_miss images = 0 ->
  List.length (Bs4.find_all ["h1"] doc) = 1 ->
  Spec.count_skips 0 levels = 0 ->
  Spec.count Spec.link_miss links = 0 ->
  Spec.count (fun c => negb (has_label doc c)) controls = 0 ->
  3 <= landmarks ->
  Bs4.truthy (Bs4.find "main" doc) = true ->
  PresentSpec.light_count (Spec.styled doc) = 0 ->
  PresentSpec.dark_count (Spec.styled doc) = 0 ->
  exists r : report,
    run_accessibility_check web u = Some r /\
    total_score r = 100%Z /\
    get_score_rating (total_score r) = "Excellent" /\
    issues r = ["Limited contrast check performed (inline styles only)"] /\
    Forall (fun c => score (snd c) = 1%float) (categories r).
Proof.
  cbv zeta.
  intros Hweb Hni Hnl Hnc Hnm Hfull Hhalf Hh1 Hskip Hlink Hform H3 Hmain Hlight Hdark.
  destruct (run_success web u doc Hweb) as (t & _ & Hround & Hr).
  assert (Hcats : run_checks doc =
    [("images", mk_category_result 1 []);
     ("headings", mk_category_result 1 []);
     ("links", mk_category_result 1 []);
     ("forms", mk_category_result 1 []);
     ("structure", mk_category_result 1 []);
     ("contrast", mk_category_result 1
        ["Limited contrast check performed (inline styles only)"])]).
  { rewrite run_checks_eq.
    rewrite (proj2 (check_alt_text_clean doc Hni) (conj Hfull Hhalf)).
    rewrite (proj2 (check_heading_structure_clean doc) (conj Hh1 Hskip)).
    rewrite (proj2 (check_descriptive_links_clean doc Hnl) Hlink).
    rewrite (proj2 (check_form_labels_clean doc Hnc) Hform).
    rewrite (check_semantic_structure_full doc H3 Hnm), Hmain.
    rewrite (check_color_contrast_clean doc Hlight Hdark).
    reflexivity. }
  rewrite Hcats in Hr, Hround.
  rewrite normalized_score_six in Hround. cbn [score] in Hround.
  rewrite total_of_ones in Hround. injection Hround as <-.
  eexists. split; [exact Hr|]. cbn [total_score issues categories].
  split; [reflexivity|]. split; [reflexivity|]. split; [reflexivity|].
  repeat (apply Forall_cons; [reflexivity|]). apply Forall_nil.
Qed.

(** A page with a header, a main part holding an [h1], a described image,
    a descriptive link and a labeled input, and a footer meets the
    hypotheses of X14. *)
Lemma X14_flawless_page_witness :
  exists r : report,
    run_accessibility_check
      (fun _ => Page
         [Bs4.Tag "header" [] [];
          Bs4.Tag "main" []
            [Bs4.Tag "h1" [] [Bs4.NavigableString "Title"];
             Bs4.Tag "img" [("alt", "The team")] [];
             Bs4.Tag "a" [("href", "/docs")] [Bs4.NavigableString "Documentation"];
             Bs4.Tag "input" [("type", "text"); ("aria-label", "Search")] []];
          Bs4.Tag "footer" [] []])
      "https://example.org" = Some r /\
    total_score r = 100%Z.
Proof.
  destruct (X14_flawless_page
              (fun _ => Page
                 [Bs4.Tag "header" [] [];
                  Bs4.Tag "main" []
                    [Bs4.Tag "h1" [] [Bs4.NavigableString "Title"];
                     Bs4.Tag "img" [("alt", "The team")] [];
                     Bs4.Tag "a" [("href", "/docs")] [Bs4.NavigableString "Documentation"];
                     Bs4.Tag "input" [("type", "text"); ("aria-label", "Search")] []];
                  Bs4.Tag "footer" [] []])
              "https://example.org" _ eq_refl)
    as (r & Hr & Ht & _); try (vm_compute; reflexivity).
  exists r. split; assumption.
Defined.

(** X15. The selector [[style*="color"]] hides no match from the contrast
    checker: the light and the dark matches among the selected elements
    are those among all the tags of the document, and the score is
    [1 - min(0.5, matches * 0.1)] over all tags. *)
Theorem X15_selector_keeps_matches (doc : Bs4.soup) :
  PresentSpec.light_count (Spec.styled doc)
  = PresentSpec.light_count (Bs4.all_tags doc) /\
  PresentSpec.dark_count (Spec.styled doc)
  = PresentSpec.dark_count (Bs4.all_tags doc) /\
  fst (check_color_contrast doc)
  = (1 - Py.min 0.5
           (Py.of_count (PresentSpec.light_count (Bs4.all_tags doc)
                         + PresentSpec.dark_count (Bs4.all_tags doc)) * 0.1))%float.
Proof.
  assert (Hl : PresentSpec.light_count (Spec.styled doc)
               = PresentSpec.light_count (Bs4.all_tags doc))
    by exact (selected_of_match light_pattern Spec.light_tail light_pattern_spec
                (Bs4.all_tags doc)).
  assert (Hd : PresentSpec.dark_count (Spec.styled doc)
               = PresentSpec.dark_count (Bs4.all_tags doc))
    by exact (selected_of_match dark_pattern Spec.dark_tail dark_pattern_spec
                (Bs4.all_tags doc)).
  split; [exact Hl|]. split; [exact Hd|].
  rewrite contrast_score_eq, Hl, Hd. reflexivity.
Qed.
